(** * Keras experimental saving library: a shallow embedding

    Embedding of [keras/saving/experimental/saving_lib.py]: the polymorphic
    codec ([serialize_keras_object], [deserialize_keras_object]), the walk
    over the children of a trackable ([_get_unique_children_dict]) and the
    archive writer and reader ([save], [load], [_save_state], [_load_state]).

    Python exceptions are values of [pyerror]; code that touches the file
    system, the open archive or the runtime state of objects runs in a
    state-and-exception monad over [world], in which the effects made before
    an exception stay. *)

From Stdlib Require Import ZArith Ascii String.
From stdpp Require Import gmap strings list fin_maps pretty.

Local Open Scope string_scope.
Set Warnings "-register-all".

(** ** Python values *)

Module Py.

(** JSON-compatible values: what a config and a config dict are made of. *)
Inductive pyval : Type :=
| VNone
| VBool (b : bool)
| VInt (n : Z)
| VStr (s : string)
| VList (items : list pyval)
| VDict (items : list (string * pyval)).

(** [a == b] on JSON-compatible values. *)
Fixpoint pyval_eqb (a b : pyval) {struct a} : bool :=
  match a, b with
  | VNone, VNone => true
  | VBool x, VBool y => Bool.eqb x y
  | VInt x, VInt y => Z.eqb x y
  | VStr x, VStr y => String.eqb x y
  | VList xs, VList ys =>
      (fix go (l1 l2 : list pyval) {struct l1} : bool :=
         match l1, l2 with
         | [], [] => true
         | x :: l1', y :: l2' => pyval_eqb x y && go l1' l2'
         | _, _ => false
         end) xs ys
  | VDict xs, VDict ys =>
      (fix go (l1 l2 : list (string * pyval)) {struct l1} : bool :=
         match l1, l2 with
         | [], [] => true
         | (k1, x) :: l1', (k2, y) :: l2' =>
             String.eqb k1 k2 && pyval_eqb x y && go l1' l2'
         | _, _ => false
         end) xs ys
  | _, _ => false
  end.

(** The exceptions the code raises or lets through. *)
Inductive pyerror : Type :=
| TypeError
| KeyError
| AttributeError
| ImportError
| ValueError
| FileExistsError
| FileNotFoundError
| OSError
| BadZipFile
| RecursionError.

(** A pure computation that returns or raises. *)
Inductive result (A : Type) : Type :=
| Ok (a : A)
| Err (e : pyerror).
Arguments Ok {A} a.
Arguments Err {A} e.

Definition rbind {A B : Type} (r : result A) (k : A -> result B) : result B :=
  match r with
  | Ok a => k a
  | Err e => Err e
  end.

(** A class object, known by [__module__] and [__name__]. *)
Record pyclass : Type := {
  cls_module : string;
  cls_name : string
}.

Definition pyclass_eqb (c d : pyclass) : bool :=
  String.eqb (cls_module c) (cls_module d) && String.eqb (cls_name c) (cls_name d).

(** [id(obj)]. *)
Abbreviation oid := nat (only parsing).

(** How [__eq__] and [__hash__] behave on an object: the default ones compare
    identities, a class may compare by a value, and a class such as a list
    wrapper has no hash at all. *)
Inductive eqmode : Type :=
| ByIdentity
| ByValue (key : pyval)
| Unhashable.

(** What the code asks of an instance. *)
Record attrs : Type := {
  a_variable : bool;          (* isinstance(obj, tf.Variable) *)
  a_layer : bool;             (* isinstance(obj, base_layer.Layer) *)
  a_eq : eqmode;              (* __eq__ and __hash__ *)
  a_config : option pyval;    (* get_config(), when the attribute exists *)
  a_save_state : bool;        (* hasattr(obj, "_save_state") *)
  a_load_state : bool         (* hasattr(obj, "_load_state") *)
}.

(** Live objects. An instance carries its identity and the named children
    that the object graph view reports for it, so an object graph is
    represented by its unfolding from the root; an object reachable twice
    occurs twice, with the same identity. *)
Inductive pyobj : Type :=
| PyNone
| PyStr (s : string)
| PyFunction (id : oid) (fmodule fname : string)
| PyClass (c : pyclass)
| PyList (id : oid) (items : list pyobj)
| PyObject (id : oid) (cls : pyclass) (a : attrs) (children : list (string * pyobj)).

Definition builtins_class (name : string) : pyclass :=
  {| cls_module := "builtins"; cls_name := name |}.

(** [obj.__class__]. *)
Definition class_of (obj : pyobj) : pyclass :=
  match obj with
  | PyNone => builtins_class "NoneType"
  | PyStr _ => builtins_class "str"
  | PyFunction _ _ _ => builtins_class "function"
  | PyClass _ => builtins_class "type"
  | PyList _ _ => builtins_class "list"
  | PyObject _ c _ _ => c
  end.

(** [x is y]. Strings are compared by value everywhere in the code, so they
    carry no identity of their own. *)
Definition py_is (x y : pyobj) : bool :=
  match x, y with
  | PyNone, PyNone => true
  | PyStr s, PyStr t => String.eqb s t
  | PyFunction i _ _, PyFunction j _ _ => Nat.eqb i j
  | PyClass c, PyClass d => pyclass_eqb c d
  | PyList i _, PyList j _ => Nat.eqb i j
  | PyObject i _ _ _, PyObject j _ _ _ => Nat.eqb i j
  | PyFunction i _ _, PyList j _ | PyFunction i _ _, PyObject j _ _ _
  | PyList i _, PyFunction j _ _ | PyList i _, PyObject j _ _ _
  | PyObject i _ _ _, PyFunction j _ _ | PyObject i _ _ _, PyList j _ => Nat.eqb i j
  | _, _ => false
  end.

(** The equality behaviour of an object. *)
Definition eqmode_of (x : pyobj) : eqmode :=
  match x with
  | PyStr s => ByValue (VStr s)
  | PyList _ _ => Unhashable
  | PyObject _ _ a _ => a_eq a
  | _ => ByIdentity
  end.

(** [x == y] for hashable objects. *)
Definition py_eq (x y : pyobj) : bool :=
  match eqmode_of x, eqmode_of y with
  | ByValue k, ByValue k' => pyval_eqb k k'
  | _, _ => false
  end.

(** [x in s] for a [set] kept as the list of its elements: hashing [x] raises
    when [x] is unhashable, and an element matches when it is the same object
    or an equal one. *)
Definition py_in (x : pyobj) (s : list pyobj) : result bool :=
  match eqmode_of x with
  | Unhashable => Err TypeError
  | _ => Ok (existsb (fun y => py_is x y || py_eq x y) s)
  end.

(** [d[key]] and [d.get(key)] on the items of a dict. *)
Fixpoint dict_get {A : Type} (d : list (string * A)) (key : string) : option A :=
  match d with
  | [] => None
  | (k, v) :: d' => if String.eqb k key then Some v else dict_get d' key
  end.

(** [d[key] = v] on an insertion-ordered dict: a key that is present keeps
    its position and takes the new value. *)
Fixpoint dict_set {A : Type} (key : string) (v : A) (d : list (string * A)) : list (string * A) :=
  match d with
  | [] => [(key, v)]
  | (k, x) :: d' =>
      if String.eqb k key then (k, v) :: d' else (k, x) :: dict_set key v d'
  end.

End Py.

(** ** The polymorphic codec *)

Module Codec.
Import Py.

(** The collaborators of the library: the export table of [tf_export], the
    registry of [generic_utils], [importlib], the [from_config] class methods
    and the JSON encoder and decoder of [json_utils]. *)
Record Env : Type := {
  (* tf_export.get_canonical_name_for_symbol(cls, api_name="keras") *)
  get_canonical_name_for_symbol : pyclass -> option string;
  (* tf_export.get_symbol_from_name(name) *)
  get_symbol_from_name : pyval -> option pyobj;
  (* generic_utils.get_registered_name(obj) *)
  get_registered_name : pyobj -> pyval;
  (* generic_utils.get_custom_objects_by_name(name) *)
  get_custom_objects_by_name : pyval -> option pyobj;
  (* importlib.import_module(name), as the vars() of the module *)
  import_module : pyval -> result (list (string * pyobj));
  (* cls.from_config, when the class has the attribute *)
  class_from_config : pyclass -> option (pyval -> result pyobj);
  (* json.dumps(d, cls=json_utils.Encoder).encode() *)
  json_dumps : pyval -> result string;
  (* json_utils.decode(data) *)
  json_decode : string -> result pyval
}.

Section WithEnv.
Context (env : Env).

(** [isinstance(obj, str)] and [isinstance(obj, types.FunctionType)]. *)
Definition is_str (obj : pyobj) : bool :=
  match obj with PyStr _ => true | _ => false end.

Definition is_function (obj : pyobj) : bool :=
  match obj with PyFunction _ _ _ => true | _ => false end.

(** [hasattr(obj, "get_config")] with the value of [obj.get_config()]. *)
Definition get_config (obj : pyobj) : option pyval :=
  match obj with
  | PyObject _ _ a _ => a_config a
  | _ => None
  end.

Definition _get_object_registered_name (obj : pyobj) : pyval :=
  if is_function obj then get_registered_name env obj
  else get_registered_name env (PyClass (class_of obj)).

Definition _get_object_config (obj : pyobj) : result pyval :=
  match obj with
  | PyStr s => Ok (VStr s)
  | PyFunction _ fmodule fname =>
      Ok (VDict [("module", VStr fmodule); ("function_name", VStr fname)])
  | _ =>
      match get_config obj with
      | None => Err TypeError
      | Some config => Ok config
      end
  end.

Definition opt_str (o : option string) : pyval :=
  match o with Some s => VStr s | None => VNone end.

Definition serialize_keras_object (obj : pyobj) : result pyval :=
  let module := VNone in
  let class_name := get_canonical_name_for_symbol env (class_of obj) in
  let '(module, class_name) :=
    match class_name with
    | None => (VStr (cls_module (class_of obj)), VStr (cls_name (class_of obj)))
    | Some n => (module, VStr n)
    end in
  rbind (_get_object_config obj) (fun config =>
  Ok (VDict [("module", module);
             ("class_name", class_name);
             ("config", config);
             ("registered_name", _get_object_registered_name obj)])).

(** [config_dict[key]]. *)
Definition subscript (config_dict : pyval) (key : string) : result pyval :=
  match config_dict with
  | VDict items =>
      match dict_get items key with
      | Some v => Ok v
      | None => Err KeyError
      end
  | _ => Err TypeError
  end.

(** [v == s] for a string literal [s]. *)
Definition eq_str (v : pyval) (s : string) : bool :=
  match v with VStr t => String.eqb t s | _ => false end.

(** [hasattr(cls, "from_config")] with the bound method. *)
Definition attr_from_config (cls : pyobj) : option (pyval -> result pyobj) :=
  match cls with
  | PyClass c => class_from_config env c
  | PyObject _ c _ _ => class_from_config env c
  | _ => None
  end.

(** [cls.from_config(config)] without a check before it. *)
Definition call_from_config (cls : pyobj) (config : pyval) : result pyobj :=
  match attr_from_config cls with
  | Some from_config => from_config config
  | None => Err AttributeError
  end.

(** [vars(mod).get(name)]: a name that is no string is no key of the dict of
    a module, and a list or a dict cannot be hashed to look it up. *)
Definition vars_get (ns : list (string * pyobj)) (name : pyval) : result pyobj :=
  match name with
  | VStr s => Ok (match dict_get ns s with Some o => o | None => PyNone end)
  | VList _ | VDict _ => Err TypeError
  | _ => Ok PyNone
  end.

Definition deserialize_keras_object (config_dict : pyval) : result pyobj :=
  rbind (subscript config_dict "class_name") (fun class_name =>
  rbind (subscript config_dict "config") (fun config =>
  rbind (subscript config_dict "module") (fun module =>
  rbind (subscript config_dict "registered_name") (fun registered_name =>
  if eq_str module "builtins" then
    if eq_str class_name "str" then
      match config with
      | VStr s => Ok (PyStr s)
      | _ => Err TypeError
      end
    else if eq_str class_name "function" then
      match get_custom_objects_by_name env registered_name with
      | Some custom_function => Ok custom_function
      | None =>
          match config with
          | VDict items =>
              let function_module :=
                match dict_get items "module" with Some m => m | None => VNone end in
              rbind (import_module env function_module) (fun function_module =>
              rbind (subscript config "function_name") (fun function_name =>
              vars_get function_module function_name))
          | _ => Err AttributeError
          end
      end
    else Err TypeError
  else
    match get_custom_objects_by_name env registered_name with
    | Some custom_class => call_from_config custom_class config
    | None =>
        rbind
          (match module with
           | VNone =>
               Ok (match get_symbol_from_name env class_name with
                   | Some cls => cls
                   | None => PyNone
                   end)
           | _ =>
               rbind (import_module env module) (fun mod_ =>
               vars_get mod_ class_name)
           end)
          (fun cls =>
           match attr_from_config cls with
           | None => Err TypeError
           | Some from_config => from_config config
           end)
    end)))).

(** The names that [serialize_keras_object] records for an instance of [cls]
    lead back to [cls]: the registered name resolves to nothing or to [cls],
    and then the canonical name or the module and the class name do; a class
    without a canonical name does not live in "builtins". *)
Definition resolves (cls : pyclass) : Prop :=
  (get_canonical_name_for_symbol env cls = None -> cls_module cls <> "builtins") /\
  match get_custom_objects_by_name env (get_registered_name env (PyClass cls)) with
  | Some custom => custom = PyClass cls
  | None =>
      match get_canonical_name_for_symbol env cls with
      | Some name => get_symbol_from_name env (VStr name) = Some (PyClass cls)
      | None =>
          exists ns,
            import_module env (VStr (cls_module cls)) = Ok ns /\
            dict_get ns (cls_name cls) = Some (PyClass cls)
      end
  end.

End WithEnv.
End Codec.

(** ** The walk over the children of a trackable *)

Module Walker.
Import Py.

(** [isinstance(obj, tf.Variable)]. *)
Definition is_variable (obj : pyobj) : bool :=
  match obj with
  | PyObject _ _ a _ => a_variable a
  | _ => false
  end.

(** [tf.__internal__.tracking.ObjectGraphView(trackable).children(trackable)],
    as the sequence of its items; an object that is no trackable has no
    such view. *)
Definition children (trackable : pyobj) : result (list (string * pyobj)) :=
  match trackable with
  | PyObject _ _ _ children_dict => Ok children_dict
  | _ => Err AttributeError
  end.

(** The pair [(unique_children_dict, added_objects)] that the calls share. *)
Definition collected : Type := (list (string * pyobj) * list pyobj)%type.

Definition _collect_key_object_in_dict (key : string) (obj : pyobj)
    (st : collected) : result collected :=
  let '(unique_children_dict, added_objects) := st in
  if is_variable obj then Ok st
  else
    rbind (py_in obj added_objects) (fun present =>
    if present then Ok st
    else Ok (dict_set key obj unique_children_dict, obj :: added_objects)).

(** The loop over [enumerate(child_obj)], from index [k] on. *)
Fixpoint collect_items (child_attr : string) (k : nat) (items : list pyobj)
    (st : collected) : result collected :=
  match items with
  | [] => Ok st
  | child_item :: rest =>
      rbind (_collect_key_object_in_dict (child_attr +:+ "-" +:+ pretty k) child_item st)
            (collect_items child_attr (S k) rest)
  end.

(** The loop over [children_dict.items()]. *)
Fixpoint collect_children (items : list (string * pyobj)) (st : collected)
    : result collected :=
  match items with
  | [] => Ok st
  | (child_attr, child_obj) :: rest =>
      rbind (match child_obj with
             | PyList _ child_items => collect_items child_attr 0 child_items st
             | _ => _collect_key_object_in_dict child_attr child_obj st
             end)
            (collect_children rest)
  end.

Definition _get_unique_children_dict (trackable : pyobj)
    : result (list (string * pyobj)) :=
  rbind (children trackable) (fun children_dict =>
  rbind (collect_children children_dict ([], [])) (fun st =>
  Ok (fst st))).

Definition _is_keras_trackable (object : pyobj) : bool :=
  match object with
  | PyObject _ _ a _ => a_layer a
  | _ => false
  end.

(** *** Notions used to state the properties of the walk *)

(** An element matches [x] in a set when it is [x] itself or equals it. *)
Definition matches (x y : pyobj) : bool := py_is x y || py_eq x y.

(** The names and objects in the order the loops meet them: the elements of
    a list child [c] come under [c-0], [c-1], ... *)
Fixpoint expand_items (child_attr : string) (k : nat) (items : list pyobj)
    : list (string * pyobj) :=
  match items with
  | [] => []
  | child_item :: rest =>
      (child_attr +:+ "-" +:+ pretty k, child_item) :: expand_items child_attr (S k) rest
  end.

Fixpoint flat_children (items : list (string * pyobj)) : list (string * pyobj) :=
  match items with
  | [] => []
  | (child_attr, PyList _ child_items) :: rest =>
      expand_items child_attr 0 child_items ++ flat_children rest
  | (child_attr, child_obj) :: rest => (child_attr, child_obj) :: flat_children rest
  end.

(** The set test of [_collect_key_object_in_dict] does not raise on [obj]. *)
Definition collectable (obj : pyobj) : bool :=
  is_variable obj ||
  match eqmode_of obj with Unhashable => false | _ => true end.

(** The recursion of [_save_state] and [_load_state] from [trackable] stays
    within [fuel] nested calls and no enumeration of children raises. *)
Fixpoint walkable (fuel : nat) (trackable : pyobj) : bool :=
  match fuel with
  | O => false
  | S fuel' =>
      match children trackable with
      | Err _ => false
      | Ok items =>
          forallb (fun kc : string * pyobj =>
                     collectable kc.2 &&
                     (if _is_keras_trackable kc.2 then walkable fuel' kc.2 else true))
                  (flat_children items)
      end
  end.

(** The loops of [_get_unique_children_dict] as one fold over the entries in
    the order the loops meet them. *)
Fixpoint collect_flat (l : list (string * pyobj)) (st : collected) : result collected :=
  match l with
  | [] => Ok st
  | (key, obj) :: rest => rbind (_collect_key_object_in_dict key obj st) (collect_flat rest)
  end.

(** The objects in the set after the entries [l], from the set [added]. *)
Fixpoint added_after (l : list (string * pyobj)) (added : list pyobj) : list pyobj :=
  match l with
  | [] => added
  | (_, obj) :: rest =>
      if is_variable obj || existsb (matches obj) added
      then added_after rest added
      else added_after rest (obj :: added)
  end.

(** The entries of [l] that enter the dict, from the set [added]. *)
Fixpoint kept (l : list (string * pyobj)) (added : list pyobj) : list (string * pyobj) :=
  match l with
  | [] => []
  | (key, obj) :: rest =>
      if is_variable obj || existsb (matches obj) added
      then kept rest added
      else (key, obj) :: kept rest (obj :: added)
  end.

End Walker.

(** ** The file system, the open archive and the runtime state

    The file system is a map from paths to what they hold; a directory is
    made in a directory that is there. The names of
    the entries of an archive are taken as they are given: the code builds
    them from the names of children, and the clean-up that [zipfile] applies
    to names with empty, [.] or [..] parts is left out. *)

Module World.
Import Py.

(** What a path holds: a directory, a plain file with its content, or a zip
    archive with its entries in the order they were written. *)
Inductive fnode : Type :=
| Dir
| File (content : string)
| Zip (entries : list (string * string)).

(** What the run leaves to be observed besides files: the calls of the state
    hooks of the objects and the listings that are printed. *)
Inductive call : Type :=
| CallSaveState (id : oid) (path : string)
| CallLoadState (id : oid) (path : string)
| PrintArchive (action : string) (names : list string).

Record world : Type := {
  fs : gmap string fnode;            (* the file system, by path *)
  tmp_names : list string;           (* the random names tempfile draws next *)
  zip : list (string * string);      (* the entries of the open ZipFile z *)
  states : gmap nat string;          (* the runtime state of objects, by id *)
  calls : list call
}.

Definition set_fs (f : gmap string fnode -> gmap string fnode) (w : world) : world :=
  {| fs := f (fs w); tmp_names := tmp_names w; zip := zip w;
     states := states w; calls := calls w |}.

Definition set_tmp_names (l : list string) (w : world) : world :=
  {| fs := fs w; tmp_names := l; zip := zip w;
     states := states w; calls := calls w |}.

Definition set_zip (z : list (string * string)) (w : world) : world :=
  {| fs := fs w; tmp_names := tmp_names w; zip := z;
     states := states w; calls := calls w |}.

Definition set_states (f : gmap nat string -> gmap nat string) (w : world) : world :=
  {| fs := fs w; tmp_names := tmp_names w; zip := zip w;
     states := f (states w); calls := calls w |}.

Definition add_call (c : call) (w : world) : world :=
  {| fs := fs w; tmp_names := tmp_names w; zip := zip w;
     states := states w; calls := calls w ++ [c] |}.

(** A computation returns a value or raises, and leaves a world either way. *)
Inductive outcome (A : Type) : Type :=
| Return (a : A) (w : world)
| Raise (e : pyerror) (w : world).
Arguments Return {A} a w.
Arguments Raise {A} e w.

Definition M (A : Type) : Type := world -> outcome A.

Definition ret {A : Type} (a : A) : M A := fun w => Return a w.

Definition raise {A : Type} (e : pyerror) : M A := fun w => Raise e w.

Definition bind {A B : Type} (c : M A) (k : A -> M B) : M B :=
  fun w =>
    match c w with
    | Return a w' => k a w'
    | Raise e w' => Raise e w'
    end.

Definition lift {A : Type} (r : result A) : M A :=
  match r with
  | Ok a => ret a
  | Err e => raise e
  end.

Definition final_world {A : Type} (o : outcome A) : world :=
  match o with
  | Return _ w => w
  | Raise _ w => w
  end.

Declare Scope py_scope.
Delimit Scope py_scope with py.
Notation "x <- c1 ;; c2" := (bind c1 (fun x => c2))
  (at level 20, c1 at level 99, c2 at level 200, only parsing) : py_scope.
Notation "c1 ;; c2" := (bind c1 (fun _ => c2))
  (at level 100, c2 at level 200, only parsing, right associativity) : py_scope.
Local Open Scope py_scope.

(** [for x in l: body(x)]. *)
Fixpoint for_each {A : Type} (l : list A) (body : A -> M unit) : M unit :=
  match l with
  | [] => ret tt
  | x :: rest => body x ;; for_each rest body
  end.

(** *** Paths *)

Definition ends_with_slash (a : string) : bool :=
  match last (String.list_ascii_of_string a) with
  | Some c => Ascii.eqb c "/"%char
  | None => false
  end.

(** [tf.io.gfile.join(a, b)] on local paths, which is [os.path.join]: an
    absolute second part replaces the first, and a separator is put between
    the parts unless the first is empty or ends with one. *)
Definition gfile_join (a b : string) : string :=
  if String.prefix "/" b then b
  else if String.eqb a "" || ends_with_slash a then a +:+ b
  else a +:+ "/" +:+ b.

(** [q] is [p] or lies below the directory [p]. *)
Definition is_under (p q : string) : bool :=
  String.eqb p q || String.prefix (p +:+ "/") q.

(** *** tf.io.gfile *)

Definition gfile_exists (path : string) : M bool :=
  fun w => Return (bool_decide (is_Some (fs w !! path))) w.

(** The directory a path lies in: the path without its last name and the
    separators around it. It is [""] for a name in the working directory
    and ["/"] for a name in the root. The lists are the characters of the
    path from its end. *)
Fixpoint drop_slashes (l : list ascii) : list ascii :=
  match l with
  | c :: l' => if Ascii.eqb c "/"%char then drop_slashes l' else l
  | [] => []
  end.

Fixpoint drop_name (l : list ascii) : list ascii :=
  match l with
  | c :: l' => if Ascii.eqb c "/"%char then l else drop_name l'
  | [] => []
  end.

Definition parent_dir (path : string) : string :=
  let r := drop_name (drop_slashes (rev (String.list_ascii_of_string path))) in
  match r, drop_slashes r with
  | [], _ => ""
  | _, [] => "/"
  | _, r' => String.string_of_list_ascii (rev r')
  end.

(** [tf.io.gfile.mkdir]: a path that exists is left as it is, and the
    directory that the new one lies in has to be there: the parents are not
    made. The working directory and the root are always there. The errors of
    [tf.io.gfile] are rendered as in [gfile_remove]. *)
Definition gfile_mkdir (path : string) : M unit :=
  fun w =>
    match fs w !! path with
    | Some _ => Return tt w
    | None =>
        if String.eqb (parent_dir path) "" || String.eqb (parent_dir path) "/" then
          Return tt (set_fs (insert path Dir) w)
        else
          match fs w !! parent_dir path with
          | Some Dir => Return tt (set_fs (insert path Dir) w)
          | Some _ => Raise OSError w
          | None => Raise FileNotFoundError w
          end
    end.

Definition gfile_remove (path : string) : M unit :=
  fun w =>
    match fs w !! path with
    | None => Raise FileNotFoundError w
    | Some Dir => Raise OSError w
    | Some _ => Return tt (set_fs (delete path) w)
    end.

(** [tf.io.gfile.rmtree]: the directory goes with all that lies below it. *)
Definition gfile_rmtree (path : string) : M unit :=
  fun w =>
    match fs w !! path with
    | None => Raise FileNotFoundError w
    | Some _ =>
        Return tt (set_fs (filter (fun kv => is_under path kv.1 = false)) w)
    end.

(** *** tempfile *)

(** The loop of [tempfile.mkdtemp]: the names drawn are tried in turn and the
    first that is free is created; [None] when every name is taken. *)
Fixpoint mkdtemp_try (dir : string) (names : list string) (f : gmap string fnode)
    : option string * list string :=
  match names with
  | [] => (None, [])
  | name :: rest =>
      let file := gfile_join dir ("tmp" +:+ name) in
      match f !! file with
      | None => (Some file, rest)
      | Some _ => mkdtemp_try dir rest f
      end
  end.

(** [tempfile.mkdtemp(dir=dir)]. *)
Definition mkdtemp (dir : string) : M string :=
  fun w =>
    match fs w !! dir with
    | Some Dir =>
        match mkdtemp_try dir (tmp_names w) (fs w) with
        | (Some file, rest) =>
            Return file (set_fs (insert file Dir) (set_tmp_names rest w))
        | (None, rest) => Raise FileExistsError (set_tmp_names rest w)
        end
    | Some _ => Raise OSError w
    | None => Raise FileNotFoundError w
    end.

(** *** zipfile *)

(** [z.namelist()]. *)
Definition namelist (z : list (string * string)) : list string := z.*1.

(** The entry a name stands for: the last one written under it. *)
Definition zip_getinfo (z : list (string * string)) (name : string) : option string :=
  dict_get (reverse z) name.

(** [name in z.namelist()]. *)
Definition in_namelist (name : string) : M bool :=
  fun w => Return (bool_decide (name ∈ namelist (zip w))) w.

(** [zipfile.ZipFile(file_path, "x")]: exclusive creation. *)
Definition zip_open_x (file_path : string) : M unit :=
  fun w =>
    match fs w !! file_path with
    | Some _ => Raise FileExistsError w
    | None => Return tt (set_zip [] (set_fs (insert file_path (Zip [])) w))
    end.

(** [zipfile.ZipFile(file_path, "r")]. *)
Definition zip_open_r (file_path : string) : M unit :=
  fun w =>
    match fs w !! file_path with
    | Some (Zip entries) => Return tt (set_zip entries w)
    | Some (File _) => Raise BadZipFile w
    | Some Dir => Raise OSError w
    | None => Raise FileNotFoundError w
    end.

(** Closing an archive that was open for writing puts its entries on disk;
    a closed archive has no open entries any more. *)
Definition zip_close_w (file_path : string) (w : world) : world :=
  set_zip [] (set_fs (insert file_path (Zip (zip w))) w).

Definition zip_close_r (w : world) : world := set_zip [] w.

(** [with zipfile.ZipFile(file_path, "x") as z: body]: the archive is closed
    when the body returns and when it raises. *)
Definition with_ZipFile_x {A : Type} (file_path : string) (body : M A) : M A :=
  fun w =>
    match zip_open_x file_path w with
    | Raise e w' => Raise e w'
    | Return _ w' =>
        match body w' with
        | Return a w'' => Return a (zip_close_w file_path w'')
        | Raise e w'' => Raise e (zip_close_w file_path w'')
        end
    end.

(** [with zipfile.ZipFile(file_path, "r") as z: body]. *)
Definition with_ZipFile_r {A : Type} (file_path : string) (body : M A) : M A :=
  fun w =>
    match zip_open_r file_path w with
    | Raise e w' => Raise e w'
    | Return _ w' =>
        match body w' with
        | Return a w'' => Return a (zip_close_r w'')
        | Raise e w'' => Raise e (zip_close_r w'')
        end
    end.

(** [with z.open(name, "w") as c: c.write(data)]. *)
Definition zip_writestr (name data : string) : M unit :=
  fun w => Return tt (set_zip (zip w ++ [(name, data)]) w).

(** [z.write(filename, arcname)]. *)
Definition zip_write (filename arcname : string) : M unit :=
  fun w =>
    match fs w !! filename with
    | Some (File data) => Return tt (set_zip (zip w ++ [(arcname, data)]) w)
    | Some _ => Raise OSError w
    | None => Raise FileNotFoundError w
    end.

(** [with z.open(name, "r") as c: c.read()]. *)
Definition zip_read (name : string) : M string :=
  fun w =>
    match zip_getinfo (zip w) name with
    | Some data => Return data w
    | None => Raise KeyError w
    end.

(** [z.extract(member, path)], which returns the path of the file made. *)
Definition zip_extract (member path : string) : M string :=
  fun w =>
    match zip_getinfo (zip w) member with
    | Some data =>
        let extracted_path := gfile_join path member in
        Return extracted_path (set_fs (insert extracted_path (File data)) w)
    | None => Raise KeyError w
    end.

(** *** The state hooks of an object *)

Definition obj_id (obj : pyobj) : option nat :=
  match obj with
  | PyFunction i _ _ | PyList i _ | PyObject i _ _ _ => Some i
  | _ => None
  end.

Definition has_save_state (obj : pyobj) : bool :=
  match obj with PyObject _ _ a _ => a_save_state a | _ => false end.

Definition has_load_state (obj : pyobj) : bool :=
  match obj with PyObject _ _ a _ => a_load_state a | _ => false end.

(** Modelled from the spec: the [_save_state] method of a layer, which
    [keras/engine/base_layer.py] defines and the sources at hand do not hold
    (spec 6, [externalize(target_file_hint) -> produced_file_path | None]).
    An object that holds runtime state writes it to [path] and returns
    [path]; one that holds none returns [None]. *)
Definition call_save_state (trackable : pyobj) (path : string) : M (option string) :=
  match obj_id trackable with
  | None => raise AttributeError
  | Some i =>
      fun w =>
        match states w !! i with
        | Some blob =>
            Return (Some path)
              (set_fs (insert path (File blob)) (add_call (CallSaveState i path) w))
        | None => Return None (add_call (CallSaveState i path) w)
        end
  end.

(** Modelled from the spec: the [_load_state] method of a layer, which
    [keras/engine/base_layer.py] defines and the sources at hand do not hold
    (spec 6, [absorb(source_file_path) -> void]). The object takes the
    content of the file as its runtime state. *)
Definition call_load_state (trackable : pyobj) (path : string) : M unit :=
  match obj_id trackable with
  | None => raise AttributeError
  | Some i =>
      fun w =>
        match fs w !! path with
        | Some (File blob) =>
            Return tt (set_states (insert i blob) (add_call (CallLoadState i path) w))
        | Some _ => Raise OSError (add_call (CallLoadState i path) w)
        | None => Raise FileNotFoundError (add_call (CallLoadState i path) w)
        end
  end.

(** *** Notions used to state the properties of computations and paths *)

(** What [gfile_join a] puts before a relative second part. *)
Definition join_head (a : string) : string :=
  if String.eqb a "" || ends_with_slash a then a else a +:+ "/".

(** The path of a scratch directory made under [dir]. *)
Definition scratch (dir name : string) : string := gfile_join dir ("tmp" +:+ name).

(** [c] returns from every world that satisfies [P], in a world and with a
    value that satisfy [Q]. *)
Definition returns {A : Type} (P : world -> Prop) (c : M A) (Q : A -> world -> Prop) : Prop :=
  forall w, P w -> exists a w', c w = Return a w' /\ Q a w'.

(** Whatever the outcome of [c], the world it leaves is related by [R] to
    the world it starts from, and a value it returns satisfies [Q]. *)
Definition preserves {A : Type} (R : world -> world -> Prop) (Q : A -> Prop) (c : M A) : Prop :=
  forall w,
    match c w with
    | Return a w' => R w w' /\ Q a
    | Raise _ w' => R w w'
    end.

Definition any {A : Type} : A -> Prop := fun _ => True.

End World.

(** ** The archive writer and reader *)

Module Archive.
Import Py Codec Walker World.
Local Open Scope py_scope.

Definition _ARCHIVE_FILENAME : string := "archive.keras".
Definition _STATES_FILENAME : string := "states.npz".
Definition _CONFIG_FILENAME : string := "config.json".
Definition _STATES_ROOT_DIRNAME : string := "model".

(** The listing goes to the printing utility; the names of the entries are
    kept, the dates and sizes are not. *)
Definition _print_archive (action : string) : M unit :=
  fun w => Return tt (add_call (PrintArchive action (namelist (zip w))) w).

(** The loop that ends both [_save_state] and [_load_state]: the unique
    children are enumerated, and the call [recurse] is made on each child
    that is a Keras trackable, with the path of the child in the archive. *)
Definition visit_children (trackable : pyobj) (zip_dir_path : string)
    (recurse : pyobj -> string -> M unit) : M unit :=
  unique_children_dict <- lift (_get_unique_children_dict trackable) ;;
  for_each unique_children_dict (fun '(child_attr, child_obj) =>
    if _is_keras_trackable child_obj
    then recurse child_obj (gfile_join zip_dir_path child_attr)
    else ret tt).

Section WithEnv.
Context (env : Env).

(** The archive [z] that the source passes along is the open archive of the
    world. [fuel] bounds the depth of the recursion, as the recursion limit
    of the interpreter does. *)
Fixpoint _load_state (fuel : nat) (trackable : pyobj)
    (zip_dir_path temp_path : string) : M unit :=
  match fuel with
  | O => raise RecursionError
  | S fuel' =>
      let state_path := gfile_join zip_dir_path _STATES_FILENAME in
      present <- in_namelist state_path ;;
      (if present then
         extracted_path <- zip_extract state_path temp_path ;;
         (if has_load_state trackable
          then call_load_state trackable extracted_path
          else ret tt) ;;
         gfile_remove extracted_path
       else ret tt) ;;
      visit_children trackable zip_dir_path
        (fun child_obj child_path => _load_state fuel' child_obj child_path temp_path)
  end.

Definition load (fuel : nat) (dirpath : string) : M pyobj :=
  let file_path := gfile_join dirpath _ARCHIVE_FILENAME in
  temp_path <- mkdtemp dirpath ;;
  model <- with_ZipFile_r file_path (
    _print_archive "loaded from" ;;
    config_json <- zip_read _CONFIG_FILENAME ;;
    config_dict <- lift (json_decode env config_json) ;;
    model <- lift (deserialize_keras_object env config_dict) ;;
    _load_state fuel model _STATES_ROOT_DIRNAME temp_path ;;
    ret model) ;;
  temp_exists <- gfile_exists temp_path ;;
  (if temp_exists then gfile_rmtree temp_path else ret tt) ;;
  ret model.

Fixpoint _save_state (fuel : nat) (trackable : pyobj)
    (zip_dir_path temp_path : string) : M unit :=
  match fuel with
  | O => raise RecursionError
  | S fuel' =>
      (if has_save_state trackable then
         state_path <- call_save_state trackable (gfile_join temp_path _STATES_FILENAME) ;;
         match state_path with
         | Some state_path =>
             zip_write state_path (gfile_join zip_dir_path _STATES_FILENAME) ;;
             gfile_remove state_path
         | None => ret tt
         end
       else ret tt) ;;
      visit_children trackable zip_dir_path
        (fun child_obj child_path => _save_state fuel' child_obj child_path temp_path)
  end.

Definition save (fuel : nat) (model : pyobj) (dirpath : string) : M unit :=
  dir_exists <- gfile_exists dirpath ;;
  (if negb dir_exists then gfile_mkdir dirpath else ret tt) ;;
  let file_path := gfile_join dirpath _ARCHIVE_FILENAME in
  serialized_model_dict <- lift (serialize_keras_object env model) ;;
  config_json <- lift (json_dumps env serialized_model_dict) ;;
  temp_path <- mkdtemp dirpath ;;
  temp_exists <- gfile_exists temp_path ;;
  (if negb temp_exists then gfile_mkdir temp_path else ret tt) ;;
  with_ZipFile_x file_path (
    zip_writestr _CONFIG_FILENAME config_json ;;
    _save_state fuel model _STATES_ROOT_DIRNAME temp_path ;;
    _print_archive "saved in") ;;
  gfile_rmtree temp_path.

End WithEnv.

(** *** Notions used to state the properties of the two state passes *)

Local Open Scope list_scope.

(** The files other than [hint] are as they were. *)
Definition fs_frame (hint : string) (w w' : world) : Prop :=
  forall p, p <> hint -> fs w' !! p = fs w !! p.

(** What the part of [_load_state] that comes before the children does to
    the world: nothing when the archive has no entry for the path, and
    otherwise the entry is extracted, handed to the object when it has the
    hook, and the extracted file is removed. *)
Definition absorbed (trackable : pyobj) (zip_dir_path temp_path : string)
    (w w' : world) : Prop :=
  let state_path := gfile_join zip_dir_path _STATES_FILENAME in
  let extracted_path := gfile_join temp_path state_path in
  zip w' = zip w /\ tmp_names w' = tmp_names w /\
  (state_path ∉ namelist (zip w) -> w' = w) /\
  (state_path ∈ namelist (zip w) ->
   exists data,
     zip_getinfo (zip w) state_path = Some data /\
     fs w' = delete extracted_path (<[extracted_path := File data]> (fs w)) /\
     match (if has_load_state trackable then obj_id trackable else None) with
     | Some i =>
         states w' = <[i := data]> (states w) /\
         calls w' = calls w ++ [CallLoadState i extracted_path]
     | None => states w' = states w /\ calls w' = calls w
     end).

(** What holds of the worlds that the state pass of [load] goes through,
    from the world [w0] it starts in: the archive is not written to, the
    state hooks are called on extracted entries of the archive only, and
    nothing at all changes when the archive holds no state entry. *)
Definition load_inv (temp_path : string) (w0 w : world) : Prop :=
  zip w = zip w0 /\
  (forall i p, CallLoadState i p ∈ calls w ->
     CallLoadState i p ∈ calls w0 \/
     exists zip_dir_path,
       gfile_join zip_dir_path _STATES_FILENAME ∈ namelist (zip w0) /\
       p = gfile_join temp_path (gfile_join zip_dir_path _STATES_FILENAME)) /\
  ((forall zip_dir_path,
      gfile_join zip_dir_path _STATES_FILENAME ∉ namelist (zip w0)) -> w = w0).

(** The nodes that the two state passes visit from [root] at [root_path],
    each with its path in the archive: the root, and of a visited node the
    children that its enumeration keeps and that are Keras trackables, each
    below the path of the node under the name it is kept by. *)
Inductive visited (root : pyobj) (root_path : string) : pyobj -> string -> Prop :=
| visited_root : visited root root_path root root_path
| visited_child (node : pyobj) (path : string) (d : list (string * pyobj))
    (child_attr : string) (child_obj : pyobj) :
    visited root root_path node path ->
    _get_unique_children_dict node = Ok d ->
    (child_attr, child_obj) ∈ d ->
    _is_keras_trackable child_obj = true ->
    visited root root_path child_obj (gfile_join path child_attr).

(** What holds of the worlds that the state pass of [load] goes through from
    [root], node by node: a state hook is called only for a visited node
    that has it, on the file extracted from the entry of the path of this
    node, and an object keeps its runtime state unless it is visited, with
    the hook, at a path that has an entry. *)
Definition load_inv_at (root : pyobj) (root_path temp_path : string)
    (w0 w : world) : Prop :=
  zip w = zip w0 /\
  (forall i p, CallLoadState i p ∈ calls w ->
     CallLoadState i p ∈ calls w0 \/
     exists node zip_dir_path,
       visited root root_path node zip_dir_path /\
       obj_id node = Some i /\ has_load_state node = true /\
       gfile_join zip_dir_path _STATES_FILENAME ∈ namelist (zip w0) /\
       p = gfile_join temp_path (gfile_join zip_dir_path _STATES_FILENAME)) /\
  (forall i,
     (forall node zip_dir_path,
        visited root root_path node zip_dir_path ->
        obj_id node = Some i -> has_load_state node = true ->
        gfile_join zip_dir_path _STATES_FILENAME ∉ namelist (zip w0)) ->
     states w !! i = states w0 !! i).

(** What the part of [_save_state] that comes before the children does to
    the world: an object with the hook is asked for its state, and the file
    it stages, if any, becomes the entry of its path and is removed. *)
Definition externalized (trackable : pyobj) (zip_dir_path temp_path : string)
    (w w' : world) : Prop :=
  let hint := gfile_join temp_path _STATES_FILENAME in
  tmp_names w' = tmp_names w /\ states w' = states w /\
  match (if has_save_state trackable then obj_id trackable else None) with
  | Some i =>
      calls w' = calls w ++ [CallSaveState i hint] /\
      match states w !! i with
      | Some blob =>
          zip w' = zip w ++ [(gfile_join zip_dir_path _STATES_FILENAME, blob)] /\
          fs w' = delete hint (<[hint := File blob]> (fs w))
      | None => zip w' = zip w /\ fs w' = fs w
      end
  | None => w' = w
  end.

(** Nothing holds runtime state, and the files, the archive and the names to
    draw are those of [w0]. *)
Definition stateless_inv (w0 w : world) : Prop :=
  states w = ∅ /\ fs w = fs w0 /\ zip w = zip w0 /\ tmp_names w = tmp_names w0.

End Archive.

(** ** Concrete classes, objects and collaborators

    A small installation used to run the definitions: a layer class that is
    exported under a canonical name, a model class that is only known by its
    module, and a class registered under an alias. *)

Module Sample.
Import Py Codec Walker World Archive.

Definition Dense : pyclass :=
  {| cls_module := "keras.layers.core"; cls_name := "Dense" |}.

Definition MyModel : pyclass :=
  {| cls_module := "my_pkg.models"; cls_name := "MyModel" |}.

Definition Custom : pyclass :=
  {| cls_module := "my_pkg.layers"; cls_name := "MyDense" |}.

Definition layer_attrs (config : pyval) : attrs :=
  {| a_variable := false; a_layer := true; a_eq := ByIdentity;
     a_config := Some config; a_save_state := true; a_load_state := true |}.

Definition dense_config : pyval := VDict [("units", VInt 3)].

Definition dense (id : nat) : pyobj :=
  PyObject id Dense (layer_attrs dense_config) [].

Definition model_config : pyval := VDict [("name", VStr "m")].

(** A model that refers to one layer under two names and to a second one. *)
Definition model (id : nat) : pyobj :=
  PyObject id MyModel (layer_attrs model_config)
    [("a", dense (id + 1)); ("b", dense (id + 1)); ("c", dense (id + 2))].

Definition model_record : pyval :=
  VDict [("module", VStr "my_pkg.models");
         ("class_name", VStr "MyModel");
         ("config", model_config);
         ("registered_name", VStr "MyModel")].

Definition env : Env := {|
  get_canonical_name_for_symbol := fun c =>
    if pyclass_eqb c Dense then Some "keras.layers.Dense" else None;
  get_symbol_from_name := fun name =>
    if eq_str name "keras.layers.Dense" then Some (PyClass Dense) else None;
  get_registered_name := fun obj =>
    match obj with
    | PyClass c => if pyclass_eqb c Custom then VStr "my_pkg>MyDense" else VStr (cls_name c)
    | PyFunction _ _ fname => VStr fname
    | _ => VNone
    end;
  get_custom_objects_by_name := fun name =>
    if eq_str name "my_pkg>MyDense" then Some (PyClass Custom) else None;
  import_module := fun name =>
    if eq_str name "my_pkg.models" then Ok [("MyModel", PyClass MyModel)]
    else Err ImportError;
  class_from_config := fun c =>
    if pyclass_eqb c MyModel then
      Some (fun config =>
              if pyval_eqb config model_config then Ok (model 10) else Err ValueError)
    else if pyclass_eqb c Custom then
      Some (fun config => Ok (PyObject 20 Custom (layer_attrs config) []))
    else if pyclass_eqb c Dense then
      Some (fun config => Ok (PyObject 30 Dense (layer_attrs config) []))
    else None;
  json_dumps := fun v =>
    if pyval_eqb v model_record then Ok "model_record" else Err TypeError;
  json_decode := fun data =>
    if String.eqb data "model_record" then Ok model_record else Err ValueError
|}.

(** A directory [d] that is empty, with two names for scratch directories
    to come and no object holding runtime state. *)
Definition empty_dir : world :=
  {| fs := {[ "d" := Dir ]}; tmp_names := ["k3x"; "q7p"]; zip := [];
     states := ∅; calls := [] |}.

(** The directory [d] with an archive whose config entry is no JSON. *)
Definition corrupt_dir : world :=
  {| fs := {[ "d" := Dir; "d/archive.keras" := Zip [("config.json", "{")] ]};
     tmp_names := ["k3x"; "q7p"]; zip := []; states := ∅; calls := [] |}.

(** The directory [d] with an archive that holds the record of the sample
    model and a state entry for its child [a] alone. *)
Definition partial_dir : world :=
  {| fs := {[ "d" := Dir;
              "d/archive.keras" :=
                Zip [("config.json", "model_record");
                     ("model/a/states.npz", "weights")] ]};
     tmp_names := ["k3x"; "q7p"]; zip := []; states := ∅; calls := [] |}.

(** Two distinct objects of a class that compares by value, under two names
    of a parent. *)
Definition by_value_attrs (key : pyval) : attrs :=
  {| a_variable := false; a_layer := false; a_eq := ByValue key;
     a_config := None; a_save_state := false; a_load_state := false |}.

Definition Rate : pyclass := {| cls_module := "my_pkg.schedules"; cls_name := "Rate" |}.

Definition rate_x : pyobj := PyObject 1 Rate (by_value_attrs (VInt 5)) [].
Definition rate_y : pyobj := PyObject 2 Rate (by_value_attrs (VInt 5)) [].

Definition rates_parent : pyobj :=
  PyObject 0 Sample.MyModel (Sample.layer_attrs Sample.model_config)
    [("x", rate_x); ("y", rate_y)].

(** The world after the sample model is saved in the empty directory. *)
Definition saved_dir : world :=
  final_world (save Sample.env 3 (Sample.model 0) "d" Sample.empty_dir).

(** A layer without the [_load_state] attribute, and a world in which an
    archive with a state entry for the root is open. *)
Definition hookless_layer : pyobj :=
  PyObject 7 Sample.Dense
    {| a_variable := false; a_layer := true; a_eq := ByIdentity;
       a_config := Some Sample.dense_config;
       a_save_state := false; a_load_state := false |} [].

Definition open_archive : world :=
  {| fs := {[ "d" := Dir; "d/tmpk3x" := Dir ]}; tmp_names := [];
     zip := [("config.json", "{}"); ("model/states.npz", "weights")];
     states := ∅; calls := [] |}.

End Sample.

(** ** Further notions and a second installation

    The second installation has a module of loss functions, one of which is
    registered under an alias, and no exported symbol. *)

Module Fixtures.
Import Py Codec Walker World Archive.
Local Open Scope list_scope.

(** The state pass of [save] has left the runtime state and the names to
    draw alone, and has only added entries to the open archive, each under
    the name of a state file. *)
Definition state_entries_added (w w' : world) : Prop :=
  states w' = states w /\ tmp_names w' = tmp_names w /\
  exists new,
    zip w' = zip w ++ new /\
    forall name, name ∈ namelist new ->
      exists zip_dir_path, name = gfile_join zip_dir_path _STATES_FILENAME.

Definition my_loss : pyobj := PyFunction 40 "my_pkg.losses" "my_loss".

Definition huber : pyobj := PyFunction 41 "my_pkg.losses" "huber".

Definition Plain : pyclass := {| cls_module := "my_pkg.misc"; cls_name := "Plain" |}.

Definition losses_env : Env := {|
  get_canonical_name_for_symbol := fun _ => None;
  get_symbol_from_name := fun _ => None;
  get_registered_name := fun obj =>
    match obj with
    | PyFunction i _ fname => if Nat.eqb i 41 then VStr "my_pkg>huber" else VStr fname
    | PyClass c => VStr (cls_name c)
    | _ => VNone
    end;
  get_custom_objects_by_name := fun name =>
    if eq_str name "my_pkg>huber" then Some huber else None;
  import_module := fun name =>
    if eq_str name "my_pkg.losses" then Ok [("my_loss", my_loss); ("huber", huber)]
    else if eq_str name "my_pkg.layers" then Ok [("MyDense", PyClass Sample.Custom)]
    else Err ImportError;
  class_from_config := fun c =>
    if pyclass_eqb c Sample.Custom then
      Some (fun config => Ok (PyObject 20 Sample.Custom (Sample.layer_attrs config) []))
    else None;
  json_dumps := fun _ => Err TypeError;
  json_decode := fun _ => Err ValueError
|}.

(** A model without children that holds runtime state, and an installation
    in which its record is written as [leaf_record] and read back. *)
Definition leaf (id : nat) : pyobj :=
  PyObject id Sample.MyModel (Sample.layer_attrs Sample.model_config) [].

Definition leaf_env : Env := {|
  get_canonical_name_for_symbol := get_canonical_name_for_symbol Sample.env;
  get_symbol_from_name := get_symbol_from_name Sample.env;
  get_registered_name := get_registered_name Sample.env;
  get_custom_objects_by_name := get_custom_objects_by_name Sample.env;
  import_module := import_module Sample.env;
  class_from_config := fun c =>
    if pyclass_eqb c Sample.MyModel then Some (fun _ => Ok (leaf 10)) else None;
  json_dumps := json_dumps Sample.env;
  json_decode := json_decode Sample.env
|}.

Definition stateful_dir : world :=
  {| fs := {[ "d" := Dir ]}; tmp_names := ["k3x"; "q7p"]; zip := [];
     states := {[ 0 := "weights" ]}; calls := [] |}.

(** A model whose list child holds a list: the enumeration of its children
    raises. *)
Definition nested_lists : pyobj :=
  PyObject 0 Sample.MyModel (Sample.layer_attrs Sample.model_config)
    [("layers", PyList 5 [PyList 6 []])].

(** The directory [d] with a plain file where the archive should be, and
    with an archive that has no config entry. *)
Definition plain_file_dir : world :=
  {| fs := {[ "d" := Dir; "d/archive.keras" := File "text" ]};
     tmp_names := ["k3x"; "q7p"]; zip := []; states := ∅; calls := [] |}.

Definition no_config_dir : world :=
  {| fs := {[ "d" := Dir; "d/archive.keras" := Zip [("model/states.npz", "weights")] ]};
     tmp_names := ["k3x"; "q7p"]; zip := []; states := ∅; calls := [] |}.

(** One stateful layer that is a child of the model and of a sub-model that
    is a layer without state hooks, and a world in which an archive is open
    for writing and the layer holds runtime state. *)
Definition container_attrs : attrs :=
  {| a_variable := false; a_layer := true; a_eq := ByIdentity;
     a_config := Some Sample.model_config;
     a_save_state := false; a_load_state := false |}.

Definition shared : pyobj :=
  PyObject 0 Sample.MyModel (Sample.layer_attrs Sample.model_config)
    [("a", Sample.dense 1);
     ("b", PyObject 2 Sample.MyModel container_attrs [("c", Sample.dense 1)])].

Definition writing : world :=
  {| fs := {[ "d" := Dir; "d/tmpk3x" := Dir ]}; tmp_names := [];
     zip := [("config.json", "{}")];
     states := {[ 1 := "weights" ]}; calls := [] |}.

End Fixtures.

(** * Properties of the codec *)

Module CodecFacts.
Import Py Codec.

Section WithEnv.
Context (env : Env).

Lemma subscript_get (items : list (string * pyval)) (key : string) (v : pyval) :
  dict_get items key = Some v -> subscript (VDict items) key = Ok v.
Proof. intros H. unfold subscript. now rewrite H. Qed.

(** C8: a record of module "builtins" and class name "str" whose config is
    not a string is rejected with a [TypeError]; nothing is returned. *)
Theorem deserialize_str_rejects_non_string
    (items : list (string * pyval)) (config registered_name : pyval) :
  dict_get items "class_name" = Some (VStr "str") ->
  dict_get items "module" = Some (VStr "builtins") ->
  dict_get items "config" = Some config ->
  dict_get items "registered_name" = Some registered_name ->
  (forall s, config <> VStr s) ->
  deserialize_keras_object env (VDict items) = Err TypeError.
Proof.
  intros Hc Hm Hcfg Hr Hns. unfold deserialize_keras_object.
  rewrite (subscript_get _ _ _ Hc), (subscript_get _ _ _ Hcfg),
    (subscript_get _ _ _ Hm), (subscript_get _ _ _ Hr). simpl.
  destruct config; try reflexivity. now destruct (Hns s).
Qed.

(** C2: a string serializes to the record of class name "str" and module
    "builtins" whose config is the string, the registered name being what
    the registry gives for the class; that record deserializes to the
    string itself. *)
Theorem serialize_str_roundtrip (s : string) :
  get_canonical_name_for_symbol env (builtins_class "str") = None ->
  serialize_keras_object env (PyStr s) =
    Ok (VDict [("module", VStr "builtins");
               ("class_name", VStr "str");
               ("config", VStr s);
               ("registered_name",
                get_registered_name env (PyClass (builtins_class "str")))]) /\
  (forall r, serialize_keras_object env (PyStr s) = Ok r ->
             deserialize_keras_object env r = Ok (PyStr s)).
Proof.
  intros Hc.
  assert (Hs : serialize_keras_object env (PyStr s) =
    Ok (VDict [("module", VStr "builtins");
               ("class_name", VStr "str");
               ("config", VStr s);
               ("registered_name",
                get_registered_name env (PyClass (builtins_class "str")))])).
  { unfold serialize_keras_object. simpl. now rewrite Hc. }
  split; [exact Hs|].
  intros r Hr. rewrite Hs in Hr. injection Hr as <-. reflexivity.
Qed.

(** C3: on a record whose module is not "builtins", when the registered
    name resolves in the registry the object is built by the [from_config]
    of what it resolves to, applied to the config; the class name and the
    module stored in the record play no part in the result. *)
Theorem deserialize_registration_wins
    (items : list (string * pyval))
    (class_name config module registered_name : pyval) (custom_class : pyobj) :
  dict_get items "class_name" = Some class_name ->
  dict_get items "config" = Some config ->
  dict_get items "module" = Some module ->
  dict_get items "registered_name" = Some registered_name ->
  eq_str module "builtins" = false ->
  get_custom_objects_by_name env registered_name = Some custom_class ->
  deserialize_keras_object env (VDict items) = call_from_config env custom_class config /\
  (forall items' class_name' module',
     dict_get items' "class_name" = Some class_name' ->
     dict_get items' "config" = Some config ->
     dict_get items' "module" = Some module' ->
     dict_get items' "registered_name" = Some registered_name ->
     eq_str module' "builtins" = false ->
     deserialize_keras_object env (VDict items') =
     deserialize_keras_object env (VDict items)).
Proof.
  intros Hc Hcfg Hm Hr Hnb Hreg.
  assert (Hgen : forall its cn m,
    dict_get its "class_name" = Some cn ->
    dict_get its "config" = Some config ->
    dict_get its "module" = Some m ->
    dict_get its "registered_name" = Some registered_name ->
    eq_str m "builtins" = false ->
    deserialize_keras_object env (VDict its) = call_from_config env custom_class config).
  { intros its cn m H1 H2 H3 H4 H5. unfold deserialize_keras_object.
    rewrite (subscript_get _ _ _ H1), (subscript_get _ _ _ H2),
      (subscript_get _ _ _ H3), (subscript_get _ _ _ H4). simpl.
    now rewrite H5, Hreg. }
  split.
  - eapply Hgen; eauto.
  - intros items' cn' m' H1 H2 H3 H4 H5.
    rewrite (Hgen items' cn' m' H1 H2 H3 H4 H5).
    symmetry. eapply Hgen; eauto.
Qed.

(** *** Round trip of an object that is rebuilt from its config *)

Lemma serialize_instance (id : nat) (cls : pyclass) (a : attrs)
    (ch : list (string * pyobj)) (config : pyval) :
  a_config a = Some config ->
  serialize_keras_object env (PyObject id cls a ch) =
    Ok (VDict [("module",
                match get_canonical_name_for_symbol env cls with
                | Some _ => VNone
                | None => VStr (cls_module cls)
                end);
               ("class_name",
                match get_canonical_name_for_symbol env cls with
                | Some name => VStr name
                | None => VStr (cls_name cls)
                end);
               ("config", config);
               ("registered_name", get_registered_name env (PyClass cls))]).
Proof.
  intros Hcfg. unfold serialize_keras_object. cbn [class_of].
  destruct (get_canonical_name_for_symbol env cls); simpl; now rewrite Hcfg.
Qed.

Lemma deserialize_serialized_instance (id : nat) (cls : pyclass) (a : attrs)
    (ch : list (string * pyobj)) (config : pyval)
    (from_config : pyval -> result pyobj) (r : pyval) :
  a_config a = Some config ->
  resolves env cls ->
  class_from_config env cls = Some from_config ->
  serialize_keras_object env (PyObject id cls a ch) = Ok r ->
  deserialize_keras_object env r = from_config config.
Proof.
  intros Hcfg [Hnb Hres] Hfc Hser.
  rewrite (serialize_instance _ _ _ _ _ Hcfg) in Hser. injection Hser as <-.
  unfold deserialize_keras_object. cbn [subscript dict_get String.eqb Ascii.eqb Bool.eqb rbind].
  assert (Hmod : eq_str
            match get_canonical_name_for_symbol env cls with
            | Some _ => VNone
            | None => VStr (cls_module cls)
            end "builtins" = false).
  { destruct (get_canonical_name_for_symbol env cls); [reflexivity|].
    cbn [eq_str]. apply String.eqb_neq. auto. }
  simpl. rewrite Hmod.
  destruct (get_custom_objects_by_name env (get_registered_name env (PyClass cls)))
    as [custom|].
  - subst custom. unfold call_from_config. cbn [attr_from_config]. now rewrite Hfc.
  - destruct (get_canonical_name_for_symbol env cls) as [name|].
    + rewrite Hres. cbn [rbind attr_from_config]. now rewrite Hfc.
    + destruct Hres as (ns & Himp & Hget). rewrite Himp. cbn [rbind vars_get].
      rewrite Hget. cbn [attr_from_config]. now rewrite Hfc.
Qed.

Lemma serialize_rebuilt (id : nat) (cls : pyclass) (a : attrs)
    (ch : list (string * pyobj)) (config : pyval) (model' : pyobj) :
  a_config a = Some config ->
  class_of model' = cls ->
  get_config model' = Some config ->
  serialize_keras_object env model' = serialize_keras_object env (PyObject id cls a ch).
Proof.
  intros Hcfg Hcls Hcfg'.
  destruct model' as [| | | | |id' cls' a' ch']; try discriminate.
  cbn [class_of] in Hcls. subst cls'. cbn [get_config] in Hcfg'.
  now rewrite (serialize_instance _ _ _ _ _ Hcfg), (serialize_instance _ _ _ _ _ Hcfg').
Qed.

End WithEnv.

Lemma deserialize_str_rejects_non_string_witness :
  deserialize_keras_object Sample.env
    (VDict [("class_name", VStr "str"); ("module", VStr "builtins");
            ("config", VInt 42); ("registered_name", VNone)]) = Err TypeError.
Proof.
  apply (deserialize_str_rejects_non_string Sample.env _ (VInt 42) VNone);
    try reflexivity.
  intros s; discriminate.
Defined.

Lemma serialize_str_roundtrip_witness :
  serialize_keras_object Sample.env (PyStr "hello") =
    Ok (VDict [("module", VStr "builtins");
               ("class_name", VStr "str");
               ("config", VStr "hello");
               ("registered_name", VStr "str")]) /\
  deserialize_keras_object Sample.env
    (VDict [("module", VStr "builtins");
            ("class_name", VStr "str");
            ("config", VStr "hello");
            ("registered_name", VStr "str")]) = Ok (PyStr "hello").
Proof.
  destruct (serialize_str_roundtrip Sample.env "hello" eq_refl) as [Hs Hd].
  split; [exact Hs | exact (Hd _ Hs)].
Defined.

(** The record names the exported [Dense] class and the alias of the
    registered class: the registered class is the one instantiated. *)
Lemma deserialize_registration_wins_witness :
  deserialize_keras_object Sample.env
    (VDict [("class_name", VStr "keras.layers.Dense"); ("config", Sample.dense_config);
            ("module", VNone); ("registered_name", VStr "my_pkg>MyDense")]) =
  Ok (PyObject 20 Sample.Custom (Sample.layer_attrs Sample.dense_config) []).
Proof.
  exact (proj1 (deserialize_registration_wins Sample.env
    [("class_name", VStr "keras.layers.Dense"); ("config", Sample.dense_config);
     ("module", VNone); ("registered_name", VStr "my_pkg>MyDense")]
    (VStr "keras.layers.Dense") Sample.dense_config VNone (VStr "my_pkg>MyDense")
    (PyClass Sample.Custom) eq_refl eq_refl eq_refl eq_refl eq_refl eq_refl)).
Defined.

End CodecFacts.

(** * Properties of the walk *)

Module WalkerFacts.
Import Py Walker.
Local Open Scope list_scope.

Lemma pyclass_eqb_refl (c : pyclass) : pyclass_eqb c c = true.
Proof. unfold pyclass_eqb. now rewrite !String.eqb_refl. Qed.

Lemma pyclass_eqb_sym (c d : pyclass) : pyclass_eqb c d = pyclass_eqb d c.
Proof.
  unfold pyclass_eqb.
  now rewrite (String.eqb_sym (cls_module c)), (String.eqb_sym (cls_name c)).
Qed.

Lemma py_is_refl (x : pyobj) : py_is x x = true.
Proof.
  destruct x; simpl; auto using String.eqb_refl, Nat.eqb_refl, pyclass_eqb_refl.
Qed.

Lemma py_is_sym (x y : pyobj) : py_is x y = py_is y x.
Proof.
  destruct x, y; simpl;
    auto using String.eqb_sym, Nat.eqb_sym, pyclass_eqb_sym.
Qed.

Lemma pyval_eqb_sym : forall a b : pyval, pyval_eqb a b = pyval_eqb b a.
Proof.
  fix IH 1. intros a b. destruct a, b; simpl; try reflexivity.
  - now destruct b, b0.
  - apply Z.eqb_sym.
  - apply String.eqb_sym.
  - revert items0. induction items as [|x xs IHxs]; intros [|y ys]; try reflexivity.
    now rewrite (IH x y), (IHxs ys).
  - revert items0. induction items as [|[k x] xs IHxs]; intros [|[k' y] ys]; try reflexivity.
    now rewrite (IH x y), (IHxs ys), (String.eqb_sym k k').
Qed.

Lemma py_eq_sym (x y : pyobj) : py_eq x y = py_eq y x.
Proof.
  unfold py_eq. destruct (eqmode_of x), (eqmode_of y); try reflexivity.
  apply pyval_eqb_sym.
Qed.

Lemma matches_refl (x : pyobj) : matches x x = true.
Proof. unfold matches. now rewrite py_is_refl. Qed.

Lemma matches_sym (x y : pyobj) : matches x y = matches y x.
Proof. unfold matches. now rewrite py_is_sym, py_eq_sym. Qed.

(** *** The loops as one fold over the flattened children *)

Lemma collect_flat_app (l1 l2 : list (string * pyobj)) (st : collected) :
  collect_flat (l1 ++ l2) st = rbind (collect_flat l1 st) (collect_flat l2).
Proof.
  revert st. induction l1 as [|[k o] l1 IH]; intros st; simpl; [reflexivity|].
  destruct (_collect_key_object_in_dict k o st); simpl; auto.
Qed.

Lemma collect_items_flat (child_attr : string) (items : list pyobj) (k : nat) (st : collected) :
  collect_items child_attr k items st = collect_flat (expand_items child_attr k items) st.
Proof.
  revert k st. induction items as [|x items IH]; intros k st; simpl; [reflexivity|].
  destruct (_collect_key_object_in_dict _ x st); simpl; auto.
Qed.

Lemma collect_children_flat (items : list (string * pyobj)) (st : collected) :
  collect_children items st = collect_flat (flat_children items) st.
Proof.
  revert st. induction items as [|[k o] items IH]; intros st; [reflexivity|].
  destruct o; simpl;
    try (destruct (_collect_key_object_in_dict _ _ st); simpl; now auto).
  rewrite collect_flat_app, collect_items_flat.
  destruct (collect_flat _ st); simpl; auto.
Qed.

(** *** What the fold keeps *)

Lemma collect_step (key : string) (obj : pyobj) (d : list (string * pyobj))
    (added : list pyobj) :
  collectable obj = true ->
  _collect_key_object_in_dict key obj (d, added) =
    Ok (if is_variable obj || existsb (matches obj) added then (d, added)
        else (dict_set key obj d, obj :: added)).
Proof.
  unfold collectable, _collect_key_object_in_dict, py_in.
  destruct (is_variable obj); simpl; [reflexivity|].
  destruct (eqmode_of obj) eqn:E; try discriminate; intros _; simpl;
    unfold matches; now destruct (existsb _ added).
Qed.

Lemma dict_get_app {A : Type} (d1 d2 : list (string * A)) (key : string) :
  dict_get (d1 ++ d2) key =
    match dict_get d1 key with Some v => Some v | None => dict_get d2 key end.
Proof.
  induction d1 as [|[k v] d1 IH]; simpl; [reflexivity|].
  now destruct (String.eqb k key).
Qed.

Lemma dict_set_fresh {A : Type} (d : list (string * A)) (key : string) (v : A) :
  dict_get d key = None -> dict_set key v d = d ++ [(key, v)].
Proof.
  induction d as [|[k x] d IH]; simpl; [reflexivity|].
  destruct (String.eqb k key); [discriminate|]. intros H. now rewrite IH.
Qed.


Lemma dict_get_Some {A : Type} (d : list (string * A)) (key : string) (v : A) :
  NoDup d.*1 -> (key, v) ∈ d -> dict_get d key = Some v.
Proof.
  induction d as [|[k x] d IH]; simpl.
  - intros _ H. now apply elem_of_nil in H.
  - rewrite NoDup_cons, elem_of_cons. intros [Hni Hnd] [Heq | Hin].
    + injection Heq as -> ->. now rewrite String.eqb_refl.
    + destruct (String.eqb_spec k key) as [->|Hne]; [|auto].
      exfalso. apply Hni. apply list_elem_of_fmap. now exists (key, v).
Qed.

Lemma collect_flat_kept (l : list (string * pyobj)) :
  forall (d : list (string * pyobj)) (added : list pyobj),
  forallb (fun kc : string * pyobj => collectable kc.2) l = true ->
  NoDup l.*1 ->
  (forall key, key ∈ l.*1 -> dict_get d key = None) ->
  collect_flat l (d, added) = Ok (d ++ kept l added, added_after l added).
Proof.
  induction l as [|[k o] l IH]; intros d added Hc Hnd Hfresh.
  - simpl. now rewrite app_nil_r.
  - simpl in Hc. apply andb_prop in Hc as [Hco Hc].
    rewrite fmap_cons, NoDup_cons in Hnd. destruct Hnd as [Hk Hnd].
    cbn [collect_flat kept added_after].
    rewrite (collect_step k o d added Hco).
    destruct (is_variable o || existsb (matches o) added); cbn [rbind].
    + apply IH; auto. intros key Hin. apply Hfresh. rewrite fmap_cons. now right.
    + rewrite dict_set_fresh by (apply Hfresh; rewrite fmap_cons; now left).
      rewrite IH; auto.
      * now rewrite <- app_assoc.
      * intros key Hin. rewrite dict_get_app, Hfresh by (rewrite fmap_cons; now right).
        simpl. destruct (String.eqb_spec k key) as [->|]; [contradiction | reflexivity].
Qed.

Lemma kept_app (l1 l2 : list (string * pyobj)) (added : list pyobj) :
  kept (l1 ++ l2) added = kept l1 added ++ kept l2 (added_after l1 added).
Proof.
  revert added. induction l1 as [|[k o] l1 IH]; intros added; simpl; [reflexivity|].
  destruct (is_variable o || existsb (matches o) added); simpl; now rewrite IH.
Qed.


Lemma kept_sublist (l : list (string * pyobj)) (added : list pyobj) :
  sublist (kept l added) l.
Proof.
  revert added. induction l as [|[k o] l IH]; intros added; simpl; [constructor|].
  destruct (is_variable o || existsb (matches o) added); constructor; auto.
Qed.


Lemma kept_NoDup (l : list (string * pyobj)) (added : list pyobj) :
  NoDup l.*1 -> NoDup (kept l added).*1.
Proof.
  intros H. eapply sublist_NoDup; [exact H|].
  apply fmap_sublist, kept_sublist.
Qed.



Lemma added_after_elem (x : pyobj) (l : list (string * pyobj)) (added : list pyobj) :
  x ∈ added_after l added -> x ∈ added \/ x ∈ l.*2.
Proof.
  revert added. induction l as [|[k o] l IH]; intros added; simpl; [now left|].
  destruct (is_variable o || existsb (matches o) added); intros H;
    destruct (IH _ H) as [Hin | Hin].
  - now left.
  - right. now right.
  - apply elem_of_cons in Hin as [-> | Hin]; [right; now left | now left].
  - right. now right.
Qed.

Lemma existsb_false_elem (x : pyobj) (s : list pyobj) :
  (forall y, y ∈ s -> matches x y = false) -> existsb (matches x) s = false.
Proof.
  induction s as [|y s IH]; intros H; simpl; [reflexivity|].
  rewrite (H y) by now left. apply IH. intros z Hz. apply H. now right.
Qed.

Lemma existsb_false_inv (x y : pyobj) (s : list pyobj) :
  existsb (matches x) s = false -> y ∈ s -> matches x y = false.
Proof.
  induction s as [|z s IH]; simpl; intros H Hin.
  - now apply elem_of_nil in Hin.
  - apply orb_false_elim in H as [Hz Hs].
    apply elem_of_cons in Hin as [-> | Hin]; auto.
Qed.


Section Enumeration.
Context (trackable : pyobj) (items : list (string * pyobj)).
Hypothesis Hchildren : children trackable = Ok items.
Hypothesis Hnames : NoDup (flat_children items).*1.
Hypothesis Hcollectable :
  forallb (fun kc : string * pyobj => collectable kc.2) (flat_children items) = true.

(** When the expanded names are distinct and the set test raises on no
    child, the enumeration returns the entries that are kept. *)
Lemma unique_children_dict_kept :
  _get_unique_children_dict trackable = Ok (kept (flat_children items) []).
Proof.
  unfold _get_unique_children_dict. rewrite Hchildren. simpl.
  rewrite collect_children_flat, collect_flat_kept; auto.
Qed.




End Enumeration.

(** *** The enumeration never invents an entry *)

Lemma dict_set_elem {A : Type} (key : string) (v : A) (d : list (string * A))
    (e : string * A) :
  e ∈ dict_set key v d -> e ∈ d \/ e = (key, v).
Proof.
  induction d as [|[k x] d IH]; simpl.
  - intros H. apply list_elem_of_singleton in H. now right.
  - destruct (String.eqb_spec k key) as [->|Hne]; rewrite !elem_of_cons.
    + intros [-> | H]; [now right | left; now right].
    + intros [-> | H]; [left; now left|].
      destruct (IH H) as [Hd | ->]; [left; now right | now right].
Qed.

Lemma collect_flat_subset (l : list (string * pyobj)) :
  forall (d : list (string * pyobj)) (added : list pyobj),
  forallb (fun kc : string * pyobj => collectable kc.2) l = true ->
  exists d' added',
    collect_flat l (d, added) = Ok (d', added') /\
    forall e, e ∈ d' -> e ∈ d \/ e ∈ l.
Proof.
  induction l as [|[k o] l IH]; intros d added Hc.
  - exists d, added. split; [reflexivity | now left].
  - simpl in Hc. apply andb_prop in Hc as [Hco Hc].
    cbn [collect_flat]. rewrite (collect_step k o d added Hco).
    destruct (is_variable o || existsb (matches o) added); cbn [rbind].
    + destruct (IH d added Hc) as (d' & a' & Heq & Hsub).
      exists d', a'. split; [exact Heq|].
      intros e He. destruct (Hsub e He); [now left | right; now right].
    + destruct (IH (dict_set k o d) (o :: added) Hc) as (d' & a' & Heq & Hsub).
      exists d', a'. split; [exact Heq|].
      intros e He. destruct (Hsub e He) as [Hd | Hl]; [|right; now right].
      apply dict_set_elem in Hd as [Hd | ->]; [now left | right; now left].
Qed.

Lemma unique_children_dict_subset (trackable : pyobj) (items : list (string * pyobj)) :
  children trackable = Ok items ->
  forallb (fun kc : string * pyobj => collectable kc.2) (flat_children items) = true ->
  exists d,
    _get_unique_children_dict trackable = Ok d /\
    forall e, e ∈ d -> e ∈ flat_children items.
Proof.
  intros Hch Hc. unfold _get_unique_children_dict. rewrite Hch. cbn [rbind].
  rewrite collect_children_flat.
  destruct (collect_flat_subset _ [] [] Hc) as (d & a & -> & Hsub).
  exists d. split; [reflexivity|].
  intros e He. destruct (Hsub e He) as [H | H]; [|exact H].
  now apply elem_of_nil in H.
Qed.

(** What [walkable] says, one level down. *)
Lemma walkable_S (fuel : nat) (trackable : pyobj) :
  walkable (S fuel) trackable = true ->
  exists d,
    _get_unique_children_dict trackable = Ok d /\
    forall child_attr child_obj,
      (child_attr, child_obj) ∈ d -> _is_keras_trackable child_obj = true ->
      walkable fuel child_obj = true.
Proof.
  cbn [walkable]. destruct (children trackable) as [items|] eqn:Hch; [|discriminate].
  intros Hall.
  assert (Hc : forallb (fun kc : string * pyobj => collectable kc.2)
                 (flat_children items) = true).
  { apply forallb_forall. intros e He.
    rewrite forallb_forall in Hall. specialize (Hall e He).
    now apply andb_prop in Hall as [H _]. }
  destruct (unique_children_dict_subset _ _ Hch Hc) as (d & Hd & Hsub).
  exists d. split; [exact Hd|].
  intros child_attr child_obj Hin Hlayer.
  rewrite forallb_forall in Hall.
  specialize (Hall _ (proj1 (list_elem_of_In _ _) (Hsub _ Hin))). simpl in Hall.
  apply andb_prop in Hall as [_ H]. now rewrite Hlayer in H.
Qed.


End WalkerFacts.

(** * Properties of paths *)

Module PathFacts.
Import World.

Lemma append_nil (b : string) : "" +:+ b = b.
Proof. reflexivity. Qed.

Lemma append_cons (x : ascii) (a b : string) : String x a +:+ b = String x (a +:+ b).
Proof. reflexivity. Qed.

Ltac push_append := rewrite ?append_cons, ?append_nil.
Ltac push_append_in H := rewrite ?append_cons, ?append_nil in H.

Lemma append_assoc (a b c : string) : (a +:+ b) +:+ c = a +:+ (b +:+ c).
Proof. induction a as [|x a IH]; push_append; [reflexivity | now rewrite IH]. Qed.

Lemma length_append (a b : string) :
  String.length (a +:+ b) = String.length a + String.length b.
Proof. induction a as [|x a IH]; push_append; simpl; [reflexivity | now rewrite IH]. Qed.

Lemma append_inv_head (p a b : string) : p +:+ a = p +:+ b -> a = b.
Proof. apply String.app_inj. Qed.

Lemma prefix_append (p a b : string) :
  String.prefix (p +:+ a) (p +:+ b) = String.prefix a b.
Proof.
  induction p as [|x p IH]; push_append; simpl; [reflexivity|].
  destruct (ascii_dec x x); [exact IH | contradiction].
Qed.

Lemma prefix_cons (x y : ascii) (a b : string) :
  String.prefix (String x a) (String y b) =
    if ascii_dec x y then String.prefix a b else false.
Proof. reflexivity. Qed.

Lemma prefix_length (a b : string) :
  String.prefix a b = true -> String.length a <= String.length b.
Proof.
  revert b. induction a as [|x a IH]; intros b; simpl; [lia|].
  destruct b as [|y b]; simpl; [discriminate|].
  destruct (ascii_dec x y); [|discriminate].
  intros H. apply IH in H. lia.
Qed.

Lemma gfile_join_relative (a b : string) :
  String.prefix "/" b = false -> gfile_join a b = join_head a +:+ b.
Proof.
  intros H. unfold gfile_join, join_head. rewrite H.
  destruct (String.eqb a "" || ends_with_slash a); [reflexivity|].
  now rewrite append_assoc.
Qed.

Lemma join_head_length (a : string) : String.length a <= String.length (join_head a).
Proof.
  unfold join_head. destruct (String.eqb a "" || ends_with_slash a); [lia|].
  rewrite length_append. lia.
Qed.

Lemma gfile_join_length (a b : string) :
  String.prefix "/" b = false ->
  String.length a + String.length b <= String.length (gfile_join a b).
Proof.
  intros H. rewrite (gfile_join_relative _ _ H), length_append.
  pose proof (join_head_length a). lia.
Qed.

Lemma is_under_refl (p : string) : is_under p p = true.
Proof. unfold is_under. now rewrite String.eqb_refl. Qed.

Lemma is_under_longer (p q : string) :
  String.length q < String.length p -> is_under p q = false.
Proof.
  intros Hlt. unfold is_under. apply orb_false_intro.
  - apply String.eqb_neq. intros ->. lia.
  - destruct (String.prefix (p +:+ "/") q) eqn:E; [|reflexivity].
    apply prefix_length in E. rewrite length_append in E. lia.
Qed.

Lemma scratch_not_archive (dir name file : string) :
  String.prefix "t" file = false -> String.prefix "/" file = false ->
  is_under (scratch dir name) (gfile_join dir file) = false.
Proof.
  intros Ht Hrel. unfold scratch, is_under.
  rewrite (gfile_join_relative dir ("tmp" +:+ name)) by reflexivity.
  rewrite (gfile_join_relative dir file Hrel).
  apply orb_false_intro.
  - apply String.eqb_neq. intros H. apply append_inv_head in H.
    rewrite <- H in Ht. vm_compute in Ht. discriminate.
  - rewrite append_assoc, prefix_append. push_append.
    destruct file as [|c file]; [reflexivity|].
    revert Ht. rewrite !prefix_cons.
    destruct (ascii_dec "t" c); [intros H; destruct file; discriminate | reflexivity].
Qed.

Lemma scratch_not_dir (dir name : string) : is_under (scratch dir name) dir = false.
Proof.
  apply is_under_longer. unfold scratch.
  pose proof (gfile_join_length dir ("tmp" +:+ name) eq_refl) as H.
  simpl in H. lia.
Qed.

Lemma scratch_neq_dir (dir name : string) : scratch dir name <> dir.
Proof.
  intros H. pose proof (scratch_not_dir dir name) as Hu.
  rewrite H, is_under_refl in Hu. discriminate.
Qed.

Lemma is_under_neq (p q : string) : is_under p q = false -> p <> q.
Proof. intros H ->. rewrite is_under_refl in H. discriminate. Qed.

Lemma states_path_neq_config (zip_dir_path : string) :
  gfile_join zip_dir_path "states.npz" <> "config.json".
Proof.
  rewrite (gfile_join_relative _ "states.npz") by reflexivity.
  intros H. apply (f_equal String.length) in H as Hlen.
  rewrite length_append in Hlen. simpl in Hlen.
  destruct (join_head zip_dir_path) as [|c [|c' p]]; simpl in *; try discriminate; lia.
Qed.

Lemma states_file_neq_dir (temp_path dir name : string) :
  temp_path = scratch dir name ->
  gfile_join temp_path "states.npz" <> dir.
Proof.
  intros -> H.
  pose proof (gfile_join_length (scratch dir name) "states.npz" eq_refl) as H1.
  pose proof (gfile_join_length dir ("tmp" +:+ name) eq_refl) as H2.
  unfold scratch in *. rewrite H in H1. simpl in *. lia.
Qed.

End PathFacts.

(** * Reasoning about computations *)

Module MonadFacts.
Import Py World.
Local Open Scope py_scope.

Lemma bind_Return {A B : Type} (c : M A) (k : A -> M B) (w w' : world) (a : A) :
  c w = Return a w' -> bind c k w = k a w'.
Proof. intros H. unfold bind. now rewrite H. Qed.

Lemma bind_Raise {A B : Type} (c : M A) (k : A -> M B) (w w' : world) (e : pyerror) :
  c w = Raise e w' -> bind c k w = Raise e w'.
Proof. intros H. unfold bind. now rewrite H. Qed.

Lemma bind_Return_inv {A B : Type} (c : M A) (k : A -> M B) (w w' : world) (b : B) :
  bind c k w = Return b w' ->
  exists a w1, c w = Return a w1 /\ k a w1 = Return b w'.
Proof.
  unfold bind. destruct (c w) as [a w1 | e w1]; [|discriminate].
  intros H. now exists a, w1.
Qed.

Lemma returns_ret {A : Type} (P : world -> Prop) (a : A) :
  returns P (ret a) (fun _ w => P w).
Proof. intros w Hw. now exists a, w. Qed.

Lemma returns_bind {A B : Type} (P : world -> Prop) (Q : A -> world -> Prop)
    (R : B -> world -> Prop) (c : M A) (k : A -> M B) :
  returns P c Q -> (forall a, returns (Q a) (k a) R) -> returns P (bind c k) R.
Proof.
  intros Hc Hk w Hw. destruct (Hc w Hw) as (a & w1 & Hc1 & HQ).
  destruct (Hk a w1 HQ) as (b & w2 & Hk1 & HR).
  exists b, w2. split; [|exact HR]. now rewrite (bind_Return _ _ _ _ _ Hc1).
Qed.

Lemma returns_for_each {A : Type} (I : world -> Prop) (l : list A) (body : A -> M unit) :
  (forall x, x ∈ l -> returns I (body x) (fun _ w => I w)) ->
  returns I (for_each l body) (fun _ w => I w).
Proof.
  induction l as [|x l IH]; intros Hbody; simpl.
  - apply returns_ret.
  - eapply returns_bind.
    + apply Hbody. now left.
    + intros u. apply IH. intros y Hy. apply Hbody. now right.
Qed.

Lemma preserves_final {A : Type} (R : world -> world -> Prop) (Q : A -> Prop) (c : M A) (w : world) :
  preserves R Q c -> R w (final_world (c w)).
Proof. intros H. specialize (H w). destruct (c w); simpl; tauto. Qed.

Section Preserves.
Context (R : world -> world -> Prop).
Hypothesis R_refl : forall w, R w w.
Hypothesis R_trans : forall w1 w2 w3, R w1 w2 -> R w2 w3 -> R w1 w3.

Lemma preserves_ret {A : Type} (Q : A -> Prop) (a : A) : Q a -> preserves R Q (ret a).
Proof. intros H w. simpl. auto. Qed.

Lemma preserves_raise {A : Type} (Q : A -> Prop) (e : pyerror) : preserves R Q (raise e).
Proof. intros w. simpl. auto. Qed.

Lemma preserves_lift {A : Type} (r : result A) : preserves R any (lift r).
Proof. destruct r; [now apply preserves_ret | apply preserves_raise]. Qed.

Lemma preserves_bind {A B : Type} (Q : A -> Prop) (Q' : B -> Prop) (c : M A) (k : A -> M B) :
  preserves R Q c -> (forall a, Q a -> preserves R Q' (k a)) -> preserves R Q' (bind c k).
Proof.
  intros Hc Hk w. unfold bind. specialize (Hc w).
  destruct (c w) as [a w1 | e w1]; [|exact Hc].
  destruct Hc as [HR HQ]. specialize (Hk a HQ w1).
  destruct (k a w1) as [b w2 | e w2].
  - destruct Hk. split; eauto.
  - eauto.
Qed.

Lemma preserves_for_each {A : Type} (l : list A) (body : A -> M unit) :
  (forall x, preserves R any (body x)) -> preserves R any (for_each l body).
Proof.
  intros Hbody. induction l as [|x l IH]; simpl.
  - now apply preserves_ret.
  - eapply preserves_bind; eauto.
Qed.

End Preserves.

(** *** tempfile *)

Lemma mkdtemp_try_spec (dir : string) (names : list string) (f : gmap string fnode)
    (file : string) (rest : list string) :
  mkdtemp_try dir names f = (Some file, rest) ->
  f !! file = None /\ exists name, name ∈ names /\ file = scratch dir name.
Proof.
  induction names as [|name names IH]; simpl; [discriminate|].
  destruct (f !! gfile_join dir ("tmp" +:+ name)) eqn:E.
  - intros H. destruct (IH H) as (Hf & n & Hn & Hfile).
    split; [exact Hf|]. exists n. split; [now right | exact Hfile].
  - intros [= <- <-]. split; [exact E|]. exists name. split; [now left | reflexivity].
Qed.

Lemma mkdtemp_Return (dir : string) (w : world) (file : string) (rest : list string) :
  fs w !! dir = Some Dir ->
  mkdtemp_try dir (tmp_names w) (fs w) = (Some file, rest) ->
  mkdtemp dir w = Return file (set_fs (insert file Dir) (set_tmp_names rest w)).
Proof. intros Hd Ht. unfold mkdtemp. now rewrite Hd, Ht. Qed.

Lemma mkdtemp_Return_inv (dir : string) (w w' : world) (file : string) :
  mkdtemp dir w = Return file w' ->
  fs w !! dir = Some Dir /\
  exists rest, mkdtemp_try dir (tmp_names w) (fs w) = (Some file, rest) /\
               w' = set_fs (insert file Dir) (set_tmp_names rest w).
Proof.
  unfold mkdtemp. destruct (fs w !! dir) as [[| |]|] eqn:Hd; try discriminate.
  destruct (mkdtemp_try dir (tmp_names w) (fs w)) as [[file'|] rest] eqn:Ht;
    [|discriminate].
  intros [= <- <-]. split; [reflexivity|]. now exists rest.
Qed.

End MonadFacts.

(** * Properties of the archive writer and reader *)

Module ArchiveFacts.
Import Py Codec Walker World Archive MonadFacts PathFacts.
Local Open Scope py_scope.
Local Open Scope list_scope.

Ltac wsimpl :=
  cbn [fs tmp_names zip states calls set_fs set_tmp_names set_zip set_states
       add_call zip_close_w zip_close_r final_world].

Lemma gfile_exists_Some (path : string) (w : world) (n : fnode) :
  fs w !! path = Some n -> gfile_exists path w = Return true w.
Proof.
  intros H. unfold gfile_exists. rewrite bool_decide_eq_true_2; [reflexivity|].
  rewrite H. eauto.
Qed.

Lemma gfile_exists_None (path : string) (w : world) :
  fs w !! path = None -> gfile_exists path w = Return false w.
Proof.
  intros H. unfold gfile_exists. rewrite bool_decide_eq_false_2; [reflexivity|].
  rewrite H. intros [x Hx]. discriminate.
Qed.

Lemma gfile_mkdir_Return_inv (path : string) (w w' : world) :
  gfile_mkdir path w = Return tt w' ->
  w' = w \/ (fs w !! path = None /\ w' = set_fs (insert path Dir) w).
Proof.
  unfold gfile_mkdir. destruct (fs w !! path); [intros [= <-]; now left|].
  destruct (String.eqb (parent_dir path) "" || String.eqb (parent_dir path) "/").
  - intros [= <-]. now right.
  - destruct (fs w !! parent_dir path) as [[| |]|]; try discriminate.
    intros [= <-]. now right.
Qed.

Lemma scratch_neq_archive (dir name : string) :
  scratch dir name <> gfile_join dir _ARCHIVE_FILENAME.
Proof. apply is_under_neq. now apply scratch_not_archive. Qed.

Section WithEnv.
Context (env : Env).

(** *** What the state pass of [save] leaves alone *)

Lemma fs_frame_refl (hint : string) (w : world) : fs_frame hint w w.
Proof. intros p _. reflexivity. Qed.

Lemma fs_frame_trans (hint : string) (w1 w2 w3 : world) :
  fs_frame hint w1 w2 -> fs_frame hint w2 w3 -> fs_frame hint w1 w3.
Proof. intros H12 H23 p Hp. now rewrite H23, H12. Qed.

Lemma call_save_state_frame (trackable : pyobj) (hint : string) :
  preserves (fs_frame hint) (fun r => r = None \/ r = Some hint)
    (call_save_state trackable hint).
Proof.
  intros w. unfold call_save_state. destruct (obj_id trackable) as [i|].
  - destruct (states w !! i).
    + split; [|now right]. intros p Hp. wsimpl. now rewrite lookup_insert_ne.
    + split; [|now left]. intros p _. reflexivity.
  - apply fs_frame_refl.
Qed.

Lemma zip_write_frame (hint filename arcname : string) :
  preserves (fs_frame hint) any (zip_write filename arcname).
Proof.
  intros w. unfold zip_write. destruct (fs w !! filename) as [[| |]|];
    try apply fs_frame_refl. split; [|exact I]. intros p _. reflexivity.
Qed.

Lemma gfile_remove_frame (hint : string) :
  preserves (fs_frame hint) any (gfile_remove hint).
Proof.
  intros w. unfold gfile_remove. destruct (fs w !! hint) as [[| |]|];
    try apply fs_frame_refl; (split; [|exact I]); intros p Hp; wsimpl;
    now rewrite lookup_delete_ne.
Qed.

Lemma visit_children_preserves (R : world -> world -> Prop)
    (trackable : pyobj) (zip_dir_path : string) (recurse : pyobj -> string -> M unit) :
  (forall w, R w w) -> (forall w1 w2 w3, R w1 w2 -> R w2 w3 -> R w1 w3) ->
  (forall child_obj child_path, preserves R any (recurse child_obj child_path)) ->
  preserves R any (visit_children trackable zip_dir_path recurse).
Proof.
  intros Hrefl Htrans Hrec. unfold visit_children.
  apply (preserves_bind _ Htrans any any).
  { now apply preserves_lift. }
  intros d _. apply preserves_for_each; auto.
  intros [child_attr child_obj]. destruct (_is_keras_trackable child_obj); auto.
  now apply preserves_ret.
Qed.

Lemma save_state_frame (fuel : nat) :
  forall (trackable : pyobj) (zip_dir_path temp_path : string),
  preserves (fs_frame (gfile_join temp_path _STATES_FILENAME)) any
    (_save_state fuel trackable zip_dir_path temp_path).
Proof.
  induction fuel as [|fuel IH]; intros trackable zip_dir_path temp_path.
  - apply preserves_raise. apply fs_frame_refl.
  - cbn [_save_state].
    set (hint := gfile_join temp_path _STATES_FILENAME).
    pose proof (fs_frame_refl hint) as Hr.
    pose proof (fs_frame_trans hint) as Ht.
    apply (preserves_bind _ Ht any any).
    + destruct (has_save_state trackable).
      * apply (preserves_bind _ Ht (fun r => r = None \/ r = Some hint) any).
        { apply call_save_state_frame. }
        intros r [-> | ->].
        { now apply preserves_ret. }
        apply (preserves_bind _ Ht any any).
        { apply zip_write_frame. }
        intros _ _. apply gfile_remove_frame.
      * now apply preserves_ret.
    + intros _ _. apply visit_children_preserves; auto.
      intros child_obj child_path. apply IH.
Qed.

(** *** Removing a tree *)

Lemma rmtree_lookup_under (path q : string) (f : gmap string fnode) :
  is_under path q = true ->
  filter (fun kv : string * fnode => is_under path kv.1 = false) f !! q = None.
Proof.
  intros Hu. apply map_lookup_filter_None. right. intros x _. simpl.
  rewrite Hu. discriminate.
Qed.

Lemma rmtree_lookup_other (path q : string) (f : gmap string fnode) :
  is_under path q = false ->
  filter (fun kv : string * fnode => is_under path kv.1 = false) f !! q = f !! q.
Proof.
  intros Hu. destruct (f !! q) as [x|] eqn:E.
  - now apply map_lookup_filter_Some_2.
  - apply map_lookup_filter_None. now left.
Qed.

Lemma gfile_rmtree_Return_inv (path : string) (w w' : world) :
  gfile_rmtree path w = Return tt w' ->
  w' = set_fs (filter (fun kv : string * fnode => is_under path kv.1 = false)) w.
Proof.
  unfold gfile_rmtree. destruct (fs w !! path); [|discriminate]. now intros [= <-].
Qed.

Lemma gfile_rmtree_Return (path : string) (w : world) (n : fnode) :
  fs w !! path = Some n ->
  gfile_rmtree path w =
    Return tt (set_fs (filter (fun kv : string * fnode => is_under path kv.1 = false)) w).
Proof. intros H. unfold gfile_rmtree. now rewrite H. Qed.

(** *** Writing *)

Lemma with_ZipFile_x_Return_inv {A : Type} (file_path : string) (body : M A)
    (w w' : world) (a : A) :
  with_ZipFile_x file_path body w = Return a w' ->
  fs w !! file_path = None /\
  exists w'',
    body (set_zip [] (set_fs (insert file_path (Zip [])) w)) = Return a w'' /\
    w' = zip_close_w file_path w''.
Proof.
  unfold with_ZipFile_x, zip_open_x. destruct (fs w !! file_path); [discriminate|].
  destruct (body _) as [a' w'' | e w'']; [|discriminate].
  intros [= <- <-]. split; [reflexivity|]. now exists w''.
Qed.

(** The body of the [with] block of [save] leaves all files but the one
    staged in the scratch directory as they were. *)
Lemma save_body_frame (fuel : nat) (model : pyobj) (config_json temp_path : string) :
  preserves (fs_frame (gfile_join temp_path _STATES_FILENAME)) any
    (zip_writestr _CONFIG_FILENAME config_json ;;
     _save_state fuel model _STATES_ROOT_DIRNAME temp_path ;;
     _print_archive "saved in").
Proof.
  set (hint := gfile_join temp_path _STATES_FILENAME).
  pose proof (fs_frame_trans hint) as Ht.
  apply (preserves_bind _ Ht any any).
  { intros w. split; [|exact I]. intros p _. reflexivity. }
  intros _ _. apply (preserves_bind _ Ht any any).
  { apply save_state_frame. }
  intros _ _ w. split; [|exact I]. intros p _. reflexivity.
Qed.

(** What a [save] that returns has done. *)
Lemma save_Return_inv (fuel : nat) (model : pyobj) (dirpath : string) (w w1 : world) :
  save env fuel model dirpath w = Return tt w1 ->
  exists r s name z,
    serialize_keras_object env model = Ok r /\
    json_dumps env r = Ok s /\
    name ∈ tmp_names w /\
    fs w !! scratch dirpath name = None /\
    fs w !! gfile_join dirpath _ARCHIVE_FILENAME = None /\
    fs w1 !! dirpath = Some Dir /\
    fs w1 !! gfile_join dirpath _ARCHIVE_FILENAME = Some (Zip z) /\
    (forall q, is_under (scratch dirpath name) q = true -> fs w1 !! q = None).
Proof.
  unfold save. intros H.
  apply bind_Return_inv in H as (dir_exists & w0 & Hex & H).
  unfold gfile_exists in Hex. injection Hex as <- <-.
  apply bind_Return_inv in H as ([] & wa & Hmkdir & H).
  apply bind_Return_inv in H as (r & wa' & Hser & H).
  destruct (serialize_keras_object env model) as [r'|] eqn:Er; [|discriminate].
  injection Hser as <- <-.
  apply bind_Return_inv in H as (s & wa' & Hjs & H).
  destruct (json_dumps env r') as [s'|] eqn:Es; [|discriminate].
  injection Hjs as <- <-.
  apply bind_Return_inv in H as (temp_path & wb & Hmk & H).
  apply mkdtemp_Return_inv in Hmk as (Hdir & rest & Htry & ->).
  apply mkdtemp_try_spec in Htry as (Hfree & name & Hname & ->).
  apply bind_Return_inv in H as (temp_exists & wb' & Hex & H).
  unfold gfile_exists in Hex. injection Hex as <- <-.
  rewrite bool_decide_eq_true_2 in H
    by (wsimpl; rewrite lookup_insert_eq; eauto).
  apply bind_Return_inv in H as ([] & wb' & Hret & H). injection Hret as <-.
  apply bind_Return_inv in H as ([] & wc & Hzip & H).
  apply with_ZipFile_x_Return_inv in Hzip as (Hnew & w'' & Hbody & ->).
  apply gfile_rmtree_Return_inv in H as ->.
  revert Hnew. wsimpl. rewrite lookup_insert_ne by apply scratch_neq_archive.
  intros Hnew.
  pose proof (preserves_final _ _ _
    (set_zip [] (set_fs <[gfile_join dirpath _ARCHIVE_FILENAME:=Zip []]>
       (set_fs <[scratch dirpath name:=Dir]> (set_tmp_names rest wa))))
    (save_body_frame fuel model s' (scratch dirpath name))) as Hframe.
  rewrite Hbody in Hframe. simpl in Hframe.
  (* the world before [mkdtemp] is [w], with [dirpath] made if it was missing *)
  assert (Hwa : tmp_names wa = tmp_names w /\
                (forall p, p <> dirpath -> fs wa !! p = fs w !! p)).
  { revert Hmkdir.
    destruct (bool_decide (is_Some (fs w !! dirpath))); simpl.
    - intros [= <-]. auto.
    - intros Hmkdir. apply gfile_mkdir_Return_inv in Hmkdir as [-> | [_ ->]]; [auto|].
      split; [reflexivity|]. intros p Hp. wsimpl.
      now rewrite lookup_insert_ne. }
  destruct Hwa as [Hnames Hother].
  assert (Hdf : dirpath <> gfile_join dirpath _ARCHIVE_FILENAME).
  { intros Heq. rewrite <- Heq in Hnew. congruence. }
  exists r', s', name, (zip w''). repeat split; auto.
  - now rewrite <- Hnames.
  - rewrite <- Hother; [exact Hfree | apply scratch_neq_dir].
  - rewrite <- Hother; [exact Hnew | auto].
  - wsimpl. rewrite rmtree_lookup_other by apply scratch_not_dir.
    rewrite lookup_insert_ne by auto.
    rewrite Hframe by (apply not_eq_sym, (states_file_neq_dir _ dirpath name); reflexivity).
    wsimpl. rewrite lookup_insert_ne by auto.
    rewrite lookup_insert_ne by apply scratch_neq_dir. exact Hdir.
  - wsimpl. rewrite rmtree_lookup_other by now apply scratch_not_archive.
    now rewrite lookup_insert_eq.
  - intros q Hq. wsimpl. now apply rmtree_lookup_under.
Qed.

(** When the archive is there already, [save] raises as it opens it, after
    it has made its scratch directory. *)
Lemma save_archive_exists (fuel : nat) (model : pyobj) (dirpath : string) (w : world)
    (r : pyval) (s temp_path : string) (rest : list string) (node : fnode) :
  fs w !! dirpath = Some Dir ->
  fs w !! gfile_join dirpath _ARCHIVE_FILENAME = Some node ->
  serialize_keras_object env model = Ok r ->
  json_dumps env r = Ok s ->
  mkdtemp_try dirpath (tmp_names w) (fs w) = (Some temp_path, rest) ->
  save env fuel model dirpath w =
    Raise FileExistsError (set_fs (insert temp_path Dir) (set_tmp_names rest w)).
Proof.
  intros Hd Hnode Hr Hs Ht. unfold save.
  rewrite (bind_Return _ _ _ _ _ (gfile_exists_Some _ _ _ Hd)). simpl negb. cbv iota.
  rewrite (bind_Return _ _ w w tt) by reflexivity.
  rewrite Hr. rewrite (bind_Return _ _ w w r) by reflexivity.
  rewrite Hs. rewrite (bind_Return _ _ w w s) by reflexivity.
  rewrite (bind_Return _ _ _ _ _ (mkdtemp_Return _ _ _ _ Hd Ht)).
  erewrite bind_Return
    by (eapply gfile_exists_Some; wsimpl; apply lookup_insert_eq).
  simpl negb. cbv iota.
  erewrite bind_Return by reflexivity.
  apply bind_Raise. unfold with_ZipFile_x, zip_open_x. wsimpl.
  destruct (mkdtemp_try_spec _ _ _ _ _ Ht) as (Hfree & _).
  rewrite lookup_insert_ne by congruence. now rewrite Hnode.
Qed.

(** C5, as the code has it: a second [save] at the destination of a [save]
    that returned raises [FileExistsError] when it opens the archive for
    exclusive creation. The archive of the first call is left as it is and
    no entry is written; the scratch directory of the second call, made
    before the archive is opened, is at the destination when it raises. *)
Theorem save_twice_raises (fuel : nat) (model : pyobj) (dirpath : string)
    (w0 w1 : world) (temp_path : string) (rest : list string) :
  save env fuel model dirpath w0 = Return tt w1 ->
  mkdtemp_try dirpath (tmp_names w1) (fs w1) = (Some temp_path, rest) ->
  exists w2,
    save env fuel model dirpath w1 = Raise FileExistsError w2 /\
    fs w1 !! temp_path = None /\
    fs w2 = <[temp_path := Dir]> (fs w1) /\
    fs w2 !! gfile_join dirpath _ARCHIVE_FILENAME =
      fs w1 !! gfile_join dirpath _ARCHIVE_FILENAME /\
    is_Some (fs w1 !! gfile_join dirpath _ARCHIVE_FILENAME).
Proof.
  intros Hfirst Ht.
  destruct (save_Return_inv _ _ _ _ _ Hfirst)
    as (r & s & name & z & Hr & Hs & _ & _ & _ & Hd & Hz & _).
  destruct (mkdtemp_try_spec _ _ _ _ _ Ht) as (Hfree & _).
  eexists. split; [eapply save_archive_exists; eauto|].
  wsimpl. split; [exact Hfree|]. split; [reflexivity|]. split.
  - rewrite lookup_insert_ne by congruence. reflexivity.
  - rewrite Hz. eauto.
Qed.

Lemma load_mkdtemp (fuel : nat) (dirpath : string) (w : world) (temp_path : string)
    (rest : list string) :
  fs w !! dirpath = Some Dir ->
  mkdtemp_try dirpath (tmp_names w) (fs w) = (Some temp_path, rest) ->
  exists name,
    temp_path = scratch dirpath name /\ name ∈ tmp_names w /\
    fs w !! temp_path = None /\
    mkdtemp dirpath w =
      Return temp_path (set_fs (insert temp_path Dir) (set_tmp_names rest w)).
Proof.
  intros Hd Ht. destruct (mkdtemp_try_spec _ _ _ _ _ Ht) as (Hfree & name & Hin & ->).
  exists name. repeat split; auto. now apply mkdtemp_Return.
Qed.

(** C6, as the code has it: a [save] and a [load] that return have removed
    the scratch directory they made, with all that lies below it for [save];
    when [load] raises after it has made the scratch directory, here because
    the config entry cannot be decoded, nothing removes the directory and it
    stays. *)
Theorem scratch_removed_when_returning (fuel : nat) (dirpath : string) :
  (forall model w w',
     save env fuel model dirpath w = Return tt w' ->
     exists name,
       name ∈ tmp_names w /\ fs w !! scratch dirpath name = None /\
       forall q, is_under (scratch dirpath name) q = true -> fs w' !! q = None) /\
  (forall model w w',
     load env fuel dirpath w = Return model w' ->
     exists name,
       name ∈ tmp_names w /\ fs w !! scratch dirpath name = None /\
       fs w' !! scratch dirpath name = None) /\
  (forall w entries data e temp_path rest,
     fs w !! dirpath = Some Dir ->
     fs w !! gfile_join dirpath _ARCHIVE_FILENAME = Some (Zip entries) ->
     zip_getinfo entries _CONFIG_FILENAME = Some data ->
     json_decode env data = Err e ->
     mkdtemp_try dirpath (tmp_names w) (fs w) = (Some temp_path, rest) ->
     exists w',
       load env fuel dirpath w = Raise e w' /\
       fs w !! temp_path = None /\ fs w' !! temp_path = Some Dir).
Proof.
  split; [|split].
  - intros model w w' H.
    destruct (save_Return_inv _ _ _ _ _ H)
      as (r & s & name & z & _ & _ & Hn & Hfree & _ & _ & _ & Hgone).
    now exists name.
  - intros model w w' H. unfold load in H.
    apply bind_Return_inv in H as (temp_path & wb & Hmk & H).
    apply mkdtemp_Return_inv in Hmk as (Hdir & rest & Htry & ->).
    apply mkdtemp_try_spec in Htry as (Hfree & name & Hname & ->).
    apply bind_Return_inv in H as (model' & wc & _ & H).
    apply bind_Return_inv in H as (temp_exists & wc' & Hex & H).
    unfold gfile_exists in Hex. injection Hex as <- <-.
    apply bind_Return_inv in H as ([] & wd & Hrm & H). injection H as _ <-.
    exists name. split; [exact Hname|]. split; [exact Hfree|].
    destruct (bool_decide (is_Some (fs wc !! scratch dirpath name))) eqn:E.
    + apply gfile_rmtree_Return_inv in Hrm as ->. wsimpl.
      apply rmtree_lookup_under, is_under_refl.
    + injection Hrm as <-. apply bool_decide_eq_false_1 in E.
      destruct (fs wc !! scratch dirpath name); [|reflexivity].
      exfalso. apply E. eauto.
  - intros w entries data e temp_path rest Hd Hzip Hcfg Hdec Ht.
    destruct (load_mkdtemp fuel _ _ _ _ Hd Ht) as (name & -> & _ & Hfree & Hmk).
    eexists. split.
    + unfold load. rewrite (bind_Return _ _ _ _ _ Hmk).
      apply bind_Raise. unfold with_ZipFile_r, zip_open_r. wsimpl.
      rewrite lookup_insert_ne by apply scratch_neq_archive. rewrite Hzip.
      unfold bind, _print_archive, zip_read. wsimpl. rewrite Hcfg, Hdec.
      reflexivity.
    + split; [exact Hfree|]. wsimpl. apply lookup_insert_eq.
Qed.

(** *** Reading: the scratch directory comes first *)

(** C9, as the code has it: [load] makes its scratch directory before it
    opens the archive. On a directory that holds no archive it raises
    [FileNotFoundError] when it opens the archive, and the scratch directory
    it has made by then, which did not exist before, is still there. *)
Theorem load_missing_archive_leaves_scratch (fuel : nat) (dirpath : string) (w : world)
    (temp_path : string) (rest : list string) :
  fs w !! dirpath = Some Dir ->
  fs w !! gfile_join dirpath _ARCHIVE_FILENAME = None ->
  mkdtemp_try dirpath (tmp_names w) (fs w) = (Some temp_path, rest) ->
  exists w',
    load env fuel dirpath w = Raise FileNotFoundError w' /\
    fs w !! temp_path = None /\
    fs w' = <[temp_path := Dir]> (fs w).
Proof.
  intros Hd Hnone Ht.
  destruct (load_mkdtemp fuel _ _ _ _ Hd Ht) as (name & -> & _ & Hfree & Hmk).
  eexists. split.
  - unfold load. rewrite (bind_Return _ _ _ _ _ Hmk).
    apply bind_Raise. unfold with_ZipFile_r, zip_open_r. wsimpl.
    rewrite lookup_insert_ne by apply scratch_neq_archive.
    now rewrite Hnone.
  - split; [exact Hfree | reflexivity].
Qed.

(** *** The state pass of [load] *)

Lemma dict_get_is_Some {A : Type} (d : list (string * A)) (key : string) :
  key ∈ d.*1 -> is_Some (dict_get d key).
Proof.
  induction d as [|[k v] d IH]; simpl.
  - intros H. now apply elem_of_nil in H.
  - rewrite elem_of_cons. destruct (String.eqb_spec k key) as [->|Hne]; [eauto|].
    intros [-> | H]; [contradiction | auto].
Qed.

Lemma namelist_getinfo (z : list (string * string)) (name : string) :
  name ∈ namelist z -> is_Some (zip_getinfo z name).
Proof.
  intros H. unfold zip_getinfo. apply dict_get_is_Some.
  rewrite fmap_reverse. now apply elem_of_reverse.
Qed.

Lemma load_state_unfold (fuel : nat) (trackable : pyobj)
    (zip_dir_path temp_path : string) (w : world) :
  exists w',
    _load_state (S fuel) trackable zip_dir_path temp_path w =
      visit_children trackable zip_dir_path
        (fun child_obj child_path => _load_state fuel child_obj child_path temp_path) w' /\
    absorbed trackable zip_dir_path temp_path w w'.
Proof.
  cbn [_load_state]. unfold absorbed.
  set (state_path := gfile_join zip_dir_path _STATES_FILENAME).
  set (extracted_path := gfile_join temp_path state_path).
  unfold bind at 1. unfold in_namelist.
  destruct (decide (state_path ∈ namelist (zip w))) as [Hin | Hnin].
  - rewrite bool_decide_eq_true_2 by exact Hin.
    destruct (namelist_getinfo _ _ Hin) as [data Hdata].
    unfold bind at 1. unfold bind at 1. unfold zip_extract. rewrite Hdata.
    fold extracted_path.
    destruct (has_load_state trackable) eqn:Hhook.
    + destruct trackable as [| | | | |i c a ch]; try discriminate.
      unfold bind at 1. unfold call_load_state. cbn [obj_id]. wsimpl.
      rewrite lookup_insert_eq. unfold gfile_remove. wsimpl.
      rewrite lookup_insert_eq. eexists. split; [reflexivity|]. wsimpl.
      repeat split; auto; try contradiction.
      intros _. exists data. repeat split; auto.
    + unfold bind at 1. cbn [ret]. unfold gfile_remove. wsimpl.
      rewrite lookup_insert_eq. eexists. split; [reflexivity|]. wsimpl.
      repeat split; auto; try contradiction.
      intros _. exists data. repeat split; auto.
  - rewrite bool_decide_eq_false_2 by exact Hnin.
    unfold bind at 1. cbn [ret]. exists w. split; [reflexivity|].
    repeat split; auto. contradiction.
Qed.

Lemma load_inv_refl (temp_path : string) (w0 : world) : load_inv temp_path w0 w0.
Proof. repeat split; auto. Qed.

Lemma load_inv_absorbed (trackable : pyobj) (zip_dir_path temp_path : string)
    (w0 w w' : world) :
  load_inv temp_path w0 w -> absorbed trackable zip_dir_path temp_path w w' ->
  load_inv temp_path w0 w'.
Proof.
  intros (Hz & Hcalls & Hsame) (Hz' & _ & Hno & Hyes).
  rewrite Hz in Hno, Hyes.
  destruct (decide (gfile_join zip_dir_path _STATES_FILENAME ∈ namelist (zip w0)))
    as [Hin | Hnin].
  - destruct (Hyes Hin) as (data & _ & _ & Hhook).
    split; [congruence|]. split.
    + intros i p Hp.
      destruct (if has_load_state trackable then obj_id trackable else None) as [j|].
      * destruct Hhook as [_ Hc]. rewrite Hc in Hp.
        apply elem_of_app in Hp as [Hp | Hp]; [auto|].
        apply list_elem_of_singleton in Hp. injection Hp as -> ->.
        right. now exists zip_dir_path.
      * destruct Hhook as [_ Hc]. rewrite Hc in Hp. auto.
    + intros Hnone. now destruct (Hnone zip_dir_path).
  - rewrite (Hno Hnin). repeat split; auto.
Qed.

Lemma visit_children_returns (I : world -> Prop) (fuel : nat) (trackable : pyobj)
    (zip_dir_path : string) (recurse : pyobj -> string -> M unit) :
  walkable (S fuel) trackable = true ->
  (forall child_obj child_path,
     walkable fuel child_obj = true ->
     returns I (recurse child_obj child_path) (fun _ w => I w)) ->
  returns I (visit_children trackable zip_dir_path recurse) (fun _ w => I w).
Proof.
  intros Hwalk Hrec.
  destruct (WalkerFacts.walkable_S _ _ Hwalk) as (d & Hd & Hch).
  intros w Hw. unfold visit_children. rewrite Hd.
  rewrite (bind_Return _ _ w w d) by reflexivity.
  apply (returns_for_each I d); [|exact Hw].
  intros [child_attr child_obj] Hin.
  destruct (_is_keras_trackable child_obj) eqn:E.
  - apply Hrec. eapply Hch; eauto.
  - apply returns_ret.
Qed.

Lemma load_state_returns (fuel : nat) :
  forall (trackable : pyobj) (zip_dir_path temp_path : string) (w0 : world),
  walkable fuel trackable = true ->
  returns (load_inv temp_path w0)
    (_load_state fuel trackable zip_dir_path temp_path)
    (fun _ w => load_inv temp_path w0 w).
Proof.
  induction fuel as [|fuel IH]; intros trackable zip_dir_path temp_path w0 Hwalk;
    [discriminate|].
  intros w Hw.
  destruct (load_state_unfold fuel trackable zip_dir_path temp_path w)
    as (w1 & -> & Habs).
  apply (visit_children_returns (load_inv temp_path w0) fuel); auto.
  eapply load_inv_absorbed; eauto.
Qed.

(** C10: when the archive has an entry for the path of a visited node and
    the node has no [_load_state] attribute, the entry is extracted to the
    scratch directory and the extracted file is removed again; no hook is
    called, the runtime state of every object is as it was, and the walk
    goes on to the children of the node. It raises nothing there, and the
    whole call returns when the walk below the node can be made. *)
Theorem load_state_drops_entry_without_hook (fuel : nat) (trackable : pyobj)
    (zip_dir_path temp_path : string) (w : world) :
  gfile_join zip_dir_path _STATES_FILENAME ∈ namelist (zip w) ->
  has_load_state trackable = false ->
  exists data w',
    zip_getinfo (zip w) (gfile_join zip_dir_path _STATES_FILENAME) = Some data /\
    _load_state (S fuel) trackable zip_dir_path temp_path w =
      visit_children trackable zip_dir_path
        (fun child_obj child_path => _load_state fuel child_obj child_path temp_path) w' /\
    fs w' =
      delete (gfile_join temp_path (gfile_join zip_dir_path _STATES_FILENAME))
        (<[gfile_join temp_path (gfile_join zip_dir_path _STATES_FILENAME) := File data]>
           (fs w)) /\
    fs w' !! gfile_join temp_path (gfile_join zip_dir_path _STATES_FILENAME) = None /\
    states w' = states w /\ calls w' = calls w /\ zip w' = zip w /\
    (walkable (S fuel) trackable = true ->
     exists w'', _load_state (S fuel) trackable zip_dir_path temp_path w = Return tt w'' /\
                 zip w'' = zip w).
Proof.
  intros Hin Hhook.
  destruct (load_state_unfold fuel trackable zip_dir_path temp_path w)
    as (w' & Heq & Habs).
  pose proof Habs as (Hz & _ & _ & Hyes).
  destruct (Hyes Hin) as (data & Hdata & Hfs & Hrest). rewrite Hhook in Hrest.
  destruct Hrest as [Hst Hcalls].
  exists data, w'. repeat split; auto.
  - rewrite Hfs. apply lookup_delete_eq.
  - intros Hwalk.
    destruct (load_state_returns (S fuel) trackable zip_dir_path temp_path w Hwalk w
                (load_inv_refl _ _)) as ([] & w'' & Hret & Hz'' & _).
    now exists w''.
Qed.

(** *** Reading an archive *)

(** What [load] does once the scratch directory is made and the archive is
    open with its config entry decoded and deserialized: the state pass
    returns, and so does [load], with the model. *)
Lemma load_returns (fuel : nat) (dirpath : string) (w : world)
    (entries : list (string * string)) (data : string) (r : pyval) (model : pyobj)
    (temp_path : string) (rest : list string) :
  fs w !! dirpath = Some Dir ->
  fs w !! gfile_join dirpath _ARCHIVE_FILENAME = Some (Zip entries) ->
  mkdtemp_try dirpath (tmp_names w) (fs w) = (Some temp_path, rest) ->
  zip_getinfo entries _CONFIG_FILENAME = Some data ->
  json_decode env data = Ok r ->
  deserialize_keras_object env r = Ok model ->
  walkable fuel model = true ->
  exists w3 w',
    load_inv temp_path
      (add_call (PrintArchive "loaded from" (namelist entries))
         (set_zip entries (set_fs (insert temp_path Dir) (set_tmp_names rest w)))) w3 /\
    load env fuel dirpath w = Return model w' /\
    states w' = states w3 /\ calls w' = calls w3 /\
    fs w' !! temp_path = None.
Proof.
  intros Hd Hzip Ht Hcfg Hdec Hdes Hwalk.
  destruct (load_mkdtemp fuel _ _ _ _ Hd Ht) as (name & -> & _ & Hfree & Hmk).
  set (w2 := add_call (PrintArchive "loaded from" (namelist entries))
               (set_zip entries
                  (set_fs (insert (scratch dirpath name) Dir) (set_tmp_names rest w)))).
  destruct (load_state_returns fuel model _STATES_ROOT_DIRNAME (scratch dirpath name)
              w2 Hwalk w2 (load_inv_refl _ _)) as ([] & w3 & Hls & Hinv).
  assert (Hwith :
    with_ZipFile_r (gfile_join dirpath _ARCHIVE_FILENAME)
      (_print_archive "loaded from" ;;
       config_json <- zip_read _CONFIG_FILENAME ;;
       config_dict <- lift (json_decode env config_json) ;;
       model <- lift (deserialize_keras_object env config_dict) ;;
       _load_state fuel model _STATES_ROOT_DIRNAME (scratch dirpath name) ;;
       ret model)
      (set_fs (insert (scratch dirpath name) Dir) (set_tmp_names rest w)) =
    Return model (zip_close_r w3)).
  { unfold with_ZipFile_r, zip_open_r. wsimpl.
    rewrite lookup_insert_ne by apply scratch_neq_archive. rewrite Hzip.
    unfold bind at 1. unfold _print_archive. wsimpl. fold w2.
    unfold bind at 1. unfold zip_read. unfold w2 at 1. wsimpl. rewrite Hcfg.
    unfold bind at 1. rewrite Hdec. cbn [lift ret].
    unfold bind at 1. rewrite Hdes. cbn [lift ret].
    unfold bind at 1. rewrite Hls. reflexivity. }
  exists w3. unfold load. rewrite (bind_Return _ _ _ _ _ Hmk).
  rewrite (bind_Return _ _ _ _ _ Hwith).
  unfold bind at 1. unfold gfile_exists.
  destruct (bool_decide (is_Some (fs (zip_close_r w3) !! scratch dirpath name))) eqn:E.
  - apply bool_decide_eq_true_1 in E as [n Hn].
    rewrite (bind_Return _ _ _ _ _ (gfile_rmtree_Return _ _ _ Hn)).
    eexists. split; [exact Hinv|]. split; [reflexivity|]. wsimpl.
    repeat split; auto. apply rmtree_lookup_under, is_under_refl.
  - apply bool_decide_eq_false_1 in E.
    rewrite (bind_Return _ _ _ (zip_close_r w3) tt) by reflexivity.
    eexists. split; [exact Hinv|]. split; [reflexivity|]. wsimpl.
    repeat split; auto.
    destruct (fs w3 !! scratch dirpath name) eqn:E'; [|reflexivity].
    exfalso. apply E. wsimpl. rewrite E'. eauto.
Qed.

(** [load] when the state pass returns. *)
Lemma load_with (fuel : nat) (dirpath : string) (w : world)
    (entries : list (string * string)) (data : string) (r : pyval) (model : pyobj)
    (name : string) (rest : list string) (w3 : world) :
  fs w !! dirpath = Some Dir ->
  fs w !! gfile_join dirpath _ARCHIVE_FILENAME = Some (Zip entries) ->
  mkdtemp_try dirpath (tmp_names w) (fs w) = (Some (scratch dirpath name), rest) ->
  zip_getinfo entries _CONFIG_FILENAME = Some data ->
  json_decode env data = Ok r ->
  deserialize_keras_object env r = Ok model ->
  _load_state fuel model _STATES_ROOT_DIRNAME (scratch dirpath name)
    (add_call (PrintArchive "loaded from" (namelist entries))
       (set_zip entries
          (set_fs (insert (scratch dirpath name) Dir) (set_tmp_names rest w)))) =
    Return tt w3 ->
  exists w',
    load env fuel dirpath w = Return model w' /\
    states w' = states w3 /\ calls w' = calls w3 /\
    fs w' !! scratch dirpath name = None.
Proof.
  intros Hd Hzip Ht Hcfg Hdec Hdes Hls.
  destruct (load_mkdtemp fuel _ _ _ _ Hd Ht) as (name' & _ & _ & Hfree & Hmk).
  set (w2 := add_call (PrintArchive "loaded from" (namelist entries))
               (set_zip entries
                  (set_fs (insert (scratch dirpath name) Dir) (set_tmp_names rest w)))) in *.
  assert (Hwith :
    with_ZipFile_r (gfile_join dirpath _ARCHIVE_FILENAME)
      (_print_archive "loaded from" ;;
       config_json <- zip_read _CONFIG_FILENAME ;;
       config_dict <- lift (json_decode env config_json) ;;
       model <- lift (deserialize_keras_object env config_dict) ;;
       _load_state fuel model _STATES_ROOT_DIRNAME (scratch dirpath name) ;;
       ret model)
      (set_fs (insert (scratch dirpath name) Dir) (set_tmp_names rest w)) =
    Return model (zip_close_r w3)).
  { unfold with_ZipFile_r, zip_open_r. wsimpl.
    rewrite lookup_insert_ne by apply scratch_neq_archive. rewrite Hzip.
    unfold bind at 1. unfold _print_archive. wsimpl. fold w2.
    unfold bind at 1. unfold zip_read. unfold w2 at 1. wsimpl. rewrite Hcfg.
    unfold bind at 1. rewrite Hdec. cbn [lift ret].
    unfold bind at 1. rewrite Hdes. cbn [lift ret].
    unfold bind at 1. rewrite Hls. reflexivity. }
  unfold load. rewrite (bind_Return _ _ _ _ _ Hmk).
  rewrite (bind_Return _ _ _ _ _ Hwith).
  unfold bind at 1. unfold gfile_exists.
  destruct (bool_decide (is_Some (fs (zip_close_r w3) !! scratch dirpath name))) eqn:E.
  - apply bool_decide_eq_true_1 in E as [n Hn].
    rewrite (bind_Return _ _ _ _ _ (gfile_rmtree_Return _ _ _ Hn)).
    eexists. split; [reflexivity|]. wsimpl.
    repeat split; auto. apply rmtree_lookup_under, is_under_refl.
  - apply bool_decide_eq_false_1 in E.
    rewrite (bind_Return _ _ _ (zip_close_r w3) tt) by reflexivity.
    eexists. split; [reflexivity|]. wsimpl.
    repeat split; auto.
    destruct (fs w3 !! scratch dirpath name) eqn:E'; [|reflexivity].
    exfalso. apply E. wsimpl. rewrite E'. eauto.
Qed.

(** *** The state pass of [load], node by node *)

Lemma load_inv_at_refl (root : pyobj) (root_path temp_path : string) (w0 : world) :
  load_inv_at root root_path temp_path w0 w0.
Proof. repeat split; auto. Qed.

Lemma load_inv_at_absorbed (root : pyobj) (root_path : string) (trackable : pyobj)
    (zip_dir_path temp_path : string) (w0 w w' : world) :
  visited root root_path trackable zip_dir_path ->
  load_inv_at root root_path temp_path w0 w ->
  absorbed trackable zip_dir_path temp_path w w' ->
  load_inv_at root root_path temp_path w0 w'.
Proof.
  intros Hvis (Hz & Hcalls & Hstates) (Hz' & _ & Hno & Hyes).
  rewrite Hz in Hno, Hyes.
  destruct (decide (gfile_join zip_dir_path _STATES_FILENAME ∈ namelist (zip w0)))
    as [Hin | Hnin]; [|rewrite (Hno Hnin); repeat split; auto].
  destruct (Hyes Hin) as (data & _ & _ & Hhook).
  split; [congruence|].
  destruct (has_load_state trackable) eqn:Hh; [destruct (obj_id trackable) as [j|] eqn:Hj|].
  - destruct Hhook as [Hst Hc]. split.
    + intros i p Hp. rewrite Hc in Hp.
      apply elem_of_app in Hp as [Hp | Hp]; [auto|].
      apply list_elem_of_singleton in Hp. injection Hp as -> ->.
      right. exists trackable, zip_dir_path. auto.
    + intros i Hi. rewrite Hst.
      destruct (decide (i = j)) as [-> | Hne].
      * now destruct (Hi trackable zip_dir_path Hvis Hj Hh).
      * rewrite lookup_insert_ne by auto. now apply Hstates.
  - destruct Hhook as [Hst Hc]. rewrite Hst, Hc. split; auto.
  - destruct Hhook as [Hst Hc]. rewrite Hst, Hc. split; auto.
Qed.

Lemma visit_children_returns_at (I : world -> Prop) (fuel : nat) (trackable : pyobj)
    (zip_dir_path : string) (recurse : pyobj -> string -> M unit) :
  walkable (S fuel) trackable = true ->
  (forall d child_attr child_obj,
     _get_unique_children_dict trackable = Ok d ->
     (child_attr, child_obj) ∈ d ->
     _is_keras_trackable child_obj = true ->
     walkable fuel child_obj = true ->
     returns I (recurse child_obj (gfile_join zip_dir_path child_attr))
       (fun _ w => I w)) ->
  returns I (visit_children trackable zip_dir_path recurse) (fun _ w => I w).
Proof.
  intros Hwalk Hrec.
  destruct (WalkerFacts.walkable_S _ _ Hwalk) as (d & Hd & Hch).
  intros w Hw. unfold visit_children. rewrite Hd.
  rewrite (bind_Return _ _ w w d) by reflexivity.
  apply (returns_for_each I d); [|exact Hw].
  intros [child_attr child_obj] Hin.
  destruct (_is_keras_trackable child_obj) eqn:E.
  - apply (Hrec d); auto. eapply Hch; eauto.
  - apply returns_ret.
Qed.

Lemma load_state_returns_at (root : pyobj) (root_path temp_path : string)
    (w0 : world) (fuel : nat) :
  forall (trackable : pyobj) (zip_dir_path : string),
  walkable fuel trackable = true ->
  visited root root_path trackable zip_dir_path ->
  returns (load_inv_at root root_path temp_path w0)
    (_load_state fuel trackable zip_dir_path temp_path)
    (fun _ w => load_inv_at root root_path temp_path w0 w).
Proof.
  induction fuel as [|fuel IH]; intros trackable zip_dir_path Hwalk Hvis;
    [discriminate|].
  intros w Hw.
  destruct (load_state_unfold fuel trackable zip_dir_path temp_path w)
    as (w1 & -> & Habs).
  apply (visit_children_returns_at (load_inv_at root root_path temp_path w0) fuel);
    [exact Hwalk | | eapply load_inv_at_absorbed; eauto].
  intros d child_attr child_obj Hd Hin Hlayer Hwalk'.
  apply IH; [exact Hwalk'|]. eapply visited_child; eauto.
Qed.

(** C7: [load] of an archive returns the object rebuilt from the config
    entry whether or not the archive holds state entries. Node by node: a
    [_load_state] hook is called only for a node that the walk visits and
    that has the hook, and only on the file extracted from the entry that
    the archive has at the path of this very node; an object that is visited
    at no path with an entry keeps the runtime state it had, its hook not
    being called. When the archive has no state entry for any path, no hook
    is called and the runtime state of every object is as it was. *)
Theorem load_tolerates_missing_state (fuel : nat) (dirpath : string) (w : world)
    (entries : list (string * string)) (data : string) (r : pyval) (model : pyobj)
    (temp_path : string) (rest : list string) :
  fs w !! dirpath = Some Dir ->
  fs w !! gfile_join dirpath _ARCHIVE_FILENAME = Some (Zip entries) ->
  mkdtemp_try dirpath (tmp_names w) (fs w) = (Some temp_path, rest) ->
  zip_getinfo entries _CONFIG_FILENAME = Some data ->
  json_decode env data = Ok r ->
  deserialize_keras_object env r = Ok model ->
  walkable fuel model = true ->
  exists w',
    load env fuel dirpath w = Return model w' /\
    (forall i p, CallLoadState i p ∈ calls w' ->
       CallLoadState i p ∈ calls w \/
       exists node zip_dir_path,
         visited model _STATES_ROOT_DIRNAME node zip_dir_path /\
         obj_id node = Some i /\ has_load_state node = true /\
         gfile_join zip_dir_path _STATES_FILENAME ∈ namelist entries /\
         p = gfile_join temp_path (gfile_join zip_dir_path _STATES_FILENAME)) /\
    (forall i,
       (forall node zip_dir_path,
          visited model _STATES_ROOT_DIRNAME node zip_dir_path ->
          obj_id node = Some i -> has_load_state node = true ->
          gfile_join zip_dir_path _STATES_FILENAME ∉ namelist entries) ->
       states w' !! i = states w !! i) /\
    ((forall zip_dir_path,
        gfile_join zip_dir_path _STATES_FILENAME ∉ namelist entries) ->
     states w' = states w /\
     calls w' = calls w ++ [PrintArchive "loaded from" (namelist entries)]).
Proof.
  intros Hd Hzip Ht Hcfg Hdec Hdes Hwalk.
  destruct (load_mkdtemp fuel _ _ _ _ Hd Ht) as (name & -> & _ & _ & _).
  set (w2 := add_call (PrintArchive "loaded from" (namelist entries))
               (set_zip entries
                  (set_fs (insert (scratch dirpath name) Dir) (set_tmp_names rest w)))).
  destruct (load_state_returns_at model _STATES_ROOT_DIRNAME (scratch dirpath name) w2
              fuel model _STATES_ROOT_DIRNAME Hwalk (visited_root _ _) w2
              (load_inv_at_refl _ _ _ _)) as ([] & w3 & Hls & (_ & Hcalls & Hstates)).
  destruct (load_state_returns fuel model _STATES_ROOT_DIRNAME (scratch dirpath name)
              w2 Hwalk w2 (load_inv_refl _ _)) as ([] & w3' & Hls' & (_ & _ & Hsame)).
  rewrite Hls in Hls'. injection Hls' as <-.
  destruct (load_with fuel dirpath w entries data r model name rest w3
              Hd Hzip Ht Hcfg Hdec Hdes Hls) as (w' & Hload & Hst & Hc & _).
  exists w'. split; [exact Hload|].
  revert Hcalls Hstates Hsame. unfold w2. wsimpl. intros Hcalls Hstates Hsame.
  split; [|split].
  - intros i p Hp. rewrite Hc in Hp.
    destruct (Hcalls i p Hp) as [Hold | Hnew]; [|now right].
    apply elem_of_app in Hold as [Hold | Hold]; [now left|].
    apply list_elem_of_singleton in Hold. discriminate.
  - intros i Hi. rewrite Hst. now apply Hstates.
  - intros Hnone. rewrite Hst, Hc, (Hsame Hnone). split; reflexivity.
Qed.

(** *** The state pass of [save] *)

Lemma save_state_unfold (fuel : nat) (trackable : pyobj)
    (zip_dir_path temp_path : string) (w : world) :
  exists w',
    _save_state (S fuel) trackable zip_dir_path temp_path w =
      visit_children trackable zip_dir_path
        (fun child_obj child_path => _save_state fuel child_obj child_path temp_path) w' /\
    externalized trackable zip_dir_path temp_path w w'.
Proof.
  cbn [_save_state]. unfold externalized.
  set (hint := gfile_join temp_path _STATES_FILENAME).
  destruct (has_save_state trackable) eqn:Hhook.
  - destruct trackable as [| | | | |i c a ch]; try discriminate.
    unfold bind at 1. unfold bind at 1. unfold call_save_state. cbn [obj_id].
    destruct (states w !! i) as [blob|] eqn:Hst.
    + unfold bind at 1. unfold zip_write. wsimpl. rewrite lookup_insert_eq.
      unfold gfile_remove. wsimpl. rewrite lookup_insert_eq.
      eexists. split; [reflexivity|]. wsimpl. repeat split; auto.
    + eexists. split; [reflexivity|]. wsimpl. repeat split; auto.
  - unfold bind at 1. cbn [ret]. exists w. repeat split; auto.
Qed.

Lemma stateless_inv_externalized (trackable : pyobj) (zip_dir_path temp_path : string)
    (w0 w w' : world) :
  stateless_inv w0 w -> externalized trackable zip_dir_path temp_path w w' ->
  stateless_inv w0 w'.
Proof.
  intros (Hst & Hfs & Hz & Hn) (Hn' & Hst' & Hhook).
  destruct (if has_save_state trackable then obj_id trackable else None) as [i|].
  - destruct Hhook as [_ Hhook]. rewrite Hst, lookup_empty in Hhook.
    destruct Hhook as [Hz' Hfs']. repeat split; congruence.
  - subst w'. repeat split; auto.
Qed.

(** When no object holds runtime state, the state pass of [save] returns
    and writes nothing, neither to the archive nor to a file. *)
Lemma save_state_stateless (fuel : nat) :
  forall (trackable : pyobj) (zip_dir_path temp_path : string) (w0 : world),
  walkable fuel trackable = true ->
  returns (stateless_inv w0)
    (_save_state fuel trackable zip_dir_path temp_path)
    (fun _ w => stateless_inv w0 w).
Proof.
  induction fuel as [|fuel IH]; intros trackable zip_dir_path temp_path w0 Hwalk;
    [discriminate|].
  intros w Hw.
  destruct (save_state_unfold fuel trackable zip_dir_path temp_path w)
    as (w1 & -> & Hext).
  apply (visit_children_returns (stateless_inv w0) fuel); auto.
  eapply stateless_inv_externalized; eauto.
Qed.



(** *** Writing and reading back *)

(** [save] of a model that holds no runtime state, at a destination that has
    no archive yet: it returns, and the archive holds the config entry alone. *)
Lemma save_stateless_returns (fuel : nat) (model : pyobj) (dirpath : string) (w : world)
    (r : pyval) (s name : string) (rest : list string) :
  fs w !! dirpath = Some Dir ->
  fs w !! gfile_join dirpath _ARCHIVE_FILENAME = None ->
  tmp_names w = name :: rest ->
  fs w !! scratch dirpath name = None ->
  states w = ∅ ->
  walkable fuel model = true ->
  serialize_keras_object env model = Ok r ->
  json_dumps env r = Ok s ->
  exists w1,
    save env fuel model dirpath w = Return tt w1 /\
    fs w1 =
      filter (fun kv : string * fnode => is_under (scratch dirpath name) kv.1 = false)
        (<[gfile_join dirpath _ARCHIVE_FILENAME := Zip [(_CONFIG_FILENAME, s)]]>
           (<[gfile_join dirpath _ARCHIVE_FILENAME := Zip []]>
              (<[scratch dirpath name := Dir]> (fs w)))) /\
    tmp_names w1 = rest /\ states w1 = ∅.
Proof.
  intros Hd Hnone Hnames Hfree Hst Hwalk Hr Hs.
  assert (Ht : mkdtemp_try dirpath (tmp_names w) (fs w) = (Some (scratch dirpath name), rest)).
  { rewrite Hnames. cbn [mkdtemp_try]. fold (scratch dirpath name). now rewrite Hfree. }
  set (wb := set_fs (insert (scratch dirpath name) Dir) (set_tmp_names rest w)).
  set (file_path := gfile_join dirpath _ARCHIVE_FILENAME) in *.
  set (wc := set_zip [(_CONFIG_FILENAME, s)]
               (set_zip [] (set_fs (insert file_path (Zip [])) wb))).
  assert (Hinv0 : stateless_inv wc wc).
  { repeat split; auto. }
  destruct (save_state_stateless fuel model _STATES_ROOT_DIRNAME (scratch dirpath name)
              wc Hwalk wc Hinv0) as ([] & w'' & Hss & (Hst'' & Hfs'' & Hz'' & Hn'')).
  assert (Hwith :
    with_ZipFile_x file_path
      (zip_writestr _CONFIG_FILENAME s ;;
       _save_state fuel model _STATES_ROOT_DIRNAME (scratch dirpath name) ;;
       _print_archive "saved in") wb =
    Return tt (zip_close_w file_path
                 (add_call (PrintArchive "saved in" (namelist (zip w''))) w''))).
  { unfold with_ZipFile_x, zip_open_x. unfold wb at 1. wsimpl.
    rewrite lookup_insert_ne by apply scratch_neq_archive.
    rewrite Hnone. fold wb.
    unfold bind at 1. unfold zip_writestr. wsimpl. cbn [app]. fold wc.
    unfold bind at 1. rewrite Hss. reflexivity. }
  eexists. split.
  - unfold save.
    rewrite (bind_Return _ _ _ _ _ (gfile_exists_Some _ _ _ Hd)). simpl negb. cbv iota.
    rewrite (bind_Return _ _ w w tt) by reflexivity.
    rewrite Hr. rewrite (bind_Return _ _ w w r) by reflexivity.
    rewrite Hs. rewrite (bind_Return _ _ w w s) by reflexivity.
    rewrite (bind_Return _ _ _ _ _ (mkdtemp_Return _ _ _ _ Hd Ht)). fold wb.
    erewrite bind_Return
      by (eapply gfile_exists_Some; unfold wb; wsimpl; apply lookup_insert_eq).
    simpl negb. cbv iota.
    erewrite bind_Return by reflexivity.
    rewrite (bind_Return _ _ _ _ _ Hwith).
    eapply gfile_rmtree_Return. wsimpl. rewrite Hfs''. unfold wc, wb. wsimpl.
    rewrite lookup_insert_ne by (apply not_eq_sym, scratch_neq_archive).
    rewrite lookup_insert_ne by (apply not_eq_sym, scratch_neq_archive).
    apply lookup_insert_eq.
  - wsimpl. rewrite Hfs'', Hz'', Hn'', Hst''. unfold wc, wb. wsimpl. auto.
Qed.

(** C1: a model that is rebuilt from its config and holds no runtime state
    goes through [save] and [load] to an object with the same serialized
    config record. The model has a config; the JSON encoding of its record
    decodes to the record; the names recorded for its class lead back to the
    class; [from_config] of the class on the config gives an object of the
    class with that config; the destination has no archive and two names for
    scratch directories are free. *)
Theorem save_load_roundtrip (fuel : nat) (dirpath : string) (w : world)
    (id : nat) (cls : pyclass) (a : attrs) (ch : list (string * pyobj))
    (config : pyval) (from_config : pyval -> result pyobj) (model' : pyobj)
    (n1 n2 : string) (rest : list string) :
  a_config a = Some config ->
  states w = ∅ ->
  walkable fuel (PyObject id cls a ch) = true ->
  fs w !! dirpath = Some Dir ->
  fs w !! gfile_join dirpath _ARCHIVE_FILENAME = None ->
  tmp_names w = n1 :: n2 :: rest ->
  fs w !! scratch dirpath n1 = None ->
  fs w !! scratch dirpath n2 = None ->
  (forall r, serialize_keras_object env (PyObject id cls a ch) = Ok r ->
             exists s, json_dumps env r = Ok s /\ json_decode env s = Ok r) ->
  resolves env cls ->
  class_from_config env cls = Some from_config ->
  from_config config = Ok model' ->
  class_of model' = cls ->
  get_config model' = Some config ->
  walkable fuel model' = true ->
  exists w1 w2,
    save env fuel (PyObject id cls a ch) dirpath w = Return tt w1 /\
    load env fuel dirpath w1 = Return model' w2 /\
    serialize_keras_object env model' =
      serialize_keras_object env (PyObject id cls a ch).
Proof.
  intros Hcfg Hst Hwalk Hd Hnone Hnames Hfree1 Hfree2 Hjson Hres Hfc Hbuild Hcls Hcfg' Hwalk'.
  pose proof (CodecFacts.serialize_instance env id cls a ch config Hcfg) as Hser.
  destruct (Hjson _ Hser) as (s & Hdump & Hdec).
  destruct (save_stateless_returns fuel _ dirpath w _ s n1 (n2 :: rest)
              Hd Hnone Hnames Hfree1 Hst Hwalk Hser Hdump)
    as (w1 & Hsave & Hfs1 & Hn1 & Hst1).
  assert (Hd1 : fs w1 !! dirpath = Some Dir).
  { rewrite Hfs1, rmtree_lookup_other by apply scratch_not_dir.
    assert (Hne : gfile_join dirpath _ARCHIVE_FILENAME <> dirpath).
    { intros Heq. rewrite Heq in Hnone. congruence. }
    rewrite !lookup_insert_ne by auto.
    rewrite lookup_insert_ne by apply scratch_neq_dir. exact Hd. }
  assert (Hz1 : fs w1 !! gfile_join dirpath _ARCHIVE_FILENAME =
                Some (Zip [(_CONFIG_FILENAME, s)])).
  { rewrite Hfs1, rmtree_lookup_other by now apply scratch_not_archive.
    apply lookup_insert_eq. }
  assert (Ht1 : mkdtemp_try dirpath (tmp_names w1) (fs w1) =
                (Some (scratch dirpath n2), rest)).
  { rewrite Hn1. cbn [mkdtemp_try]. fold (scratch dirpath n2).
    assert (Hfree : fs w1 !! scratch dirpath n2 = None).
    { rewrite Hfs1.
      destruct (is_under (scratch dirpath n1) (scratch dirpath n2)) eqn:Eu.
      - now apply rmtree_lookup_under.
      - rewrite rmtree_lookup_other by exact Eu.
        rewrite !lookup_insert_ne by (apply not_eq_sym, scratch_neq_archive).
        rewrite lookup_insert_ne by now apply is_under_neq.
        exact Hfree2. }
    now rewrite Hfree. }
  assert (Hdes : deserialize_keras_object env
                   (VDict [("module",
                            match get_canonical_name_for_symbol env cls with
                            | Some _ => VNone
                            | None => VStr (cls_module cls)
                            end);
                           ("class_name",
                            match get_canonical_name_for_symbol env cls with
                            | Some name => VStr name
                            | None => VStr (cls_name cls)
                            end);
                           ("config", config);
                           ("registered_name", get_registered_name env (PyClass cls))]) =
                 Ok model').
  { rewrite (CodecFacts.deserialize_serialized_instance env id cls a ch config
               from_config _ Hcfg Hres Hfc Hser). exact Hbuild. }
  destruct (load_returns fuel dirpath w1 [(_CONFIG_FILENAME, s)] s _ model'
              (scratch dirpath n2) rest Hd1 Hz1 Ht1 eq_refl Hdec Hdes Hwalk')
    as (w3 & w2 & _ & Hload & _).
  exists w1, w2. split; [exact Hsave|]. split; [exact Hload|].
  now apply (CodecFacts.serialize_rebuilt env id cls a ch config).
Qed.

End WithEnv.

(** C9, as the claim has it, fails: on the directory [d] that holds no
    archive, [load] raises and leaves the scratch directory [d/tmpk3x]
    that it has made. *)
Lemma load_missing_archive_counterexample :
  fs Sample.empty_dir !! "d/tmpk3x" = None /\
  exists w',
    load Sample.env 3 "d" Sample.empty_dir = Raise FileNotFoundError w' /\
    fs w' !! "d/tmpk3x" = Some Dir.
Proof.
  split; [reflexivity|]. eexists. split; reflexivity.
Qed.

Lemma load_missing_archive_leaves_scratch_witness :
  exists w',
    load Sample.env 3 "d" Sample.empty_dir = Raise FileNotFoundError w' /\
    fs Sample.empty_dir !! "d/tmpk3x" = None /\
    fs w' = <["d/tmpk3x" := Dir]> (fs Sample.empty_dir).
Proof.
  apply (load_missing_archive_leaves_scratch Sample.env 3 "d" Sample.empty_dir
           "d/tmpk3x" ["q7p"]); reflexivity.
Defined.

Lemma save_load_roundtrip_witness :
  exists w1 w2,
    save Sample.env 3 (Sample.model 0) "d" Sample.empty_dir = Return tt w1 /\
    load Sample.env 3 "d" w1 = Return (Sample.model 10) w2 /\
    serialize_keras_object Sample.env (Sample.model 10) =
      serialize_keras_object Sample.env (Sample.model 0).
Proof.
  apply (save_load_roundtrip Sample.env 3 "d" Sample.empty_dir 0 Sample.MyModel
           (Sample.layer_attrs Sample.model_config)
           [("a", Sample.dense 1); ("b", Sample.dense 1); ("c", Sample.dense 2)]
           Sample.model_config
           (fun config =>
              if pyval_eqb config Sample.model_config then Ok (Sample.model 10)
              else Err ValueError)
           (Sample.model 10) "k3x" "q7p" []); try reflexivity.
  - intros r Hr. vm_compute in Hr. injection Hr as <-.
    exists "model_record". split; reflexivity.
  - split; [discriminate|]. vm_compute. eexists. split; reflexivity.
Defined.

(** C5, as the claim has it, fails: the second [save] raises after it has
    made the directory [d/tmpq7p] at the destination. *)
Lemma save_twice_counterexample :
  save Sample.env 3 (Sample.model 0) "d" Sample.empty_dir = Return tt Sample.saved_dir /\
  fs Sample.saved_dir !! "d/tmpq7p" = None /\
  exists w2,
    save Sample.env 3 (Sample.model 0) "d" Sample.saved_dir = Raise FileExistsError w2 /\
    fs w2 !! "d/tmpq7p" = Some Dir.
Proof.
  split; [vm_compute; reflexivity|]. split; [vm_compute; reflexivity|].
  eexists. split; vm_compute; reflexivity.
Qed.

Lemma save_twice_raises_witness :
  exists w2,
    save Sample.env 3 (Sample.model 0) "d" Sample.saved_dir = Raise FileExistsError w2 /\
    fs Sample.saved_dir !! "d/tmpq7p" = None /\
    fs w2 = <["d/tmpq7p" := Dir]> (fs Sample.saved_dir) /\
    fs w2 !! gfile_join "d" _ARCHIVE_FILENAME =
      fs Sample.saved_dir !! gfile_join "d" _ARCHIVE_FILENAME /\
    is_Some (fs Sample.saved_dir !! gfile_join "d" _ARCHIVE_FILENAME).
Proof.
  apply (save_twice_raises Sample.env 3 (Sample.model 0) "d" Sample.empty_dir
           Sample.saved_dir "d/tmpq7p" []); vm_compute; reflexivity.
Defined.

(** C6, as the claim has it, fails: [load] raises on an archive whose config
    entry is no JSON, and the scratch directory [d/tmpk3x] that it has made
    is left behind. *)
Lemma scratch_left_on_failure_counterexample :
  fs Sample.corrupt_dir !! "d/tmpk3x" = None /\
  exists w',
    load Sample.env 3 "d" Sample.corrupt_dir = Raise ValueError w' /\
    fs w' !! "d/tmpk3x" = Some Dir.
Proof.
  split; [vm_compute; reflexivity|]. eexists. split; vm_compute; reflexivity.
Qed.

Lemma scratch_removed_when_returning_witness :
  exists name,
    name ∈ tmp_names Sample.empty_dir /\
    fs Sample.empty_dir !! scratch "d" name = None /\
    forall q, is_under (scratch "d" name) q = true -> fs Sample.saved_dir !! q = None.
Proof.
  apply (proj1 (scratch_removed_when_returning Sample.env 3 "d")
           (Sample.model 0) Sample.empty_dir Sample.saved_dir).
  vm_compute. reflexivity.
Defined.

(** The archive holds the record of the sample model and a state entry for
    its child [a] alone. *)
Lemma load_tolerates_missing_state_witness :
  exists w',
    load Sample.env 3 "d" Sample.partial_dir = Return (Sample.model 10) w' /\
    (forall i p, CallLoadState i p ∈ calls w' ->
       CallLoadState i p ∈ calls Sample.partial_dir \/
       exists node zip_dir_path,
         visited (Sample.model 10) _STATES_ROOT_DIRNAME node zip_dir_path /\
         obj_id node = Some i /\ has_load_state node = true /\
         gfile_join zip_dir_path _STATES_FILENAME ∈
           namelist [("config.json", "model_record"); ("model/a/states.npz", "weights")] /\
         p = gfile_join "d/tmpk3x" (gfile_join zip_dir_path _STATES_FILENAME)) /\
    (forall i,
       (forall node zip_dir_path,
          visited (Sample.model 10) _STATES_ROOT_DIRNAME node zip_dir_path ->
          obj_id node = Some i -> has_load_state node = true ->
          gfile_join zip_dir_path _STATES_FILENAME ∉
            namelist [("config.json", "model_record"); ("model/a/states.npz", "weights")]) ->
       states w' !! i = states Sample.partial_dir !! i) /\
    ((forall zip_dir_path,
        gfile_join zip_dir_path _STATES_FILENAME ∉
          namelist [("config.json", "model_record"); ("model/a/states.npz", "weights")]) ->
     states w' = states Sample.partial_dir /\
     calls w' = calls Sample.partial_dir ++
       [PrintArchive "loaded from"
          (namelist [("config.json", "model_record"); ("model/a/states.npz", "weights")])]).
Proof.
  apply (load_tolerates_missing_state Sample.env 3 "d" Sample.partial_dir
           [("config.json", "model_record"); ("model/a/states.npz", "weights")]
           "model_record" Sample.model_record
           (Sample.model 10) "d/tmpk3x" ["q7p"]); vm_compute; reflexivity.
Defined.

Lemma load_state_drops_entry_without_hook_witness :
  exists data w',
    zip_getinfo (zip Sample.open_archive) (gfile_join "model" _STATES_FILENAME) = Some data /\
    _load_state 1 Sample.hookless_layer "model" "d/tmpk3x" Sample.open_archive =
      visit_children Sample.hookless_layer "model"
        (fun child_obj child_path => _load_state 0 child_obj child_path "d/tmpk3x") w' /\
    fs w' =
      delete (gfile_join "d/tmpk3x" (gfile_join "model" _STATES_FILENAME))
        (<[gfile_join "d/tmpk3x" (gfile_join "model" _STATES_FILENAME) := File data]>
           (fs Sample.open_archive)) /\
    fs w' !! gfile_join "d/tmpk3x" (gfile_join "model" _STATES_FILENAME) = None /\
    states w' = states Sample.open_archive /\ calls w' = calls Sample.open_archive /\
    zip w' = zip Sample.open_archive /\
    (walkable 1 Sample.hookless_layer = true ->
     exists w'', _load_state 1 Sample.hookless_layer "model" "d/tmpk3x" Sample.open_archive = Return tt w'' /\
                 zip w'' = zip Sample.open_archive).
Proof.
  apply (load_state_drops_entry_without_hook 0 Sample.hookless_layer "model" "d/tmpk3x"
           Sample.open_archive).
  - vm_compute. apply list_elem_of_further, list_elem_of_here.
  - reflexivity.
Defined.


End ArchiveFacts.

(** * More properties of the codec *)

Module CodecMore.
Import Py Codec.

Section WithEnv.
Context (env : Env).

Lemma subscript_dict (items : list (string * pyval)) (key : string) (v : pyval) :
  dict_get items key = Some v -> subscript (VDict items) key = Ok v.
Proof. intros H. unfold subscript. now rewrite H. Qed.

(** X1: a function that is not registered and is found under its name in
    its module goes through [serialize_keras_object] and
    [deserialize_keras_object] to itself; the record it goes through has
    class name "function", module "builtins" and, as config, the module and
    the name of the function. *)
Theorem function_roundtrip (id : nat) (fmodule fname : string)
    (ns : list (string * pyobj)) :
  get_canonical_name_for_symbol env (builtins_class "function") = None ->
  get_custom_objects_by_name env
    (get_registered_name env (PyFunction id fmodule fname)) = None ->
  import_module env (VStr fmodule) = Ok ns ->
  dict_get ns fname = Some (PyFunction id fmodule fname) ->
  serialize_keras_object env (PyFunction id fmodule fname) =
    Ok (VDict [("module", VStr "builtins");
               ("class_name", VStr "function");
               ("config", VDict [("module", VStr fmodule);
                                 ("function_name", VStr fname)]);
               ("registered_name",
                get_registered_name env (PyFunction id fmodule fname))]) /\
  (forall r, serialize_keras_object env (PyFunction id fmodule fname) = Ok r ->
             deserialize_keras_object env r = Ok (PyFunction id fmodule fname)).
Proof.
  intros Hc Hreg Himp Hget.
  assert (Hs : serialize_keras_object env (PyFunction id fmodule fname) =
    Ok (VDict [("module", VStr "builtins");
               ("class_name", VStr "function");
               ("config", VDict [("module", VStr fmodule);
                                 ("function_name", VStr fname)]);
               ("registered_name",
                get_registered_name env (PyFunction id fmodule fname))])).
  { unfold serialize_keras_object. cbn [class_of]. now rewrite Hc. }
  split; [exact Hs|]. intros r Hr. rewrite Hs in Hr. injection Hr as <-.
  unfold deserialize_keras_object. simpl. rewrite Hreg, Himp. simpl.
  now rewrite Hget.
Qed.

(** X2: for a record of class name "function" and module "builtins", a
    registered name that resolves is the answer, whatever the config is; the
    module named in the config is not even imported. *)
Theorem deserialize_registered_function_wins
    (items : list (string * pyval)) (config registered_name : pyval)
    (custom_function : pyobj) :
  dict_get items "class_name" = Some (VStr "function") ->
  dict_get items "config" = Some config ->
  dict_get items "module" = Some (VStr "builtins") ->
  dict_get items "registered_name" = Some registered_name ->
  get_custom_objects_by_name env registered_name = Some custom_function ->
  deserialize_keras_object env (VDict items) = Ok custom_function.
Proof.
  intros Hc Hcfg Hm Hr Hreg. unfold deserialize_keras_object.
  rewrite (subscript_dict _ _ _ Hc), (subscript_dict _ _ _ Hcfg),
    (subscript_dict _ _ _ Hm), (subscript_dict _ _ _ Hr). simpl.
  now rewrite Hreg.
Qed.

(** X3: for a function record whose registered name does not resolve, the
    module named in the config is imported: when the import raises, that
    error is raised, and when the module has no attribute of the recorded
    name the result is [None], not an error. *)
Theorem deserialize_function_by_import
    (items citems : list (string * pyval)) (registered_name module : pyval)
    (fname : string) :
  dict_get items "class_name" = Some (VStr "function") ->
  dict_get items "config" = Some (VDict citems) ->
  dict_get items "module" = Some (VStr "builtins") ->
  dict_get items "registered_name" = Some registered_name ->
  get_custom_objects_by_name env registered_name = None ->
  dict_get citems "module" = Some module ->
  dict_get citems "function_name" = Some (VStr fname) ->
  (forall e, import_module env module = Err e ->
             deserialize_keras_object env (VDict items) = Err e) /\
  (forall ns, import_module env module = Ok ns ->
              dict_get ns fname = None ->
              deserialize_keras_object env (VDict items) = Ok PyNone) /\
  (forall ns f, import_module env module = Ok ns ->
                dict_get ns fname = Some f ->
                deserialize_keras_object env (VDict items) = Ok f).
Proof.
  intros Hc Hcfg Hm Hr Hreg Hmod Hfn.
  assert (Heq : deserialize_keras_object env (VDict items) =
                rbind (import_module env module) (fun function_module =>
                  vars_get function_module (VStr fname))).
  { unfold deserialize_keras_object.
    rewrite (subscript_dict _ _ _ Hc), (subscript_dict _ _ _ Hcfg),
      (subscript_dict _ _ _ Hm), (subscript_dict _ _ _ Hr). simpl.
    rewrite Hreg, Hmod. destruct (import_module env module); [|reflexivity].
    simpl. now rewrite Hfn. }
  rewrite Heq. repeat split.
  - intros e ->. reflexivity.
  - intros ns -> Hnone. simpl. now rewrite Hnone.
  - intros ns f -> Hsome. simpl. now rewrite Hsome.
Qed.

(** X4: a record of module "builtins" whose class name is neither "str" nor
    "function" is rejected with a [TypeError], whatever its config and its
    registered name are. *)
Theorem deserialize_unknown_builtin
    (items : list (string * pyval)) (class_name config registered_name : pyval) :
  dict_get items "class_name" = Some class_name ->
  dict_get items "config" = Some config ->
  dict_get items "module" = Some (VStr "builtins") ->
  dict_get items "registered_name" = Some registered_name ->
  eq_str class_name "str" = false ->
  eq_str class_name "function" = false ->
  deserialize_keras_object env (VDict items) = Err TypeError.
Proof.
  intros Hc Hcfg Hm Hr Hs Hf. unfold deserialize_keras_object.
  rewrite (subscript_dict _ _ _ Hc), (subscript_dict _ _ _ Hcfg),
    (subscript_dict _ _ _ Hm), (subscript_dict _ _ _ Hr). simpl.
  now rewrite Hs, Hf.
Qed.

(** X5: all four keys are read before anything else: a dict that lacks one
    of "class_name", "config", "module" and "registered_name" raises
    [KeyError], also when it is a string record that would not need the key,
    and a value that is no dict raises [TypeError]. *)
Theorem deserialize_needs_four_keys :
  (forall (items : list (string * pyval)) (key : string),
     key ∈ ["class_name"; "config"; "module"; "registered_name"] ->
     dict_get items key = None ->
     deserialize_keras_object env (VDict items) = Err KeyError) /\
  (forall v : pyval,
     (forall items, v <> VDict items) ->
     deserialize_keras_object env v = Err TypeError).
Proof.
  split.
  - intros items key Hkey Hnone. unfold deserialize_keras_object, subscript.
    destruct (dict_get items "class_name") as [cn|] eqn:E1; [|reflexivity].
    destruct (dict_get items "config") as [cf|] eqn:E2; [|reflexivity].
    destruct (dict_get items "module") as [m|] eqn:E3; [|reflexivity].
    destruct (dict_get items "registered_name") as [rn|] eqn:E4; [|reflexivity].
    exfalso. repeat (apply elem_of_cons in Hkey as [-> | Hkey]; [congruence|]).
    now apply elem_of_nil in Hkey.
  - intros v Hv. destruct v; try reflexivity. now destruct (Hv items).
Qed.

(** X6: as long as the collaborators return, [serialize_keras_object]
    raises for one reason only: the object is neither a string nor a
    function and has no [get_config] attribute; the error is a [TypeError]. *)
Theorem serialize_raises_iff (obj : pyobj) (e : pyerror) :
  serialize_keras_object env obj = Err e <->
  e = TypeError /\ is_str obj = false /\ is_function obj = false /\
  get_config obj = None.
Proof.
  unfold serialize_keras_object.
  destruct (get_canonical_name_for_symbol env (class_of obj));
    destruct obj as [| | | | |i c a ch]; simpl;
    try destruct (a_config a); simpl;
    split; try discriminate; try (intros [= <-]; now auto);
    try (intros (_ & H1 & H2 & H3); discriminate);
    try (intros (-> & _); reflexivity).
Qed.

(** X7: when the registered name does not resolve, the names stored in the
    record decide: with no module the class name is looked up among the
    exported symbols, and otherwise the module is imported and the class
    name is looked up in it; the object is built by the [from_config] of
    what is found, and a [TypeError] is raised when nothing is found or what
    is found has no [from_config]. *)
Theorem deserialize_falls_back_to_names
    (items : list (string * pyval)) (class_name : string)
    (config module registered_name : pyval) :
  dict_get items "class_name" = Some (VStr class_name) ->
  dict_get items "config" = Some config ->
  dict_get items "module" = Some module ->
  dict_get items "registered_name" = Some registered_name ->
  eq_str module "builtins" = false ->
  get_custom_objects_by_name env registered_name = None ->
  (module = VNone ->
   deserialize_keras_object env (VDict items) =
     match get_symbol_from_name env (VStr class_name) with
     | Some cls =>
         match attr_from_config env cls with
         | Some from_config => from_config config
         | None => Err TypeError
         end
     | None => Err TypeError
     end) /\
  (forall m ns, module = VStr m -> import_module env module = Ok ns ->
   deserialize_keras_object env (VDict items) =
     match dict_get ns class_name with
     | Some cls =>
         match attr_from_config env cls with
         | Some from_config => from_config config
         | None => Err TypeError
         end
     | None => Err TypeError
     end).
Proof.
  intros Hc Hcfg Hm Hr Hnb Hreg.
  split.
  - intros ->. unfold deserialize_keras_object.
    rewrite (subscript_dict _ _ _ Hc), (subscript_dict _ _ _ Hcfg),
      (subscript_dict _ _ _ Hm), (subscript_dict _ _ _ Hr). simpl.
    rewrite Hreg. destruct (get_symbol_from_name env (VStr class_name)); reflexivity.
  - intros m ns -> Himp. unfold deserialize_keras_object.
    rewrite (subscript_dict _ _ _ Hc), (subscript_dict _ _ _ Hcfg),
      (subscript_dict _ _ _ Hm), (subscript_dict _ _ _ Hr).
    cbn [rbind]. rewrite Hnb, Hreg, Himp. cbn [rbind vars_get].
    destruct (dict_get ns class_name); reflexivity.
Qed.

(** X8: a registered object that has no [from_config] is called all the
    same, for there is no check on this path: the error is an
    [AttributeError], where the class found by its names gives a
    [TypeError]. *)
Theorem deserialize_registered_without_from_config
    (items : list (string * pyval))
    (class_name config module registered_name : pyval) (custom_class : pyobj) :
  dict_get items "class_name" = Some class_name ->
  dict_get items "config" = Some config ->
  dict_get items "module" = Some module ->
  dict_get items "registered_name" = Some registered_name ->
  eq_str module "builtins" = false ->
  get_custom_objects_by_name env registered_name = Some custom_class ->
  attr_from_config env custom_class = None ->
  deserialize_keras_object env (VDict items) = Err AttributeError.
Proof.
  intros Hc Hcfg Hm Hr Hnb Hreg Hattr. unfold deserialize_keras_object.
  rewrite (subscript_dict _ _ _ Hc), (subscript_dict _ _ _ Hcfg),
    (subscript_dict _ _ _ Hm), (subscript_dict _ _ _ Hr). cbn [rbind].
  rewrite Hnb, Hreg. unfold call_from_config. now rewrite Hattr.
Qed.

End WithEnv.

Lemma function_roundtrip_witness :
  serialize_keras_object Fixtures.losses_env Fixtures.my_loss =
    Ok (VDict [("module", VStr "builtins");
               ("class_name", VStr "function");
               ("config", VDict [("module", VStr "my_pkg.losses");
                                 ("function_name", VStr "my_loss")]);
               ("registered_name", VStr "my_loss")]) /\
  deserialize_keras_object Fixtures.losses_env
    (VDict [("module", VStr "builtins");
            ("class_name", VStr "function");
            ("config", VDict [("module", VStr "my_pkg.losses");
                              ("function_name", VStr "my_loss")]);
            ("registered_name", VStr "my_loss")]) = Ok Fixtures.my_loss.
Proof.
  destruct (function_roundtrip Fixtures.losses_env 40 "my_pkg.losses" "my_loss"
              [("my_loss", Fixtures.my_loss); ("huber", Fixtures.huber)]
              eq_refl eq_refl eq_refl eq_refl) as [Hs Hd].
  split; [exact Hs | exact (Hd _ Hs)].
Defined.

(** The config of the record is no dict at all; the registered function is
    returned all the same. *)
Lemma deserialize_registered_function_wins_witness :
  deserialize_keras_object Fixtures.losses_env
    (VDict [("class_name", VStr "function"); ("config", VNone);
            ("module", VStr "builtins"); ("registered_name", VStr "my_pkg>huber")]) =
  Ok Fixtures.huber.
Proof.
  exact (deserialize_registered_function_wins Fixtures.losses_env
    [("class_name", VStr "function"); ("config", VNone);
     ("module", VStr "builtins"); ("registered_name", VStr "my_pkg>huber")]
    VNone (VStr "my_pkg>huber") Fixtures.huber
    eq_refl eq_refl eq_refl eq_refl eq_refl).
Defined.

(** The module of losses has no function named [gone]. *)
Lemma deserialize_function_by_import_witness :
  deserialize_keras_object Fixtures.losses_env
    (VDict [("class_name", VStr "function");
            ("config", VDict [("module", VStr "my_pkg.losses");
                              ("function_name", VStr "gone")]);
            ("module", VStr "builtins"); ("registered_name", VStr "gone")]) =
  Ok PyNone.
Proof.
  apply (proj1 (proj2 (deserialize_function_by_import Fixtures.losses_env
    [("class_name", VStr "function");
     ("config", VDict [("module", VStr "my_pkg.losses");
                       ("function_name", VStr "gone")]);
     ("module", VStr "builtins"); ("registered_name", VStr "gone")]
    [("module", VStr "my_pkg.losses"); ("function_name", VStr "gone")]
    (VStr "gone") (VStr "my_pkg.losses") "gone"
    eq_refl eq_refl eq_refl eq_refl eq_refl eq_refl eq_refl))
    [("my_loss", Fixtures.my_loss); ("huber", Fixtures.huber)]); reflexivity.
Defined.

Lemma deserialize_unknown_builtin_witness :
  deserialize_keras_object Sample.env
    (VDict [("class_name", VStr "int"); ("config", VInt 3);
            ("module", VStr "builtins"); ("registered_name", VStr "int")]) =
  Err TypeError.
Proof.
  exact (deserialize_unknown_builtin Sample.env
    [("class_name", VStr "int"); ("config", VInt 3);
     ("module", VStr "builtins"); ("registered_name", VStr "int")]
    (VStr "int") (VInt 3) (VStr "int")
    eq_refl eq_refl eq_refl eq_refl eq_refl eq_refl).
Defined.

(** A string record without its registered name, which the string branch
    never uses. *)
Lemma deserialize_needs_four_keys_witness :
  deserialize_keras_object Sample.env
    (VDict [("class_name", VStr "str"); ("config", VStr "hello");
            ("module", VStr "builtins")]) = Err KeyError.
Proof.
  apply (proj1 (deserialize_needs_four_keys Sample.env)
    [("class_name", VStr "str"); ("config", VStr "hello"); ("module", VStr "builtins")]
    "registered_name"); [|reflexivity].
  do 3 apply list_elem_of_further. apply list_elem_of_here.
Defined.

Lemma serialize_raises_iff_witness :
  serialize_keras_object Sample.env Sample.rate_x = Err TypeError.
Proof.
  apply (proj2 (serialize_raises_iff Sample.env Sample.rate_x TypeError)).
  repeat split; reflexivity.
Defined.

(** The class is found in its module, by the names of the record. *)
Lemma deserialize_falls_back_to_names_witness :
  deserialize_keras_object Fixtures.losses_env
    (VDict [("class_name", VStr "MyDense"); ("config", Sample.dense_config);
            ("module", VStr "my_pkg.layers"); ("registered_name", VStr "MyDense")]) =
  Ok (PyObject 20 Sample.Custom (Sample.layer_attrs Sample.dense_config) []).
Proof.
  exact (proj2 (deserialize_falls_back_to_names Fixtures.losses_env
    [("class_name", VStr "MyDense"); ("config", Sample.dense_config);
     ("module", VStr "my_pkg.layers"); ("registered_name", VStr "MyDense")]
    "MyDense" Sample.dense_config (VStr "my_pkg.layers") (VStr "MyDense")
    eq_refl eq_refl eq_refl eq_refl eq_refl eq_refl)
    "my_pkg.layers" [("MyDense", PyClass Sample.Custom)] eq_refl eq_refl).
Defined.

(** The registered name of the record is that of a function, which has no
    [from_config]. *)
Lemma deserialize_registered_without_from_config_witness :
  deserialize_keras_object Fixtures.losses_env
    (VDict [("class_name", VStr "MyDense"); ("config", Sample.dense_config);
            ("module", VStr "my_pkg.layers"); ("registered_name", VStr "my_pkg>huber")]) =
  Err AttributeError.
Proof.
  exact (deserialize_registered_without_from_config Fixtures.losses_env
    [("class_name", VStr "MyDense"); ("config", Sample.dense_config);
     ("module", VStr "my_pkg.layers"); ("registered_name", VStr "my_pkg>huber")]
    (VStr "MyDense") Sample.dense_config (VStr "my_pkg.layers") (VStr "my_pkg>huber")
    Fixtures.huber eq_refl eq_refl eq_refl eq_refl eq_refl eq_refl eq_refl).
Defined.

End CodecMore.

(** * More properties of the walk *)

Module WalkerMore.
Import Py Walker WalkerFacts.
Local Open Scope list_scope.

Lemma collect_step_Err (key : string) (obj : pyobj) (st : collected) :
  collectable obj = false ->
  _collect_key_object_in_dict key obj st = Err TypeError.
Proof.
  destruct st as [d added]. unfold collectable, _collect_key_object_in_dict, py_in.
  destruct (is_variable obj); [discriminate|]. simpl.
  destruct (eqmode_of obj); try discriminate. reflexivity.
Qed.

Lemma collect_step_Ok (key : string) (obj : pyobj) (d : list (string * pyobj))
    (added : list pyobj) (st' : collected) :
  _collect_key_object_in_dict key obj (d, added) = Ok st' ->
  st' = (d, added) \/
  (is_variable obj = false /\ collectable obj = true /\
   existsb (matches obj) added = false /\
   st' = (dict_set key obj d, obj :: added)).
Proof.
  destruct (collectable obj) eqn:Hc.
  - rewrite (collect_step key obj d added Hc).
    destruct (is_variable obj) eqn:Hv; simpl.
    + intros [= <-]. now left.
    + destruct (existsb (matches obj) added) eqn:He; intros [= <-]; auto.
  - rewrite (collect_step_Err key obj (d, added) Hc). discriminate.
Qed.

Lemma dict_set_keys {A : Type} (key : string) (v : A) (d : list (string * A)) :
  (dict_set key v d).*1 = d.*1 \/
  ((key ∉ d.*1) /\ (dict_set key v d).*1 = d.*1 ++ [key]).
Proof.
  induction d as [|[k x] d IH]; cbn [dict_set].
  - right. split; [apply not_elem_of_nil | reflexivity].
  - destruct (String.eqb_spec k key) as [->|Hne]; [now left|].
    rewrite !fmap_cons. cbn [fst].
    destruct IH as [IH | [Hni IH]]; rewrite IH.
    + now left.
    + right. split; [|reflexivity].
      rewrite not_elem_of_cons. split; auto.
Qed.

Lemma dict_set_NoDup {A : Type} (key : string) (v : A) (d : list (string * A)) :
  NoDup d.*1 -> NoDup (dict_set key v d).*1.
Proof.
  intros Hnd. destruct (dict_set_keys key v d) as [-> | [Hni ->]]; [exact Hnd|].
  apply NoDup_app. split; [exact Hnd|]. split.
  - intros x Hx Hx'. apply list_elem_of_singleton in Hx'. now subst.
  - apply NoDup_singleton.
Qed.

Lemma dict_set_lookup {A : Type} (key : string) (v : A) (d : list (string * A)) :
  exists p,
    dict_set key v d !! p = Some (key, v) /\
    forall i, i <> p -> dict_set key v d !! i = d !! i.
Proof.
  induction d as [|[k x] d IH]; simpl.
  - exists 0. split; [reflexivity|]. intros [|i] Hi; [contradiction | reflexivity].
  - destruct (String.eqb_spec k key) as [->|Hne].
    + exists 0. split; [reflexivity|]. intros [|i] Hi; [contradiction | reflexivity].
    + destruct IH as (p & Hp & Hother). exists (S p). split; [exact Hp|].
      intros [|i] Hi; [reflexivity|]. apply Hother. lia.
Qed.

(** What holds of the dict and the set all along the loops. *)
Lemma collect_flat_invariants (l0 l : list (string * pyobj)) :
  forall (d d' : list (string * pyobj)) (added added' : list pyobj),
  collect_flat l (d, added) = Ok (d', added') ->
  (forall e, e ∈ l -> e ∈ l0) ->
  NoDup d.*1 ->
  (forall e, e ∈ d -> e.2 ∈ added /\ e ∈ l0 /\ is_variable e.2 = false /\
                      collectable e.2 = true) ->
  (forall i j e1 e2, i <> j -> d !! i = Some e1 -> d !! j = Some e2 ->
                     matches e1.2 e2.2 = false) ->
  NoDup d'.*1 /\
  (forall e, e ∈ d' -> e.2 ∈ added' /\ e ∈ l0 /\ is_variable e.2 = false /\
                       collectable e.2 = true) /\
  (forall i j e1 e2, i <> j -> d' !! i = Some e1 -> d' !! j = Some e2 ->
                     matches e1.2 e2.2 = false).
Proof.
  induction l as [|[k o] l IH]; intros d d' added added' Hrun Hsub Hnd Hin Hpair.
  - injection Hrun as <- <-. auto.
  - cbn [collect_flat] in Hrun.
    destruct (_collect_key_object_in_dict k o (d, added)) as [st|] eqn:Hstep;
      [|discriminate].
    cbn [rbind] in Hrun.
    assert (Hsub' : forall e, e ∈ l -> e ∈ l0) by (intros e He; apply Hsub; now right).
    apply collect_step_Ok in Hstep as [-> | (Hv & Hc & Hex & ->)].
    + apply (IH d d' added added' Hrun Hsub' Hnd Hin Hpair).
    + apply (IH _ d' _ added' Hrun Hsub').
      * now apply dict_set_NoDup.
      * intros e He. apply dict_set_elem in He as [He | ->].
        -- destruct (Hin e He) as (Ha & Hl & Hvar & Hcol).
           repeat split; auto. now right.
        -- repeat split; auto; [now left | apply Hsub; now left].
      * destruct (dict_set_lookup k o d) as (p & Hp & Hother).
        intros i j e1 e2 Hne H1 H2.
        destruct (decide (i = p)) as [-> | Hi]; destruct (decide (j = p)) as [-> | Hj].
        -- contradiction.
        -- rewrite Hp in H1. injection H1 as <-. rewrite Hother in H2 by exact Hj.
           apply list_elem_of_lookup_2 in H2. destruct (Hin e2 H2) as (Ha & _).
           simpl. eapply existsb_false_inv; eauto.
        -- rewrite Hp in H2. injection H2 as <-. rewrite Hother in H1 by exact Hi.
           apply list_elem_of_lookup_2 in H1. destruct (Hin e1 H1) as (Ha & _).
           rewrite matches_sym. simpl. eapply existsb_false_inv; eauto.
        -- rewrite Hother in H1 by exact Hi. rewrite Hother in H2 by exact Hj.
           exact (Hpair i j e1 e2 Hne H1 H2).
Qed.

(** X9: whatever the names of the children are, in the dict that the
    enumeration returns the keys are distinct, every entry is a name and an
    object that the loops have met, no value is a variable, and no two
    values match: no object is kept under two names. *)
Theorem unique_children_dict_invariants (trackable : pyobj)
    (d : list (string * pyobj)) :
  _get_unique_children_dict trackable = Ok d ->
  NoDup d.*1 /\
  (exists items,
     children trackable = Ok items /\
     forall e, e ∈ d -> e ∈ flat_children items /\ is_variable e.2 = false) /\
  (forall i j e1 e2, i <> j -> d !! i = Some e1 -> d !! j = Some e2 ->
                     matches e1.2 e2.2 = false).
Proof.
  unfold _get_unique_children_dict.
  destruct (children trackable) as [items|] eqn:Hch; [|discriminate].
  cbn [rbind]. rewrite collect_children_flat.
  destruct (collect_flat (flat_children items) ([], [])) as [[d' added']|] eqn:Hrun;
    [|discriminate].
  cbn [rbind fst]. intros [= <-].
  destruct (collect_flat_invariants (flat_children items) _ _ _ _ _ Hrun)
    as (Hnd & Hin & Hpair); auto.
  - constructor.
  - intros e He. now apply elem_of_nil in He.
  - intros i j e1 e2 _ H. discriminate.
  - split; [exact Hnd|]. split; [|exact Hpair].
    exists items. split; [reflexivity|]. intros e He.
    destruct (Hin e He) as (_ & Hl & Hv & _). auto.
Qed.

Lemma collect_flat_raises (l : list (string * pyobj)) :
  forall (st : collected) (key : string) (obj : pyobj),
  (key, obj) ∈ l -> collectable obj = false ->
  collect_flat l st = Err TypeError.
Proof.
  induction l as [|[k o] l IH]; intros st key obj Hin Hc.
  - now apply elem_of_nil in Hin.
  - cbn [collect_flat]. destruct (collectable o) eqn:Hco.
    + destruct st as [d added]. rewrite (collect_step k o d added Hco). cbn [rbind].
      apply elem_of_cons in Hin as [Heq | Hin]; [injection Heq as -> ->; congruence|].
      eapply IH; eauto.
    + now rewrite (collect_step_Err k o st Hco).
Qed.

Lemma forallb_collectable_false (l : list (string * pyobj)) :
  forallb (fun kc : string * pyobj => collectable kc.2) l = false ->
  exists key obj, (key, obj) ∈ l /\ collectable obj = false.
Proof.
  induction l as [|[k o] l IH]; simpl; [discriminate|].
  destruct (collectable o) eqn:Hc; simpl.
  - intros H. destruct (IH H) as (key & obj & Hin & Hf).
    exists key, obj. split; [now right | exact Hf].
  - intros _. exists k, o. split; [now left | exact Hc].
Qed.

Lemma collectable_false (obj : pyobj) :
  collectable obj = false <-> is_variable obj = false /\ eqmode_of obj = Unhashable.
Proof.
  unfold collectable. destruct (is_variable obj), (eqmode_of obj); simpl;
    split; try discriminate; try tauto; intros [? ?]; discriminate.
Qed.

(** X10: the enumeration of the children of a trackable raises exactly when
    one of the objects that the loops meet is no variable and cannot be
    hashed, as a list within a list child cannot; the error is a
    [TypeError], and there is no other. *)
Theorem unique_children_dict_raises_iff (trackable : pyobj)
    (items : list (string * pyobj)) :
  children trackable = Ok items ->
  (_get_unique_children_dict trackable = Err TypeError <->
   exists key obj,
     (key, obj) ∈ flat_children items /\
     is_variable obj = false /\ eqmode_of obj = Unhashable) /\
  (forall e, _get_unique_children_dict trackable = Err e -> e = TypeError).
Proof.
  intros Hch.
  assert (Hrun : _get_unique_children_dict trackable =
                 rbind (collect_flat (flat_children items) ([], []))
                       (fun st => Ok (fst st))).
  { unfold _get_unique_children_dict. rewrite Hch. cbn [rbind].
    now rewrite collect_children_flat. }
  assert (Hcases :
    (forallb (fun kc : string * pyobj => collectable kc.2) (flat_children items) = true /\
     exists d, _get_unique_children_dict trackable = Ok d) \/
    ((exists key obj, (key, obj) ∈ flat_children items /\ collectable obj = false) /\
     _get_unique_children_dict trackable = Err TypeError)).
  { destruct (forallb (fun kc : string * pyobj => collectable kc.2)
                      (flat_children items)) eqn:Hall.
    - left. split; [reflexivity|].
      destruct (unique_children_dict_subset _ _ Hch Hall) as (d & Hd & _). eauto.
    - right. destruct (forallb_collectable_false _ Hall) as (key & obj & Hin & Hc).
      split; [eauto|]. rewrite Hrun.
      now rewrite (collect_flat_raises _ ([], []) key obj Hin Hc). }
  split; [split|].
  - intros Herr. destruct Hcases as [(_ & d & Hd) | ((key & obj & Hin & Hc) & _)].
    + congruence.
    + exists key, obj. split; [exact Hin|]. now apply collectable_false.
  - intros (key & obj & Hin & Hv & Hu). rewrite Hrun.
    rewrite (collect_flat_raises _ ([], []) key obj Hin); [reflexivity|].
    apply collectable_false. auto.
  - intros e Herr. destruct Hcases as [(_ & d & Hd) | (_ & Hte)]; congruence.
Qed.

(** X11: a name that a child has and an element of a list child is given
    too stands for one key: the later object takes the place of the earlier
    one in the dict, and the earlier one, being in the set already, comes
    back under no name. Here a child named [c-0] is met before the list
    child [c], and only the element of the list is left. *)
Theorem colliding_key_overwrites (id : nat) (cls : pyclass) (a : attrs) (c : string)
    (lid : nat) (x y : pyobj) (later : string) :
  is_variable x = false -> is_variable y = false ->
  eqmode_of x <> Unhashable -> eqmode_of y <> Unhashable ->
  matches y x = false ->
  _get_unique_children_dict
    (PyObject id cls a [(c +:+ "-0", x); (c, PyList lid [y]); (later, x)]) =
  Ok [(c +:+ "-0", y)].
Proof.
  intros Hvx Hvy Hux Huy Hm.
  assert (Hcx : collectable x = true).
  { unfold collectable. rewrite Hvx. destruct (eqmode_of x); auto. }
  assert (Hcy : collectable y = true).
  { unfold collectable. rewrite Hvy. destruct (eqmode_of y); auto. }
  assert (Hnl : forall i l, x <> PyList i l).
  { intros i l ->. now apply Hux. }
  unfold _get_unique_children_dict. cbn [children rbind].
  rewrite collect_children_flat.
  assert (Hflat : flat_children [(c +:+ "-0", x); (c, PyList lid [y]); (later, x)] =
                  [(c +:+ "-0", x); (c +:+ "-0", y); (later, x)]).
  { destruct x; try reflexivity. now destruct (Hnl id0 items). }
  rewrite Hflat. cbn [collect_flat].
  rewrite (collect_step _ x [] [] Hcx). rewrite Hvx. cbn [existsb orb rbind dict_set].
  rewrite (collect_step _ y _ _ Hcy). rewrite Hvy. cbn [existsb orb]. rewrite Hm.
  cbn [orb rbind dict_set]. rewrite String.eqb_refl.
  rewrite (collect_step _ x _ _ Hcx). rewrite Hvx. cbn [existsb orb].
  rewrite matches_refl, orb_true_r. reflexivity.
Qed.

Lemma expand_items_lookup (child_attr : string) (items : list pyobj) :
  forall (k i : nat) (x : pyobj),
  items !! i = Some x ->
  expand_items child_attr k items !! i = Some (child_attr +:+ "-" +:+ pretty (k + i), x).
Proof.
  induction items as [|y items IH]; intros k i x; [discriminate|].
  destruct i as [|i]; simpl.
  - intros [= <-]. now rewrite Nat.add_0_r.
  - intros H. rewrite (IH (S k) i x H). now rewrite Nat.add_succ_r.
Qed.

Lemma expand_items_names (child_attr : string) (items : list pyobj) (k : nat)
    (name : string) :
  name ∈ (expand_items child_attr k items).*1 ->
  exists i, k <= i /\ name = child_attr +:+ "-" +:+ pretty i.
Proof.
  revert k. induction items as [|y items IH]; intros k; simpl.
  - intros H. now apply elem_of_nil in H.
  - rewrite elem_of_cons. intros [-> | H]; [exists k; auto|].
    destruct (IH _ H) as (i & Hi & ->). exists i. split; [lia | reflexivity].
Qed.

Lemma expand_items_NoDup (child_attr : string) (items : list pyobj) (k : nat) :
  NoDup (expand_items child_attr k items).*1.
Proof.
  revert k. induction items as [|y items IH]; intros k; simpl; constructor; auto.
  intros H. apply expand_items_names in H as (i & Hi & Heq).
  apply String.app_inj, String.app_inj in Heq. apply pretty_nat_inj in Heq. lia.
Qed.

Lemma kept_everything (l : list (string * pyobj)) :
  forall added : list pyobj,
  (forall e, e ∈ l -> is_variable e.2 = false) ->
  (forall e y, e ∈ l -> y ∈ added -> matches e.2 y = false) ->
  (forall i j e1 e2, i < j -> l !! i = Some e1 -> l !! j = Some e2 ->
                     matches e2.2 e1.2 = false) ->
  kept l added = l.
Proof.
  induction l as [|[k o] l IH]; intros added Hv Ha Hp; [reflexivity|].
  assert (Hvo : is_variable o = false) by (apply (Hv (k, o)); now left).
  assert (Hao : existsb (matches o) added = false).
  { apply existsb_false_elem. intros y Hy. apply (Ha (k, o)); [now left | exact Hy]. }
  cbn [kept]. rewrite Hvo, Hao. cbn [orb]. f_equal. apply IH.
  - intros e He. apply Hv. now right.
  - intros e y He Hy. apply elem_of_cons in Hy as [-> | Hy].
    + apply list_elem_of_lookup_1 in He as [j Hj].
      apply (Hp 0 (S j) (k, o) e); [lia | reflexivity | exact Hj].
    + apply Ha; [now right | exact Hy].
  - intros i j e1 e2 Hlt H1 H2. apply (Hp (S i) (S j)); [lia | exact H1 | exact H2].
Qed.

Lemma flat_children_app (l1 l2 : list (string * pyobj)) :
  flat_children (l1 ++ l2) = flat_children l1 ++ flat_children l2.
Proof.
  induction l1 as [|[k o] l1 IH]; [reflexivity|].
  destruct o; cbn [app flat_children]; rewrite IH; try reflexivity.
  now rewrite app_assoc.
Qed.

Lemma expand_items_values (child_attr : string) (items : list pyobj) (k : nat) :
  (expand_items child_attr k items).*2 = items.
Proof.
  revert k. induction items as [|y items IH]; intros k; [reflexivity|].
  cbn [expand_items]. rewrite fmap_cons. cbn [snd]. now rewrite IH.
Qed.

(** X12: a list child [c] of a trackable, among its other children: when
    the expanded names are distinct and the walk raises nowhere, the
    elements of the list that are no variables, do not match one another and
    match none of the children met before the list are all kept, in one run
    and in the order of the list, the element at index [k] under the name
    [c-k]. *)
Theorem list_child_expanded (trackable : pyobj) (pre post : list (string * pyobj))
    (c : string) (lid : nat) (elems : list pyobj) :
  children trackable = Ok (pre ++ (c, PyList lid elems) :: post) ->
  NoDup (flat_children (pre ++ (c, PyList lid elems) :: post)).*1 ->
  forallb (fun kc : string * pyobj => collectable kc.2)
    (flat_children (pre ++ (c, PyList lid elems) :: post)) = true ->
  (forall x, x ∈ elems -> is_variable x = false) ->
  (forall i j x y, i < j -> elems !! i = Some x -> elems !! j = Some y ->
                   matches y x = false) ->
  (forall x y, x ∈ elems -> y ∈ (flat_children pre).*2 -> matches x y = false) ->
  exists d1 d2,
    _get_unique_children_dict trackable = Ok (d1 ++ expand_items c 0 elems ++ d2) /\
    (forall k x, elems !! k = Some x ->
       (d1 ++ expand_items c 0 elems ++ d2) !! (length d1 + k) =
         Some (c +:+ "-" +:+ pretty k, x) /\
       dict_get (d1 ++ expand_items c 0 elems ++ d2) (c +:+ "-" +:+ pretty k) = Some x).
Proof.
  intros Hch Hnd Hcol Hvar Hpair Hpre.
  assert (Hin : forall e, e ∈ expand_items c 0 elems -> e.2 ∈ elems).
  { intros e He. rewrite <- (expand_items_values c elems 0).
    apply list_elem_of_fmap. now exists e. }
  assert (Hkept : kept (flat_children (pre ++ (c, PyList lid elems) :: post)) [] =
                  kept (flat_children pre) [] ++ expand_items c 0 elems ++
                  kept (flat_children post)
                    (added_after (expand_items c 0 elems)
                       (added_after (flat_children pre) []))).
  { rewrite flat_children_app. cbn [flat_children].
    rewrite kept_app, kept_app. do 2 f_equal. apply kept_everything.
    - intros e He. now apply Hvar, Hin.
    - intros e y He Hy. apply added_after_elem in Hy as [Hy | Hy].
      + now apply elem_of_nil in Hy.
      + apply Hpre; [now apply Hin | exact Hy].
    - intros i j e1 e2 Hlt H1 H2.
      apply (Hpair i j e1.2 e2.2 Hlt).
      + rewrite <- (expand_items_values c elems 0), list_lookup_fmap, H1. reflexivity.
      + rewrite <- (expand_items_values c elems 0), list_lookup_fmap, H2. reflexivity. }
  eexists _, _. split.
  - rewrite (unique_children_dict_kept trackable _ Hch Hnd Hcol). now rewrite Hkept.
  - intros k x Hk.
    assert (Hlook : (kept (flat_children pre) [] ++ expand_items c 0 elems ++
                     kept (flat_children post)
                       (added_after (expand_items c 0 elems)
                          (added_after (flat_children pre) [])))
                    !! (length (kept (flat_children pre) []) + k) =
                    Some (c +:+ "-" +:+ pretty k, x)).
    { rewrite lookup_app_r by lia.
      replace (length (kept (flat_children pre) []) + k -
               length (kept (flat_children pre) [])) with k by lia.
      rewrite lookup_app_l
        by (apply lookup_lt_is_Some; rewrite (expand_items_lookup c elems 0 k x Hk); eauto).
      now rewrite (expand_items_lookup c elems 0 k x Hk). }
    split; [exact Hlook|].
    apply dict_get_Some.
    + rewrite <- Hkept. now apply kept_NoDup.
    + eapply list_elem_of_lookup_2. exact Hlook.
Qed.

Lemma unique_children_dict_invariants_witness :
  NoDup [("a", Sample.dense 1); ("c", Sample.dense 2)].*1 /\
  (exists items,
     children (Sample.model 0) = Ok items /\
     forall e, e ∈ [("a", Sample.dense 1); ("c", Sample.dense 2)] ->
               e ∈ flat_children items /\ is_variable e.2 = false) /\
  (forall i j e1 e2, i <> j ->
     [("a", Sample.dense 1); ("c", Sample.dense 2)] !! i = Some e1 ->
     [("a", Sample.dense 1); ("c", Sample.dense 2)] !! j = Some e2 ->
     matches e1.2 e2.2 = false).
Proof.
  apply (unique_children_dict_invariants (Sample.model 0)). reflexivity.
Defined.

Lemma unique_children_dict_raises_iff_witness :
  _get_unique_children_dict Fixtures.nested_lists = Err TypeError.
Proof.
  apply (proj2 (proj1 (unique_children_dict_raises_iff Fixtures.nested_lists
                         [("layers", PyList 5 [PyList 6 []])] eq_refl))).
  exists "layers-0", (PyList 6 []). split; [|split; reflexivity].
  vm_compute. apply list_elem_of_here.
Defined.

Lemma colliding_key_overwrites_witness :
  _get_unique_children_dict
    (PyObject 0 Sample.MyModel (Sample.layer_attrs Sample.model_config)
       [("layers" +:+ "-0", Sample.dense 1);
        ("layers", PyList 5 [Sample.dense 2]);
        ("first", Sample.dense 1)]) =
  Ok [("layers" +:+ "-0", Sample.dense 2)].
Proof.
  apply (colliding_key_overwrites 0 Sample.MyModel (Sample.layer_attrs Sample.model_config)
           "layers" 5 (Sample.dense 1) (Sample.dense 2) "first");
    try reflexivity; discriminate.
Defined.

(** The list child comes after a child [a] and before an alias [last] of
    its first element. *)
Lemma list_child_expanded_witness :
  exists d1 d2,
    _get_unique_children_dict
      (PyObject 0 Sample.MyModel (Sample.layer_attrs Sample.model_config)
         ([("a", Sample.dense 3)] ++
          ("layers", PyList 5 [Sample.dense 1; Sample.dense 2]) ::
          [("last", Sample.dense 1)])) =
      Ok (d1 ++ expand_items "layers" 0 [Sample.dense 1; Sample.dense 2] ++ d2) /\
    (forall k x, [Sample.dense 1; Sample.dense 2] !! k = Some x ->
       (d1 ++ expand_items "layers" 0 [Sample.dense 1; Sample.dense 2] ++ d2)
         !! (length d1 + k) = Some ("layers" +:+ "-" +:+ pretty k, x) /\
       dict_get (d1 ++ expand_items "layers" 0 [Sample.dense 1; Sample.dense 2] ++ d2)
         ("layers" +:+ "-" +:+ pretty k) = Some x).
Proof.
  apply (list_child_expanded
           (PyObject 0 Sample.MyModel (Sample.layer_attrs Sample.model_config)
              ([("a", Sample.dense 3)] ++
               ("layers", PyList 5 [Sample.dense 1; Sample.dense 2]) ::
               [("last", Sample.dense 1)]))
           [("a", Sample.dense 3)] [("last", Sample.dense 1)]
           "layers" 5 [Sample.dense 1; Sample.dense 2]).
  - reflexivity.
  - vm_compute. repeat constructor; rewrite ?elem_of_cons, ?elem_of_nil;
      intros H; repeat (destruct H as [H | H]; try discriminate H); exact H.
  - reflexivity.
  - intros x Hx. apply elem_of_cons in Hx as [-> | Hx]; [reflexivity|].
    apply list_elem_of_singleton in Hx as ->. reflexivity.
  - intros [|[|i]] [|[|j]] x y Hlt H1 H2; try lia; try discriminate.
    injection H1 as <-. injection H2 as <-. reflexivity.
  - intros x y Hx Hy. apply list_elem_of_singleton in Hy as ->.
    apply elem_of_cons in Hx as [-> | Hx]; [reflexivity|].
    apply list_elem_of_singleton in Hx as ->. reflexivity.
Defined.

End WalkerMore.

(** * More properties of the archive writer and reader *)

Module ArchiveMore.
Import Py Codec Walker World Archive MonadFacts PathFacts ArchiveFacts.
Local Open Scope py_scope.
Local Open Scope list_scope.

Lemma added_same (w w' : world) :
  states w' = states w -> tmp_names w' = tmp_names w -> zip w' = zip w ->
  Fixtures.state_entries_added w w'.
Proof.
  intros Hs Ht Hz. split; [exact Hs|]. split; [exact Ht|]. exists [].
  rewrite app_nil_r. split; [exact Hz|]. intros name H. now apply elem_of_nil in H.
Qed.

Lemma state_entries_added_refl (w : world) : Fixtures.state_entries_added w w.
Proof. now apply added_same. Qed.

Lemma state_entries_added_trans (w1 w2 w3 : world) :
  Fixtures.state_entries_added w1 w2 -> Fixtures.state_entries_added w2 w3 ->
  Fixtures.state_entries_added w1 w3.
Proof.
  intros (Hs1 & Ht1 & new1 & Hz1 & Hn1) (Hs2 & Ht2 & new2 & Hz2 & Hn2).
  split; [congruence|]. split; [congruence|]. exists (new1 ++ new2). split.
  - now rewrite Hz2, Hz1, app_assoc.
  - intros name. unfold namelist. rewrite fmap_app, elem_of_app.
    intros [H | H]; auto.
Qed.

Lemma save_state_adds (fuel : nat) :
  forall (trackable : pyobj) (zip_dir_path temp_path : string),
  preserves Fixtures.state_entries_added any
    (_save_state fuel trackable zip_dir_path temp_path).
Proof.
  induction fuel as [|fuel IH]; intros trackable zip_dir_path temp_path.
  - apply preserves_raise. apply state_entries_added_refl.
  - cbn [_save_state].
    pose proof state_entries_added_refl as Hr.
    pose proof state_entries_added_trans as Ht.
    apply (preserves_bind _ Ht any any).
    + destruct (has_save_state trackable).
      * apply (preserves_bind _ Ht any any).
        { intros w. unfold call_save_state. destruct (obj_id trackable) as [i|].
          - destruct (states w !! i); (split; [|exact I]); now apply added_same.
          - apply Hr. }
        intros [state_path|] _; [|now apply preserves_ret].
        apply (preserves_bind _ Ht any any).
        { intros w. unfold zip_write. destruct (fs w !! state_path) as [[| |]|];
            try apply Hr. split; [|exact I].
          split; [reflexivity|]. split; [reflexivity|]. eexists. split; [reflexivity|].
          intros name Hn. apply list_elem_of_singleton in Hn. eauto. }
        intros _ _ w. unfold gfile_remove. destruct (fs w !! state_path) as [[| |]|];
          try apply Hr; (split; [|exact I]); now apply added_same.
      * now apply preserves_ret.
    + intros _ _. apply visit_children_preserves; auto.
Qed.

Section WithEnv.
Context (env : Env).

(** X13: whether the state pass of [save] returns or raises, and whatever
    the shape of the object graph, all that it does to the open archive is
    to add entries, each under the name of a state file; with hooks that
    only write the file they are asked for, it changes no runtime state and
    draws no name for a scratch directory. *)
Theorem save_state_adds_state_entries (fuel : nat) (trackable : pyobj)
    (zip_dir_path temp_path : string) (w : world) :
  Fixtures.state_entries_added w
    (final_world (_save_state fuel trackable zip_dir_path temp_path w)).
Proof. apply (preserves_final _ any), save_state_adds. Qed.

Lemma dict_get_app_absent {A : Type} (l1 l2 : list (string * A)) (key : string) :
  key ∉ l1.*1 -> dict_get (l1 ++ l2) key = dict_get l2 key.
Proof.
  induction l1 as [|[k v] l1 IH]; [reflexivity|].
  rewrite fmap_cons, not_elem_of_cons. cbn [fst]. intros [Hne Hni].
  cbn [app dict_get]. destruct (String.eqb_spec k key); [congruence | auto].
Qed.

(** The config entry is the one read back, whatever state entries follow. *)
Lemma config_entry_read_back (s : string) (new : list (string * string)) :
  (forall name, name ∈ namelist new ->
     exists zip_dir_path, name = gfile_join zip_dir_path _STATES_FILENAME) ->
  zip_getinfo ((_CONFIG_FILENAME, s) :: new) _CONFIG_FILENAME = Some s.
Proof.
  intros Hnew. unfold zip_getinfo. rewrite reverse_cons.
  rewrite dict_get_app_absent; [reflexivity|].
  intros Hin. unfold namelist in Hnew.
  rewrite fmap_reverse, elem_of_reverse in Hin.
  destruct (Hnew _ Hin) as (p & Hp). symmetry in Hp.
  now apply states_path_neq_config in Hp.
Qed.

(** The body of the [with] block of [save], from a world in which the
    archive has just been opened. *)
Lemma save_body_final (fuel : nat) (model : pyobj) (s temp_path : string) (w0 : world) :
  exists new,
    zip (final_world
           ((zip_writestr _CONFIG_FILENAME s ;;
             _save_state fuel model _STATES_ROOT_DIRNAME temp_path ;;
             _print_archive "saved in") w0)) = zip w0 ++ (_CONFIG_FILENAME, s) :: new /\
    (forall name, name ∈ namelist new ->
       exists zip_dir_path, name = gfile_join zip_dir_path _STATES_FILENAME) /\
    states (final_world
           ((zip_writestr _CONFIG_FILENAME s ;;
             _save_state fuel model _STATES_ROOT_DIRNAME temp_path ;;
             _print_archive "saved in") w0)) = states w0 /\
    (forall u w'',
       (zip_writestr _CONFIG_FILENAME s ;;
        _save_state fuel model _STATES_ROOT_DIRNAME temp_path ;;
        _print_archive "saved in") w0 = Return u w'' ->
       exists cs, calls w'' = cs ++ [PrintArchive "saved in" (namelist (zip w''))]).
Proof.
  unfold bind at 1 3 5. unfold zip_writestr.
  set (wc := set_zip (zip w0 ++ [(_CONFIG_FILENAME, s)]) w0).
  pose proof (preserves_final _ _ _ wc
                (save_state_adds fuel model _STATES_ROOT_DIRNAME temp_path))
    as (Hs & _ & new & Hz & Hn).
  exists new. unfold bind.
  destruct (_save_state fuel model _STATES_ROOT_DIRNAME temp_path wc) as [[] w2 | e w2];
    cbn [final_world] in *; unfold _print_archive; wsimpl.
  - rewrite Hz, Hs. unfold wc. wsimpl. rewrite <- app_assoc. repeat split; auto.
    intros u w'' Heq. injection Heq as _ <-. wsimpl. rewrite Hz. unfold wc. wsimpl.
    rewrite <- app_assoc. eauto.
  - rewrite Hz, Hs. unfold wc. wsimpl. rewrite <- app_assoc. repeat split; auto.
    intros u w'' Heq. discriminate Heq.
Qed.

(** X14: the archive that a [save] that returned has left holds the config
    entry first and after it state entries only, so that the config read
    back under its name is the JSON text of the record of the model; the
    listing printed last names just these entries, no archive is left open
    and no runtime state has changed. *)
Theorem save_archive_layout (fuel : nat) (model : pyobj) (dirpath : string)
    (w w1 : world) :
  save env fuel model dirpath w = Return tt w1 ->
  exists r s new,
    serialize_keras_object env model = Ok r /\
    json_dumps env r = Ok s /\
    fs w1 !! gfile_join dirpath _ARCHIVE_FILENAME =
      Some (Zip ((_CONFIG_FILENAME, s) :: new)) /\
    (forall name, name ∈ namelist new ->
       exists zip_dir_path, name = gfile_join zip_dir_path _STATES_FILENAME) /\
    zip_getinfo ((_CONFIG_FILENAME, s) :: new) _CONFIG_FILENAME = Some s /\
    states w1 = states w /\ zip w1 = [] /\
    exists cs,
      calls w1 = cs ++ [PrintArchive "saved in" (_CONFIG_FILENAME :: namelist new)].
Proof.
  unfold save. intros H.
  apply bind_Return_inv in H as (dir_exists & w0 & Hex & H).
  unfold gfile_exists in Hex. injection Hex as <- <-.
  apply bind_Return_inv in H as ([] & wa & Hmkdir & H).
  apply bind_Return_inv in H as (r & wa' & Hser & H).
  destruct (serialize_keras_object env model) as [r'|] eqn:Er; [|discriminate].
  injection Hser as <- <-.
  apply bind_Return_inv in H as (s & wa' & Hjs & H).
  destruct (json_dumps env r') as [s'|] eqn:Es; [|discriminate].
  injection Hjs as <- <-.
  apply bind_Return_inv in H as (temp_path & wb & Hmk & H).
  apply mkdtemp_Return_inv in Hmk as (Hdir & rest & Htry & ->).
  apply mkdtemp_try_spec in Htry as (Hfree & name & Hname & ->).
  apply bind_Return_inv in H as (temp_exists & wb' & Hex & H).
  unfold gfile_exists in Hex. injection Hex as <- <-.
  rewrite bool_decide_eq_true_2 in H
    by (wsimpl; rewrite lookup_insert_eq; eauto).
  apply bind_Return_inv in H as ([] & wb' & Hret & H). injection Hret as <-.
  apply bind_Return_inv in H as ([] & wc & Hzip & H).
  apply with_ZipFile_x_Return_inv in Hzip as (Hnew & w'' & Hbody & ->).
  apply gfile_rmtree_Return_inv in H as ->.
  destruct (save_body_final fuel model s' (scratch dirpath name)
    (set_zip [] (set_fs <[gfile_join dirpath _ARCHIVE_FILENAME:=Zip []]>
       (set_fs <[scratch dirpath name:=Dir]> (set_tmp_names rest wa)))))
    as (new & Hz & Hnames & Hst & Hcalls).
  rewrite Hbody in Hz, Hst. cbn [final_world] in Hz, Hst. revert Hz Hst. wsimpl.
  cbn [app]. intros Hz Hst.
  destruct (Hcalls _ _ Hbody) as (cs & Hcs).
  assert (Hwa : states wa = states w).
  { revert Hmkdir.
    destruct (bool_decide (is_Some (fs w !! dirpath))); simpl.
    - now intros [= <-].
    - intros Hmkdir. now apply gfile_mkdir_Return_inv in Hmkdir as [-> | [_ ->]]. }
  exists r', s', new. repeat split; auto.
  - wsimpl. rewrite rmtree_lookup_other by now apply scratch_not_archive.
    now rewrite lookup_insert_eq, Hz.
  - now apply config_entry_read_back.
  - wsimpl. now rewrite Hst.
  - exists cs. wsimpl. rewrite Hcs, Hz. reflexivity.
Qed.

Lemma states_file_neq_scratch (temp_path : string) :
  gfile_join temp_path _STATES_FILENAME <> temp_path.
Proof.
  intros Heq.
  pose proof (gfile_join_length temp_path _STATES_FILENAME eq_refl) as Hlen.
  rewrite Heq in Hlen. cbn in Hlen. lia.
Qed.

(** [save] from the call of [mkdtemp] on: the outcome of the body of the
    [with] block decides, and the scratch directory is there when the block
    is left. *)
Lemma save_unfold (fuel : nat) (model : pyobj) (dirpath : string) (w : world)
    (r : pyval) (s name : string) (rest : list string) :
  fs w !! dirpath = Some Dir ->
  fs w !! gfile_join dirpath _ARCHIVE_FILENAME = None ->
  mkdtemp_try dirpath (tmp_names w) (fs w) = (Some (scratch dirpath name), rest) ->
  serialize_keras_object env model = Ok r ->
  json_dumps env r = Ok s ->
  fs (final_world
        ((zip_writestr _CONFIG_FILENAME s ;;
          _save_state fuel model _STATES_ROOT_DIRNAME (scratch dirpath name) ;;
          _print_archive "saved in")
           (set_zip [] (set_fs (insert (gfile_join dirpath _ARCHIVE_FILENAME) (Zip []))
              (set_fs (insert (scratch dirpath name) Dir) (set_tmp_names rest w))))))
    !! scratch dirpath name = Some Dir /\
  save env fuel model dirpath w =
    match (zip_writestr _CONFIG_FILENAME s ;;
           _save_state fuel model _STATES_ROOT_DIRNAME (scratch dirpath name) ;;
           _print_archive "saved in")
            (set_zip [] (set_fs (insert (gfile_join dirpath _ARCHIVE_FILENAME) (Zip []))
               (set_fs (insert (scratch dirpath name) Dir) (set_tmp_names rest w))))
    with
    | Return _ w'' =>
        Return tt
          (set_fs (filter (fun kv : string * fnode =>
                             is_under (scratch dirpath name) kv.1 = false))
             (zip_close_w (gfile_join dirpath _ARCHIVE_FILENAME) w''))
    | Raise e w'' => Raise e (zip_close_w (gfile_join dirpath _ARCHIVE_FILENAME) w'')
    end.
Proof.
  intros Hd Hnone Ht Hr Hs.
  set (file_path := gfile_join dirpath _ARCHIVE_FILENAME) in *.
  set (wb := set_fs (insert (scratch dirpath name) Dir) (set_tmp_names rest w)).
  set (wc := set_zip [] (set_fs (insert file_path (Zip [])) wb)).
  set (body := (zip_writestr _CONFIG_FILENAME s ;;
                _save_state fuel model _STATES_ROOT_DIRNAME (scratch dirpath name) ;;
                _print_archive "saved in")).
  pose proof (preserves_final _ _ _ wc
                (save_body_frame fuel model s (scratch dirpath name))) as Hframe.
  fold body in Hframe.
  assert (Htemp : fs (final_world (body wc)) !! scratch dirpath name = Some Dir).
  { rewrite Hframe by (apply not_eq_sym, states_file_neq_scratch).
    unfold wc, wb. wsimpl.
    rewrite lookup_insert_ne by (apply not_eq_sym, scratch_neq_archive).
    apply lookup_insert_eq. }
  split; [exact Htemp|].
  assert (Hwith : with_ZipFile_x file_path body wb =
                  match body wc with
                  | Return a w'' => Return a (zip_close_w file_path w'')
                  | Raise e w'' => Raise e (zip_close_w file_path w'')
                  end).
  { unfold with_ZipFile_x, zip_open_x. unfold wb at 1. wsimpl.
    rewrite lookup_insert_ne by apply scratch_neq_archive.
    rewrite Hnone. reflexivity. }
  unfold save.
  rewrite (bind_Return _ _ _ _ _ (gfile_exists_Some _ _ _ Hd)). simpl negb. cbv iota.
  rewrite (bind_Return _ _ w w tt) by reflexivity.
  rewrite Hr. rewrite (bind_Return _ _ w w r) by reflexivity.
  rewrite Hs. rewrite (bind_Return _ _ w w s) by reflexivity.
  rewrite (bind_Return _ _ _ _ _ (mkdtemp_Return _ _ _ _ Hd Ht)). fold wb.
  erewrite bind_Return
    by (eapply gfile_exists_Some; unfold wb; wsimpl; apply lookup_insert_eq).
  simpl negb. cbv iota.
  erewrite bind_Return by reflexivity.
  fold file_path. fold body. unfold bind at 1. rewrite Hwith.
  destruct (body wc) as [[] w'' | e w'']; cbn [final_world] in Htemp; [|reflexivity].
  eapply gfile_rmtree_Return. wsimpl.
  rewrite lookup_insert_ne by (apply not_eq_sym, scratch_neq_archive). exact Htemp.
Qed.

(** X15: a [save] that raises once the archive is open leaves the archive
    behind, closed, with the config entry and the state entries written so
    far, and leaves its scratch directory; the runtime state is as it was. *)
Theorem save_failure_leaves_archive (fuel : nat) (model : pyobj) (dirpath : string)
    (w w' : world) (r : pyval) (s temp_path : string) (rest : list string)
    (e : pyerror) :
  fs w !! dirpath = Some Dir ->
  fs w !! gfile_join dirpath _ARCHIVE_FILENAME = None ->
  mkdtemp_try dirpath (tmp_names w) (fs w) = (Some temp_path, rest) ->
  serialize_keras_object env model = Ok r ->
  json_dumps env r = Ok s ->
  save env fuel model dirpath w = Raise e w' ->
  (exists new,
     fs w' !! gfile_join dirpath _ARCHIVE_FILENAME =
       Some (Zip ((_CONFIG_FILENAME, s) :: new)) /\
     forall name, name ∈ namelist new ->
       exists zip_dir_path, name = gfile_join zip_dir_path _STATES_FILENAME) /\
  fs w' !! temp_path = Some Dir /\
  zip w' = [] /\ states w' = states w.
Proof.
  intros Hd Hnone Ht Hr Hs Hsave.
  destruct (mkdtemp_try_spec _ _ _ _ _ Ht) as (Hfree & name & _ & ->).
  destruct (save_unfold fuel model dirpath w r s name rest Hd Hnone Ht Hr Hs)
    as (Htemp & Heq).
  rewrite Heq in Hsave.
  destruct (save_body_final fuel model s (scratch dirpath name)
    (set_zip [] (set_fs (insert (gfile_join dirpath _ARCHIVE_FILENAME) (Zip []))
       (set_fs (insert (scratch dirpath name) Dir) (set_tmp_names rest w)))))
    as (new & Hz & Hnames & Hst & _).
  destruct ((zip_writestr _CONFIG_FILENAME s ;;
             _save_state fuel model _STATES_ROOT_DIRNAME (scratch dirpath name) ;;
             _print_archive "saved in") _) as [[] w'' | e' w'']; [discriminate|].
  injection Hsave as <- <-. cbn [final_world] in *. revert Hz Hst. wsimpl.
  cbn [app]. intros Hz Hst. split; [|split; [|split]].
  - exists new. split; [|exact Hnames]. now rewrite lookup_insert_eq, Hz.
  - rewrite lookup_insert_ne by (apply not_eq_sym, scratch_neq_archive). exact Htemp.
  - reflexivity.
  - exact Hst.
Qed.

Lemma save_state_total (fuel : nat) :
  forall (trackable : pyobj) (zip_dir_path temp_path : string),
  walkable fuel trackable = true ->
  returns (fun _ => True)
    (_save_state fuel trackable zip_dir_path temp_path) (fun _ _ => True).
Proof.
  induction fuel as [|fuel IH]; intros trackable zip_dir_path temp_path Hwalk;
    [discriminate|].
  intros w _.
  destruct (save_state_unfold fuel trackable zip_dir_path temp_path w)
    as (w1 & -> & _).
  apply (visit_children_returns (fun _ => True) fuel); auto.
Qed.

(** X16: [save] returns for a model at any runtime state of its objects,
    with hooks that write the file they are asked for or return [None]: the
    destination is a directory without an archive, a name for the scratch
    directory is free, the model has a record that goes to JSON, and the
    walk over the children raises nowhere. The name drawn is used up and the
    scratch directory is gone. *)
Theorem save_returns (fuel : nat) (model : pyobj) (dirpath : string) (w : world)
    (r : pyval) (s temp_path : string) (rest : list string) :
  fs w !! dirpath = Some Dir ->
  fs w !! gfile_join dirpath _ARCHIVE_FILENAME = None ->
  mkdtemp_try dirpath (tmp_names w) (fs w) = (Some temp_path, rest) ->
  serialize_keras_object env model = Ok r ->
  json_dumps env r = Ok s ->
  walkable fuel model = true ->
  exists w1,
    save env fuel model dirpath w = Return tt w1 /\
    tmp_names w1 = rest /\ fs w1 !! temp_path = None.
Proof.
  intros Hd Hnone Ht Hr Hs Hwalk.
  destruct (mkdtemp_try_spec _ _ _ _ _ Ht) as (Hfree & name & _ & ->).
  destruct (save_unfold fuel model dirpath w r s name rest Hd Hnone Ht Hr Hs)
    as (_ & ->).
  pose proof (preserves_final _ _ _
                (set_zip ([] ++ [(_CONFIG_FILENAME, s)])
                   (set_zip [] (set_fs (insert (gfile_join dirpath _ARCHIVE_FILENAME) (Zip []))
                      (set_fs (insert (scratch dirpath name) Dir) (set_tmp_names rest w)))))
                (save_state_adds fuel model _STATES_ROOT_DIRNAME (scratch dirpath name)))
    as (_ & Hn & _).
  unfold bind at 1 2. unfold zip_writestr. wsimpl.
  destruct (save_state_total fuel model _STATES_ROOT_DIRNAME (scratch dirpath name)
              Hwalk
              (set_zip ([] ++ [(_CONFIG_FILENAME, s)])
                 (set_zip [] (set_fs (insert (gfile_join dirpath _ARCHIVE_FILENAME) (Zip []))
                    (set_fs (insert (scratch dirpath name) Dir) (set_tmp_names rest w)))))
              I) as ([] & w'' & Hss & _).
  rewrite Hss in Hn |- *. cbn [final_world] in Hn. unfold _print_archive.
  eexists. split; [reflexivity|]. wsimpl. split; [exact Hn|].
  apply rmtree_lookup_under, is_under_refl.
Qed.


Lemma getinfo_absent (z : list (string * string)) (name : string) :
  name ∉ namelist z -> zip_getinfo z name = None.
Proof.
  intros Hni. unfold zip_getinfo. rewrite <- (app_nil_r (reverse z)).
  rewrite dict_get_app_absent; [reflexivity|].
  now rewrite fmap_reverse, elem_of_reverse.
Qed.

(** X18: [load] on a directory whose archive cannot be used: when a plain
    file is in the place of the archive, opening it raises [BadZipFile], and
    when the archive has no config entry, reading it raises [KeyError] after
    the listing has been printed. Either way the scratch directory made
    before is left, and nothing else has changed. *)
Theorem load_unusable_archive (fuel : nat) (dirpath : string) (w : world)
    (temp_path : string) (rest : list string) :
  fs w !! dirpath = Some Dir ->
  mkdtemp_try dirpath (tmp_names w) (fs w) = (Some temp_path, rest) ->
  (forall content,
     fs w !! gfile_join dirpath _ARCHIVE_FILENAME = Some (File content) ->
     load env fuel dirpath w =
       Raise BadZipFile (set_fs (insert temp_path Dir) (set_tmp_names rest w))) /\
  (forall entries,
     fs w !! gfile_join dirpath _ARCHIVE_FILENAME = Some (Zip entries) ->
     _CONFIG_FILENAME ∉ namelist entries ->
     load env fuel dirpath w =
       Raise KeyError
         (set_zip []
            (add_call (PrintArchive "loaded from" (namelist entries))
               (set_fs (insert temp_path Dir) (set_tmp_names rest w))))).
Proof.
  intros Hd Ht.
  destruct (load_mkdtemp fuel _ _ _ _ Hd Ht) as (name & -> & _ & Hfree & Hmk).
  split.
  - intros content Hfile. unfold load. rewrite (bind_Return _ _ _ _ _ Hmk).
    apply bind_Raise. unfold with_ZipFile_r, zip_open_r. wsimpl.
    rewrite lookup_insert_ne by apply scratch_neq_archive. now rewrite Hfile.
  - intros entries Hzip Hni. unfold load. rewrite (bind_Return _ _ _ _ _ Hmk).
    apply bind_Raise. unfold with_ZipFile_r, zip_open_r. wsimpl.
    rewrite lookup_insert_ne by apply scratch_neq_archive. rewrite Hzip.
    unfold bind at 1. unfold _print_archive. wsimpl.
    unfold bind at 1. unfold zip_read. wsimpl.
    rewrite (getinfo_absent _ _ Hni). reflexivity.
Qed.

Lemma visit_children_skips (trackable : pyobj) (zip_dir_path : string)
    (recurse : pyobj -> string -> M unit) (d : list (string * pyobj)) (w : world) :
  _get_unique_children_dict trackable = Ok d ->
  (forall e, e ∈ d -> _is_keras_trackable e.2 = false) ->
  visit_children trackable zip_dir_path recurse w = Return tt w.
Proof.
  intros Hd Hno. unfold visit_children. rewrite Hd.
  rewrite (bind_Return _ _ w w d) by reflexivity. clear Hd.
  induction d as [|[child_attr child_obj] d IH]; [reflexivity|].
  assert (Hc : _is_keras_trackable child_obj = false)
    by (apply (Hno (child_attr, child_obj)); now left).
  cbn [for_each]. rewrite Hc.
  rewrite (bind_Return _ _ w w tt) by reflexivity.
  apply IH. intros e He. apply Hno. now right.
Qed.

(** X19: the two state passes go down to the children that are layers and
    to no others: at an object none of whose children is a layer, the pass
    of [save] and the pass of [load] do their own step and return, whatever
    state the children hold and whatever hooks they have. *)
Theorem children_that_are_no_layers_are_skipped (fuel : nat) (trackable : pyobj)
    (zip_dir_path temp_path : string) (w : world) (d : list (string * pyobj)) :
  _get_unique_children_dict trackable = Ok d ->
  (forall e, e ∈ d -> _is_keras_trackable e.2 = false) ->
  (exists w1,
     externalized trackable zip_dir_path temp_path w w1 /\
     _save_state (S fuel) trackable zip_dir_path temp_path w = Return tt w1) /\
  (exists w1,
     absorbed trackable zip_dir_path temp_path w w1 /\
     _load_state (S fuel) trackable zip_dir_path temp_path w = Return tt w1).
Proof.
  intros Hd Hno. split.
  - destruct (save_state_unfold fuel trackable zip_dir_path temp_path w)
      as (w1 & Heq & Hext).
    exists w1. split; [exact Hext|]. rewrite Heq.
    now apply (visit_children_skips _ _ _ d).
  - destruct (load_state_unfold fuel trackable zip_dir_path temp_path w)
      as (w1 & Heq & Habs).
    exists w1. split; [exact Habs|]. rewrite Heq.
    now apply (visit_children_skips _ _ _ d).
Qed.

(** X20: when the archive has an entry for the path of an object that has
    the [_load_state] attribute, the entry is extracted below the scratch
    directory, the hook is called once, on the extracted file, so that the
    object takes the data of the entry as its runtime state, and the file is
    removed before the children are visited. *)
Theorem load_state_hands_entry_to_hook (fuel : nat) (id : nat) (cls : pyclass)
    (a : attrs) (ch : list (string * pyobj)) (zip_dir_path temp_path : string)
    (w : world) :
  gfile_join zip_dir_path _STATES_FILENAME ∈ namelist (zip w) ->
  a_load_state a = true ->
  exists data w',
    zip_getinfo (zip w) (gfile_join zip_dir_path _STATES_FILENAME) = Some data /\
    _load_state (S fuel) (PyObject id cls a ch) zip_dir_path temp_path w =
      visit_children (PyObject id cls a ch) zip_dir_path
        (fun child_obj child_path => _load_state fuel child_obj child_path temp_path) w' /\
    states w' = <[id := data]> (states w) /\
    calls w' = calls w ++
      [CallLoadState id (gfile_join temp_path (gfile_join zip_dir_path _STATES_FILENAME))] /\
    fs w' !! gfile_join temp_path (gfile_join zip_dir_path _STATES_FILENAME) = None /\
    zip w' = zip w.
Proof.
  intros Hin Ha.
  destruct (load_state_unfold fuel (PyObject id cls a ch) zip_dir_path temp_path w)
    as (w' & Heq & (Hz & _ & _ & Hpresent)).
  destruct (Hpresent Hin) as (data & Hget & Hfs & Hhook).
  cbn [has_load_state obj_id] in Hhook. rewrite Ha in Hhook.
  destruct Hhook as [Hst Hc].
  exists data, w'. repeat split; auto.
  rewrite Hfs. apply lookup_delete_eq.
Qed.

(** [save] of a model without children that holds runtime state. *)
Lemma save_leaf (fuel : nat) (id : nat) (cls : pyclass) (a : attrs) (dirpath : string)
    (w : world) (r : pyval) (s name : string) (rest : list string) (blob : string) :
  fs w !! dirpath = Some Dir ->
  fs w !! gfile_join dirpath _ARCHIVE_FILENAME = None ->
  tmp_names w = name :: rest ->
  fs w !! scratch dirpath name = None ->
  a_save_state a = true ->
  states w !! id = Some blob ->
  serialize_keras_object env (PyObject id cls a []) = Ok r ->
  json_dumps env r = Ok s ->
  exists w1,
    save env (S fuel) (PyObject id cls a []) dirpath w = Return tt w1 /\
    fs w1 =
      filter (fun kv : string * fnode => is_under (scratch dirpath name) kv.1 = false)
        (<[gfile_join dirpath _ARCHIVE_FILENAME :=
             Zip [(_CONFIG_FILENAME, s);
                  (gfile_join _STATES_ROOT_DIRNAME _STATES_FILENAME, blob)]]>
           (delete (gfile_join (scratch dirpath name) _STATES_FILENAME)
              (<[gfile_join (scratch dirpath name) _STATES_FILENAME := File blob]>
                 (<[gfile_join dirpath _ARCHIVE_FILENAME := Zip []]>
                    (<[scratch dirpath name := Dir]> (fs w)))))) /\
    tmp_names w1 = rest /\ states w1 = states w.
Proof.
  intros Hd Hnone Hnames Hfree Hhook Hst Hr Hs.
  assert (Ht : mkdtemp_try dirpath (tmp_names w) (fs w) = (Some (scratch dirpath name), rest)).
  { rewrite Hnames. cbn [mkdtemp_try]. fold (scratch dirpath name). now rewrite Hfree. }
  destruct (save_unfold (S fuel) (PyObject id cls a []) dirpath w r s name rest
              Hd Hnone Ht Hr Hs) as (_ & ->).
  unfold bind at 1 2. unfold zip_writestr. wsimpl. cbn [app].
  set (wc := set_zip [(_CONFIG_FILENAME, s)]
               (set_zip [] (set_fs (insert (gfile_join dirpath _ARCHIVE_FILENAME) (Zip []))
                  (set_fs (insert (scratch dirpath name) Dir) (set_tmp_names rest w))))).
  destruct (save_state_unfold fuel (PyObject id cls a []) _STATES_ROOT_DIRNAME
              (scratch dirpath name) wc) as (w2 & -> & (Hn2 & Hs2 & Hown)).
  cbn [has_save_state obj_id] in Hown. rewrite Hhook in Hown.
  destruct Hown as [_ Hown]. unfold wc in Hown at 1. revert Hown. wsimpl.
  rewrite Hst. intros [Hz2 Hfs2].
  unfold _print_archive. eexists. split; [reflexivity|]. wsimpl.
  rewrite Hz2, Hfs2, Hn2, Hs2. unfold wc. wsimpl. auto.
Qed.

(** X21: the runtime state of a model without children comes back: [save]
    writes it as the entry [model/states.npz] after the config entry, and
    [load] of the directory hands the data of this entry to the object
    rebuilt from the config, so that the rebuilt object holds the state that
    the saved one held. *)
Theorem save_load_restores_state (fuel fuel' : nat) (dirpath : string) (w : world)
    (id : nat) (cls : pyclass) (a : attrs) (id' : nat) (cls' : pyclass) (a' : attrs)
    (r : pyval) (s n1 n2 : string) (rest : list string) (blob : string) :
  fs w !! dirpath = Some Dir ->
  fs w !! gfile_join dirpath _ARCHIVE_FILENAME = None ->
  tmp_names w = n1 :: n2 :: rest ->
  fs w !! scratch dirpath n1 = None ->
  fs w !! scratch dirpath n2 = None ->
  a_save_state a = true ->
  states w !! id = Some blob ->
  serialize_keras_object env (PyObject id cls a []) = Ok r ->
  json_dumps env r = Ok s ->
  json_decode env s = Ok r ->
  deserialize_keras_object env r = Ok (PyObject id' cls' a' []) ->
  a_load_state a' = true ->
  exists w1 w2,
    save env (S fuel) (PyObject id cls a []) dirpath w = Return tt w1 /\
    fs w1 !! gfile_join dirpath _ARCHIVE_FILENAME =
      Some (Zip [(_CONFIG_FILENAME, s);
                 (gfile_join _STATES_ROOT_DIRNAME _STATES_FILENAME, blob)]) /\
    load env (S fuel') dirpath w1 = Return (PyObject id' cls' a' []) w2 /\
    states w2 = <[id' := blob]> (states w).
Proof.
  intros Hd Hnone Hnames Hfree1 Hfree2 Hhook Hst Hr Hs Hdec Hdes Hhook'.
  destruct (save_leaf fuel id cls a dirpath w r s n1 (n2 :: rest) blob
              Hd Hnone Hnames Hfree1 Hhook Hst Hr Hs)
    as (w1 & Hsave & Hfs1 & Hn1 & Hst1).
  set (entries := [(_CONFIG_FILENAME, s);
                   (gfile_join _STATES_ROOT_DIRNAME _STATES_FILENAME, blob)]) in *.
  set (hint := gfile_join (scratch dirpath n1) _STATES_FILENAME) in *.
  assert (Hne : gfile_join dirpath _ARCHIVE_FILENAME <> dirpath).
  { intros Heq. rewrite Heq in Hnone. congruence. }
  assert (Hd1 : fs w1 !! dirpath = Some Dir).
  { rewrite Hfs1, rmtree_lookup_other by apply scratch_not_dir.
    rewrite lookup_insert_ne by auto.
    rewrite lookup_delete_ne
      by (apply (states_file_neq_dir _ dirpath n1); reflexivity).
    rewrite lookup_insert_ne
      by (apply (states_file_neq_dir _ dirpath n1); reflexivity).
    rewrite lookup_insert_ne by auto.
    rewrite lookup_insert_ne by apply scratch_neq_dir. exact Hd. }
  assert (Hz1 : fs w1 !! gfile_join dirpath _ARCHIVE_FILENAME = Some (Zip entries)).
  { rewrite Hfs1, rmtree_lookup_other by now apply scratch_not_archive.
    apply lookup_insert_eq. }
  assert (Ht1 : mkdtemp_try dirpath (tmp_names w1) (fs w1) =
                (Some (scratch dirpath n2), rest)).
  { rewrite Hn1. cbn [mkdtemp_try]. fold (scratch dirpath n2).
    assert (Hfree : fs w1 !! scratch dirpath n2 = None).
    { rewrite Hfs1.
      destruct (is_under (scratch dirpath n1) (scratch dirpath n2)) eqn:Eu.
      - now apply rmtree_lookup_under.
      - rewrite rmtree_lookup_other by exact Eu.
        rewrite lookup_insert_ne by (apply not_eq_sym, scratch_neq_archive).
        destruct (decide (hint = scratch dirpath n2)) as [<- | Hh].
        + apply lookup_delete_eq.
        + rewrite lookup_delete_ne by exact Hh.
          rewrite lookup_insert_ne by exact Hh.
          rewrite lookup_insert_ne by (apply not_eq_sym, scratch_neq_archive).
          rewrite lookup_insert_ne by now apply is_under_neq.
          exact Hfree2. }
    now rewrite Hfree. }
  set (w2' := add_call (PrintArchive "loaded from" (namelist entries))
                (set_zip entries
                   (set_fs (insert (scratch dirpath n2) Dir) (set_tmp_names rest w1)))).
  destruct (load_state_unfold fuel' (PyObject id' cls' a' []) _STATES_ROOT_DIRNAME
              (scratch dirpath n2) w2') as (w3 & Hls & (_ & _ & _ & Hpresent)).
  destruct Hpresent as (data & Hget & _ & Hown).
  { unfold w2', entries, namelist. wsimpl. cbn [fmap list_fmap fst].
    apply list_elem_of_further, list_elem_of_here. }
  cbn [has_load_state obj_id] in Hown. rewrite Hhook' in Hown.
  destruct Hown as [Hst3 _].
  assert (Hdata : data = blob).
  { unfold w2', entries in Hget. revert Hget. wsimpl.
    unfold zip_getinfo. cbn. rewrite String.eqb_refl. now intros [= <-]. }
  subst data.
  assert (Hcfg : zip_getinfo entries _CONFIG_FILENAME = Some s).
  { apply config_entry_read_back. intros name Hn. unfold namelist in Hn.
    apply list_elem_of_singleton in Hn. eauto. }
  destruct (load_with env (S fuel') dirpath w1 entries s r (PyObject id' cls' a' []) n2 rest w3
              Hd1 Hz1 Ht1 Hcfg Hdec Hdes) as (w2 & Hload & Hst2 & _).
  { fold w2'. rewrite Hls. reflexivity. }
  exists w1, w2. split; [exact Hsave|]. split; [exact Hz1|]. split; [exact Hload|].
  rewrite Hst2, Hst3. unfold w2'. wsimpl. now rewrite Hst1.
Qed.

(** X22: the set of objects met is kept for one enumeration, not for the
    walk: a stateful layer that is a child of the model and also a child of
    a sub-model is saved once for each of the two, under the two paths. *)
Theorem shared_layer_saved_per_parent (fuel : nat) (id : nat) (cls : pyclass) (a : attrs)
    (n1 n2 n3 : string) (cid : nat) (ccls : pyclass) (ca : attrs)
    (pid : nat) (pcls : pyclass) (pa : attrs)
    (zip_dir_path temp_path : string) (w : world) (blob : string) :
  n1 <> n2 -> cid <> pid ->
  a_variable ca = false -> a_layer ca = true -> a_save_state ca = true ->
  a_eq ca = ByIdentity ->
  a_variable pa = false -> a_layer pa = true -> a_save_state pa = false ->
  a_eq pa = ByIdentity ->
  states w !! cid = Some blob ->
  exists w1 w',
    externalized
      (PyObject id cls a
         [(n1, PyObject cid ccls ca []);
          (n2, PyObject pid pcls pa [(n3, PyObject cid ccls ca [])])])
      zip_dir_path temp_path w w1 /\
    _save_state (S (S (S fuel)))
      (PyObject id cls a
         [(n1, PyObject cid ccls ca []);
          (n2, PyObject pid pcls pa [(n3, PyObject cid ccls ca [])])])
      zip_dir_path temp_path w = Return tt w' /\
    zip w' = zip w1 ++
      [(gfile_join (gfile_join zip_dir_path n1) _STATES_FILENAME, blob);
       (gfile_join (gfile_join (gfile_join zip_dir_path n2) n3) _STATES_FILENAME, blob)].
Proof.
  intros Hn Hid Hvar Hlayer Hhook Heq Hpvar Hplayer Hphook Hpeq Hst.
  set (child := PyObject cid ccls ca []).
  set (sub := PyObject pid pcls pa [(n3, child)]).
  set (root := PyObject id cls a [(n1, child); (n2, sub)]).
  assert (Hcc : collectable child = true).
  { unfold collectable, child. cbn [is_variable eqmode_of]. now rewrite Hvar, Heq. }
  assert (Hcs : collectable sub = true).
  { unfold collectable, sub. cbn [is_variable eqmode_of]. now rewrite Hpvar, Hpeq. }
  assert (Hvc : is_variable child = false) by exact Hvar.
  assert (Hvs : is_variable sub = false) by exact Hpvar.
  assert (Hm : matches sub child = false).
  { unfold matches, py_eq, sub, child. cbn [py_is eqmode_of]. rewrite Hpeq, orb_false_r.
    apply Nat.eqb_neq. congruence. }
  assert (Hroot : _get_unique_children_dict root = Ok [(n1, child); (n2, sub)]).
  { unfold _get_unique_children_dict, root. cbn [children rbind].
    rewrite WalkerFacts.collect_children_flat.
    replace (flat_children [(n1, child); (n2, sub)]) with [(n1, child); (n2, sub)]
      by reflexivity.
    cbn [collect_flat]. rewrite (WalkerFacts.collect_step n1 child [] [] Hcc), Hvc.
    cbn [existsb orb rbind dict_set].
    rewrite (WalkerFacts.collect_step n2 sub _ _ Hcs), Hvs. cbn [existsb orb].
    rewrite Hm. cbn [orb rbind dict_set fst].
    destruct (String.eqb_spec n1 n2); [contradiction | reflexivity]. }
  assert (Hsub : _get_unique_children_dict sub = Ok [(n3, child)]).
  { unfold _get_unique_children_dict, sub. cbn [children rbind].
    rewrite WalkerFacts.collect_children_flat.
    replace (flat_children [(n3, child)]) with [(n3, child)] by reflexivity.
    cbn [collect_flat]. rewrite (WalkerFacts.collect_step n3 child [] [] Hcc), Hvc.
    reflexivity. }
  assert (Hleaf : _get_unique_children_dict child = Ok []) by reflexivity.
  destruct (save_state_unfold (S (S fuel)) root zip_dir_path temp_path w)
    as (w1 & Hr1 & Hext1).
  destruct (save_state_unfold (S fuel) child (gfile_join zip_dir_path n1) temp_path w1)
    as (w2 & Hr2 & Hext2).
  destruct (save_state_unfold (S fuel) sub (gfile_join zip_dir_path n2) temp_path w2)
    as (w3 & Hr3 & Hext3).
  destruct (save_state_unfold fuel child
              (gfile_join (gfile_join zip_dir_path n2) n3) temp_path w3)
    as (w4 & Hr4 & Hext4).
  exists w1, w4. split; [exact Hext1|]. split.
  - rewrite Hr1. unfold visit_children at 1. rewrite Hroot.
    rewrite (bind_Return _ _ w1 w1 [(n1, child); (n2, sub)]) by reflexivity.
    cbn [for_each]. unfold child at 1, sub at 1. cbn [_is_keras_trackable].
    rewrite Hlayer, Hplayer. fold child. fold sub.
    unfold bind at 1. rewrite Hr2. unfold visit_children at 1. rewrite Hleaf.
    cbn [lift]. unfold bind at 1. cbn [ret for_each].
    unfold bind at 1. rewrite Hr3. unfold visit_children at 1. rewrite Hsub.
    cbn [lift]. unfold bind at 1. cbn [ret for_each].
    unfold child at 1. cbn [_is_keras_trackable]. rewrite Hlayer. fold child.
    unfold bind at 1. rewrite Hr4. unfold visit_children at 1. rewrite Hleaf.
    reflexivity.
  - destruct Hext1 as (_ & Hs1 & _).
    destruct Hext2 as (_ & Hs2 & Hown2).
    destruct Hext3 as (_ & _ & Hown3).
    destruct Hext4 as (_ & _ & Hown4).
    unfold child in Hown2, Hown4. unfold sub in Hown3.
    cbn [has_save_state obj_id] in Hown2, Hown3, Hown4.
    rewrite Hhook in Hown2, Hown4. rewrite Hphook in Hown3. subst w3.
    rewrite Hs1, Hst in Hown2. rewrite Hs2, Hs1, Hst in Hown4.
    destruct Hown2 as (_ & Hz2 & _). destruct Hown4 as (_ & Hz4 & _).
    rewrite Hz4, Hz2, <- app_assoc. reflexivity.
Qed.

End WithEnv.

Lemma save_archive_layout_witness :
  exists r s new,
    serialize_keras_object Sample.env (Sample.model 0) = Ok r /\
    json_dumps Sample.env r = Ok s /\
    fs Sample.saved_dir !! gfile_join "d" _ARCHIVE_FILENAME =
      Some (Zip ((_CONFIG_FILENAME, s) :: new)) /\
    (forall name, name ∈ namelist new ->
       exists zip_dir_path, name = gfile_join zip_dir_path _STATES_FILENAME) /\
    zip_getinfo ((_CONFIG_FILENAME, s) :: new) _CONFIG_FILENAME = Some s /\
    states Sample.saved_dir = states Sample.empty_dir /\ zip Sample.saved_dir = [] /\
    exists cs,
      calls Sample.saved_dir =
        cs ++ [PrintArchive "saved in" (_CONFIG_FILENAME :: namelist new)].
Proof.
  apply (save_archive_layout Sample.env 3 (Sample.model 0) "d" Sample.empty_dir
           Sample.saved_dir).
  vm_compute. reflexivity.
Defined.

(** The model has a list within a list child: the walk raises at the root,
    after the config entry has been written. *)
Lemma save_failure_leaves_archive_witness :
  (exists new,
     fs (final_world (save Sample.env 3 Fixtures.nested_lists "d" Sample.empty_dir))
       !! gfile_join "d" _ARCHIVE_FILENAME =
       Some (Zip ((_CONFIG_FILENAME, "model_record") :: new)) /\
     forall name, name ∈ namelist new ->
       exists zip_dir_path, name = gfile_join zip_dir_path _STATES_FILENAME) /\
  fs (final_world (save Sample.env 3 Fixtures.nested_lists "d" Sample.empty_dir))
    !! "d/tmpk3x" = Some Dir /\
  zip (final_world (save Sample.env 3 Fixtures.nested_lists "d" Sample.empty_dir)) = [] /\
  states (final_world (save Sample.env 3 Fixtures.nested_lists "d" Sample.empty_dir)) =
    states Sample.empty_dir.
Proof.
  apply (save_failure_leaves_archive Sample.env 3 Fixtures.nested_lists "d"
           Sample.empty_dir _ Sample.model_record "model_record" "d/tmpk3x" ["q7p"]
           TypeError); vm_compute; reflexivity.
Defined.

Lemma save_returns_witness :
  exists w1,
    save Sample.env 1 (Fixtures.leaf 0) "d" Fixtures.stateful_dir = Return tt w1 /\
    tmp_names w1 = ["q7p"] /\ fs w1 !! "d/tmpk3x" = None.
Proof.
  apply (save_returns Sample.env 1 (Fixtures.leaf 0) "d" Fixtures.stateful_dir
           Sample.model_record "model_record" "d/tmpk3x" ["q7p"]);
    vm_compute; reflexivity.
Defined.


Lemma load_unusable_archive_witness :
  load Sample.env 3 "d" Fixtures.plain_file_dir =
    Raise BadZipFile
      (set_fs (insert "d/tmpk3x" Dir) (set_tmp_names ["q7p"] Fixtures.plain_file_dir)) /\
  load Sample.env 3 "d" Fixtures.no_config_dir =
    Raise KeyError
      (set_zip []
         (add_call (PrintArchive "loaded from" (namelist [("model/states.npz", "weights")]))
            (set_fs (insert "d/tmpk3x" Dir) (set_tmp_names ["q7p"] Fixtures.no_config_dir)))).
Proof.
  split.
  - apply (proj1 (load_unusable_archive Sample.env 3 "d" Fixtures.plain_file_dir
                    "d/tmpk3x" ["q7p"] eq_refl eq_refl) "text").
    reflexivity.
  - apply (proj2 (load_unusable_archive Sample.env 3 "d" Fixtures.no_config_dir
                    "d/tmpk3x" ["q7p"] eq_refl eq_refl)
             [("model/states.npz", "weights")]); [reflexivity|].
    vm_compute. intros H. apply list_elem_of_singleton in H. discriminate H.
Defined.

(** The children of the parent are no layers. *)
Lemma children_that_are_no_layers_are_skipped_witness :
  (exists w1,
     externalized Sample.rates_parent "model" "d/tmpk3x" Sample.open_archive w1 /\
     _save_state 1 Sample.rates_parent "model" "d/tmpk3x" Sample.open_archive =
       Return tt w1) /\
  (exists w1,
     absorbed Sample.rates_parent "model" "d/tmpk3x" Sample.open_archive w1 /\
     _load_state 1 Sample.rates_parent "model" "d/tmpk3x" Sample.open_archive =
       Return tt w1).
Proof.
  apply (children_that_are_no_layers_are_skipped 0 Sample.rates_parent "model"
           "d/tmpk3x" Sample.open_archive [("x", Sample.rate_x)]).
  - reflexivity.
  - intros e He. apply list_elem_of_singleton in He. subst e. reflexivity.
Defined.

Lemma load_state_hands_entry_to_hook_witness :
  exists data w',
    zip_getinfo (zip Sample.open_archive) (gfile_join "model" _STATES_FILENAME) =
      Some data /\
    _load_state 1 (Sample.dense 7) "model" "d/tmpk3x" Sample.open_archive =
      visit_children (Sample.dense 7) "model"
        (fun child_obj child_path => _load_state 0 child_obj child_path "d/tmpk3x") w' /\
    states w' = <[7 := data]> (states Sample.open_archive) /\
    calls w' = calls Sample.open_archive ++
      [CallLoadState 7 (gfile_join "d/tmpk3x" (gfile_join "model" _STATES_FILENAME))] /\
    fs w' !! gfile_join "d/tmpk3x" (gfile_join "model" _STATES_FILENAME) = None /\
    zip w' = zip Sample.open_archive.
Proof.
  apply (load_state_hands_entry_to_hook 0 7 Sample.Dense
           (Sample.layer_attrs Sample.dense_config) [] "model" "d/tmpk3x"
           Sample.open_archive).
  - vm_compute. apply list_elem_of_further, list_elem_of_here.
  - reflexivity.
Defined.

Lemma save_load_restores_state_witness :
  exists w1 w2,
    save Fixtures.leaf_env 1 (Fixtures.leaf 0) "d" Fixtures.stateful_dir = Return tt w1 /\
    fs w1 !! gfile_join "d" _ARCHIVE_FILENAME =
      Some (Zip [(_CONFIG_FILENAME, "model_record");
                 (gfile_join _STATES_ROOT_DIRNAME _STATES_FILENAME, "weights")]) /\
    load Fixtures.leaf_env 1 "d" w1 = Return (Fixtures.leaf 10) w2 /\
    states w2 = <[10 := "weights"]> (states Fixtures.stateful_dir).
Proof.
  apply (save_load_restores_state Fixtures.leaf_env 0 0 "d" Fixtures.stateful_dir
           0 Sample.MyModel (Sample.layer_attrs Sample.model_config)
           10 Sample.MyModel (Sample.layer_attrs Sample.model_config)
           Sample.model_record "model_record" "k3x" "q7p" [] "weights");
    vm_compute; reflexivity.
Defined.

Lemma shared_layer_saved_per_parent_witness :
  exists w1 w',
    externalized Fixtures.shared "model" "d/tmpk3x" Fixtures.writing w1 /\
    _save_state 3 Fixtures.shared "model" "d/tmpk3x" Fixtures.writing = Return tt w' /\
    zip w' = zip w1 ++
      [(gfile_join (gfile_join "model" "a") _STATES_FILENAME, "weights");
       (gfile_join (gfile_join (gfile_join "model" "b") "c") _STATES_FILENAME, "weights")].
Proof.
  apply (shared_layer_saved_per_parent 0 0 Sample.MyModel
           (Sample.layer_attrs Sample.model_config) "a" "b" "c"
           1 Sample.Dense (Sample.layer_attrs Sample.dense_config)
           2 Sample.MyModel Fixtures.container_attrs
           "model" "d/tmpk3x" Fixtures.writing "weights");
    try reflexivity; discriminate.
Defined.

End ArchiveMore.
